(** * Secure scan execution engine of parrot_mcp_server

    A shallow embedding of the validation, command assembly, result parsing
    and lifecycle code of

      - [mcp_server/tools/nmap_scan.py]  (NmapValidator, NmapScanner),
      - [mcp_server/db/models.py]        (ScanStatus, ScanResult.update_status),
      - [mcp_server/worker.py]           (DatabaseTask, execute_scan_task),
      - [mcp_server/auth.py]             (roles, permissions, auth_required),
      - [mcp_server/app.py]              (the scan routes),

    followed by the properties of the specification that concern them.

    Conventions.  A Python [str] is a Rocq [string]; a character stands for
    the code point of the same number, so the embedding covers the strings
    whose code points are below 256.  Python integers are [Z].  A dictionary
    with a fixed set of keys is a record whose optional keys are [option]
    fields; dictionaries used as tables are [gmap]s.  The outside world (the
    clock, the [subprocess] module, the XML reader) is an explicit
    environment, and the code that talks to it runs in a small state monad
    that counts the clock readings and logs every spawned process. *)

From Stdlib Require Import ZArith Ascii String List Bool Lia.
From stdpp Require Import base option list gmap strings.

Import ListNotations.
Local Open Scope string_scope.
Local Open Scope Z_scope.
Set Warnings "-register-all".

(* ===================================================================== *)
(** ** Python string primitives *)
(* ===================================================================== *)

Module PyStr.

Definition code (c : ascii) : Z := Z.of_N (N_of_ascii c).

(** [str.isspace] on one character: the white space of Unicode below 256
    (TAB LF VT FF CR, FS GS RS US, SPACE, NEL, NBSP).  The same set is
    what [str.strip()], [str.split()] and the regular expression [\s]
    use on [str] values. *)
Definition isspace (c : ascii) : bool :=
  let n := code c in
  ((9 <=? n) && (n <=? 13)) || ((28 <=? n) && (n <=? 32))
  || (n =? 133) || (n =? 160).

(** [c.isascii() and c.isdigit()] *)
Definition isdigit (c : ascii) : bool :=
  let n := code c in (48 <=? n) && (n <=? 57).

Definition digit_value (c : ascii) : Z := code c - 48.

Fixpoint forallb_str (f : ascii -> bool) (s : string) : bool :=
  match s with
  | EmptyString => true
  | String c s' => f c && forallb_str f s'
  end.

Fixpoint existsb_str (f : ascii -> bool) (s : string) : bool :=
  match s with
  | EmptyString => false
  | String c s' => f c || existsb_str f s'
  end.

(** [c in s] for a one-character [c] *)
Definition contains (c : ascii) (s : string) : bool :=
  existsb_str (Ascii.eqb c) s.

(** truth value of a string: [bool(s)] *)
Definition truthy (s : string) : bool :=
  match s with EmptyString => false | _ => true end.

(** [s.isascii() and s.isdigit()]; the empty string is not a digit string *)
Definition isdigits (s : string) : bool :=
  truthy s && forallb_str isdigit s.

Fixpoint rev_acc (s acc : string) : string :=
  match s with
  | EmptyString => acc
  | String c s' => rev_acc s' (String c acc)
  end.

Definition rev (s : string) : string := rev_acc s EmptyString.

Fixpoint lstrip (s : string) : string :=
  match s with
  | String c s' => if isspace c then lstrip s' else s
  | EmptyString => EmptyString
  end.

Definition rstrip (s : string) : string := rev (lstrip (rev s)).

(** [s.strip()] *)
Definition strip (s : string) : string := rstrip (lstrip s).

(** [s.split(sep)] for a one-character separator: the pieces between the
    separators, empty pieces included, at least one piece. *)
Fixpoint split_on (sep : ascii) (s : string) : list string :=
  match s with
  | EmptyString => [EmptyString]
  | String c s' =>
      if Ascii.eqb c sep then EmptyString :: split_on sep s'
      else match split_on sep s' with
           | w :: ws => String c w :: ws
           | [] => [String c EmptyString]
           end
  end.

(** [s.split()]: the maximal runs of non-space characters.  [cur] is the
    run being read, reversed. *)
Fixpoint split_ws_aux (s : string) (cur : string) : list string :=
  match s with
  | EmptyString => if truthy cur then [rev cur] else []
  | String c s' =>
      if isspace c
      then (if truthy cur then rev cur :: split_ws_aux s' EmptyString
            else split_ws_aux s' EmptyString)
      else split_ws_aux s' (String c cur)
  end.

Definition split (s : string) : list string := split_ws_aux s EmptyString.

(** [s.startswith(p)] *)
Fixpoint startswith (p s : string) : bool :=
  match p, s with
  | EmptyString, _ => true
  | String a p', String b s' => Ascii.eqb a b && startswith p' s'
  | String _ _, EmptyString => false
  end.

(** value of a string of decimal digits, most significant first *)
Fixpoint digits_value (s : string) (acc : Z) : Z :=
  match s with
  | EmptyString => acc
  | String c s' => digits_value s' (10 * acc + digit_value c)
  end.

(** The digit part of an integer literal as [int()] accepts it: decimal
    digits, with single underscores allowed between digits only.
    [prev] tells whether the previous character was a digit. *)
Fixpoint int_body (s : string) (prev : bool) (acc : Z) : option Z :=
  match s with
  | EmptyString => if prev then Some acc else None
  | String c s' =>
      if isdigit c then int_body s' true (10 * acc + digit_value c)
      else if Ascii.eqb c "_" then (if prev then int_body s' false acc else None)
      else None
  end.

(** The white space that [int()] skips around a literal.  The reader of
    the literal skips the ASCII white space only (TAB LF VT FF CR and
    SPACE); before it runs, NEL and NBSP, like every white space that is
    not ASCII, are turned into spaces.  FS GS RS US are white space for
    [str.strip()] and are none here. *)
Definition int_isspace (c : ascii) : bool :=
  let n := code c in
  ((9 <=? n) && (n <=? 13)) || (n =? 32) || (n =? 133) || (n =? 160).

Fixpoint int_lstrip (s : string) : string :=
  match s with
  | String c s' => if int_isspace c then int_lstrip s' else s
  | EmptyString => EmptyString
  end.

Definition int_strip (s : string) : string :=
  rev (int_lstrip (rev (int_lstrip s))).

(** [int(s)] in base 10: the white space around the literal is skipped,
    one sign is allowed, then the digits.  [None] stands for
    [ValueError]. *)
Definition int (s : string) : option Z :=
  match int_strip s with
  | String "-" s' => option_map Z.opp (int_body s' false 0)
  | String "+" s' => int_body s' false 0
  | s' => int_body s' false 0
  end.

(** [str(n)] for a non-negative integer *)
Definition digit_char (d : Z) : ascii := ascii_of_N (Z.to_N (48 + d)).

Fixpoint str_nat_aux (fuel : nat) (n : Z) (acc : string) : string :=
  match fuel with
  | O => acc
  | S fuel' =>
      let acc' := String (digit_char (n mod 10)) acc in
      if n / 10 =? 0 then acc' else str_nat_aux fuel' (n / 10) acc'
  end.

Definition str_Z (n : Z) : string :=
  if n <? 0 then String "-" (str_nat_aux (S (Z.to_nat (Z.log2 (- n)))) (- n) EmptyString)
  else str_nat_aux (S (Z.to_nat (Z.log2 n))) n EmptyString.

(** [sep.join(l)] *)
Fixpoint join (sep : string) (l : list string) : string :=
  match l with
  | [] => EmptyString
  | [x] => x
  | x :: l' => x ++ sep ++ join sep l'
  end.

Definition hex_char (d : Z) : ascii :=
  if d <? 10 then digit_char d else ascii_of_N (Z.to_N (87 + d)).

(** [repr(s)]: quotes are single unless the string holds a single quote
    and no double quote; the quote, the backslash and the characters
    that are not printable are escaped. *)
Definition repr_char (q : ascii) (c : ascii) : string :=
  let n := code c in
  if Ascii.eqb c q || Ascii.eqb c "\" then String "\" (String c EmptyString)
  else if n =? 9 then "\t"
  else if n =? 10 then "\n"
  else if n =? 13 then "\r"
  else if (n <? 32) || ((127 <=? n) && (n <=? 160)) || (n =? 173)
       then String "\" (String "x" (String (hex_char (n / 16))
              (String (hex_char (n mod 16)) EmptyString)))
  else String c EmptyString.

Fixpoint repr_body (q : ascii) (s : string) : string :=
  match s with
  | EmptyString => EmptyString
  | String c s' => repr_char q c ++ repr_body q s'
  end.

Definition dquote : ascii := ascii_of_N 34.

Definition repr (s : string) : string :=
  let q : ascii := if contains "'" s && negb (contains dquote s) then dquote else "'"%char in
  String q (repr_body q s ++ String q EmptyString).

End PyStr.

(* ===================================================================== *)
(** ** Regular expressions of the argument denylist ([re.search]) *)
(* ===================================================================== *)

Module Re.

(** The denylist only uses literal characters, [.], [\s], bracketed sets
    and the star of one of these. *)
Inductive CharClass : Type :=
| Lit (c : ascii)          (* the character itself, escaped or not *)
| AnyChar                  (* [.]: anything but a line feed *)
| Space                    (* [\s] *)
| OneOf (set : string).    (* [[...]] *)

Inductive Atom : Type :=
| One (k : CharClass)
| Star (k : CharClass).

Record Pattern : Type := mkPattern {
  source : string;         (* the pattern as written, shown in messages *)
  atoms : list Atom
}.

Definition class_matches (k : CharClass) (c : ascii) : bool :=
  match k with
  | Lit a => Ascii.eqb a c
  | AnyChar => negb (PyStr.code c =? 10)
  | Space => PyStr.isspace c
  | OneOf set => PyStr.contains c set
  end.

(** does a prefix of [s] match the atoms? *)
Fixpoint match_here (p : list Atom) : string -> bool :=
  match p with
  | [] => fun _ => true
  | One k :: p' => fun s =>
      match s with
      | String c s' => class_matches k c && match_here p' s'
      | EmptyString => false
      end
  | Star k :: p' =>
      fix star (s : string) : bool :=
        match_here p' s ||
        match s with
        | String c s' => class_matches k c && star s'
        | EmptyString => false
        end
  end.

(** [re.search(p, s)] as a truth value: a match starting anywhere *)
Fixpoint search_atoms (p : list Atom) (s : string) : bool :=
  match_here p s ||
  match s with
  | String _ s' => search_atoms p s'
  | EmptyString => false
  end.

Definition search (p : Pattern) (s : string) : bool := search_atoms (atoms p) s.

Fixpoint lits (s : string) : list Atom :=
  match s with
  | EmptyString => []
  | String c s' => One (Lit c) :: lits s'
  end.

End Re.

(* ===================================================================== *)
(** ** The [ipaddress] module of the Python library (CPython 3.11) *)
(* ===================================================================== *)

(** [validate_target] rests on [ipaddress.ip_network(target, strict=False)],
  [overlaps] and [num_addresses].  They are library code; this module
  follows [Lib/ipaddress.py] function by function, keeping its names.
  [None] stands for [AddressValueError] or [NetmaskValueError]. *)

Module IpAddress.

Inductive IPVersion : Type := V4 | V6.

Definition version_eqb (a b : IPVersion) : bool :=
  match a, b with V4, V4 | V6, V6 => true | _, _ => false end.

Definition max_prefixlen (v : IPVersion) : Z :=
  match v with V4 => 32 | V6 => 128 end.

Definition ALL_ONES (v : IPVersion) : Z := 2 ^ max_prefixlen v - 1.

(** An address object: [_version] and [_ip]. *)
Record IPAddress : Type := mkAddress {
  addr_version : IPVersion;
  ip : Z
}.

(** A network object: [_version], [network_address] (as its integer) and
    [_prefixlen]; [netmask] is made from the prefix length. *)
Record IPNetwork : Type := mkNetwork {
  version : IPVersion;
  network_address : Z;
  prefixlen : Z
}.

Definition _ip_int_from_prefix (v : IPVersion) (p : Z) : Z :=
  Z.lxor (ALL_ONES v) (Z.shiftr (ALL_ONES v) p).

Definition netmask (n : IPNetwork) : Z := _ip_int_from_prefix (version n) (prefixlen n).

Definition hostmask (n : IPNetwork) : Z := Z.lxor (netmask n) (ALL_ONES (version n)).

Definition broadcast_address (n : IPNetwork) : Z :=
  Z.lor (network_address n) (hostmask n).

Definition num_addresses (n : IPNetwork) : Z :=
  broadcast_address n - network_address n + 1.

(** [addr in n] ([_BaseNetwork.__contains__] for an address) *)
Definition contains (n : IPNetwork) (a : IPAddress) : bool :=
  if negb (version_eqb (version n) (addr_version a)) then false
  else Z.land (ip a) (netmask n) =? network_address n.

Definition network_address_of (n : IPNetwork) : IPAddress :=
  mkAddress (version n) (network_address n).

Definition broadcast_address_of (n : IPNetwork) : IPAddress :=
  mkAddress (version n) (broadcast_address n).

(** [self.overlaps(other)] *)
Definition overlaps (self other : IPNetwork) : bool :=
  contains other (network_address_of self)
  || (contains other (broadcast_address_of self)
      || (contains self (network_address_of other)
          || contains self (broadcast_address_of other))).

(** [int.bit_length()] of a non-negative integer *)
Definition bit_length (x : Z) : Z := if x =? 0 then 0 else Z.log2 x + 1.

Definition _count_righthand_zero_bits (number bits : Z) : Z :=
  if number =? 0 then bits
  else Z.min bits (bit_length (Z.land (Z.lnot number) (number - 1))).

(** [None]: the mask mixes zeroes and ones ([ValueError]) *)
Definition _prefix_from_ip_int (v : IPVersion) (ip_int : Z) : option Z :=
  let trailing_zeroes := _count_righthand_zero_bits ip_int (max_prefixlen v) in
  let prefixlen := max_prefixlen v - trailing_zeroes in
  let leading_ones := Z.shiftr ip_int trailing_zeroes in
  let all_ones := Z.shiftl 1 prefixlen - 1 in
  if negb (leading_ones =? all_ones) then None else Some prefixlen.

Definition _prefix_from_prefix_string (v : IPVersion) (prefixlen_str : string) : option Z :=
  if negb (PyStr.isdigits prefixlen_str) then None
  else
    let prefixlen := PyStr.digits_value prefixlen_str 0 in
    if negb ((0 <=? prefixlen) && (prefixlen <=? max_prefixlen v)) then None
    else Some prefixlen.

(** *** IPv4 *)

Definition _parse_octet (octet_str : string) : option Z :=
  if negb (PyStr.truthy octet_str) then None
  else if negb (PyStr.isdigits octet_str) then None
  else if (3 <? Z.of_nat (String.length octet_str)) then None
  else if negb (String.eqb octet_str "0") && PyStr.startswith "0" octet_str then None
  else
    let octet_int := PyStr.digits_value octet_str 0 in
    if 255 <? octet_int then None else Some octet_int.

(** [int.from_bytes(bs, 'big')] where every parsed byte must be there *)
Fixpoint from_bytes_big (bs : list (option Z)) (acc : Z) : option Z :=
  match bs with
  | [] => Some acc
  | Some b :: bs' => from_bytes_big bs' (256 * acc + b)
  | None :: _ => None
  end.

Definition v4_ip_int_from_string (ip_str : string) : option Z :=
  if negb (PyStr.truthy ip_str) then None
  else
    let octets := PyStr.split_on "." ip_str in
    if negb (Nat.eqb (List.length octets) 4) then None
    else from_bytes_big (List.map _parse_octet octets) 0.

(** [IPv4Address(addr_str)._ip] *)
Definition IPv4Address (addr_str : string) : option Z :=
  if PyStr.contains "/" addr_str then None
  else v4_ip_int_from_string addr_str.

Definition v4_prefix_from_ip_string (ip_str : string) : option Z :=
  match v4_ip_int_from_string ip_str with
  | None => None
  | Some ip_int =>
      match _prefix_from_ip_int V4 ip_int with
      | Some p => Some p
      | None => _prefix_from_ip_int V4 (Z.lxor ip_int (ALL_ONES V4))
      end
  end.

(** [_split_optional_netmask] then [_split_addr_prefix]: the address and
    the text after the slash, if there is one. *)
Definition _split_addr_prefix (address : string) : option (string * option string) :=
  match PyStr.split_on "/" address with
  | [a] => Some (a, None)
  | [a; m] => Some (a, Some m)
  | _ => None
  end.

(** [_BaseV4._make_netmask]: the prefix length ([None] as argument is
    the integer [_max_prefixlen] that [_split_addr_prefix] supplies) *)
Definition v4_make_netmask (arg : option string) : option Z :=
  match arg with
  | None => Some (max_prefixlen V4)
  | Some s =>
      match _prefix_from_prefix_string V4 s with
      | Some p => Some p
      | None => v4_prefix_from_ip_string s
      end
  end.

(** the end of both [__init__]s with [strict=False]: host bits are
    cleared *)
Definition make_network (v : IPVersion) (packed p : Z) : IPNetwork :=
  let mask := _ip_int_from_prefix v p in
  if negb (Z.land packed mask =? packed)
  then mkNetwork v (Z.land packed mask) p
  else mkNetwork v packed p.

(** [IPv4Network(address, strict=False)] *)
Definition IPv4Network (address : string) : option IPNetwork :=
  match _split_addr_prefix address with
  | None => None
  | Some (addr, mask) =>
      match IPv4Address addr with
      | None => None
      | Some packed =>
          match v4_make_netmask mask with
          | None => None
          | Some p => Some (make_network V4 packed p)
          end
      end
  end.

(** [str(ip)] and [str(network)] for IPv4 (the only networks the scanner
    prints are its IPv4 constants) *)
Definition v4_string_from_ip_int (ip_int : Z) : string :=
  PyStr.join "." (List.map PyStr.str_Z
    [Z.shiftr ip_int 24 mod 256; Z.shiftr ip_int 16 mod 256;
     Z.shiftr ip_int 8 mod 256; ip_int mod 256]).

Definition str_v4_network (n : IPNetwork) : string :=
  v4_string_from_ip_int (network_address n) ++ "/" ++ PyStr.str_Z (prefixlen n).

(** *** IPv6 *)

Definition ishex (c : ascii) : bool :=
  let n := PyStr.code c in
  PyStr.isdigit c || ((97 <=? n) && (n <=? 102)) || ((65 <=? n) && (n <=? 70)).

Definition hex_value (c : ascii) : Z :=
  let n := PyStr.code c in
  if PyStr.isdigit c then n - 48
  else if 97 <=? n then n - 87 else n - 55.

Fixpoint hex_digits_value (s : string) (acc : Z) : Z :=
  match s with
  | EmptyString => acc
  | String c s' => hex_digits_value s' (16 * acc + hex_value c)
  end.

Definition _parse_hextet (hextet_str : string) : option Z :=
  if negb (PyStr.forallb_str ishex hextet_str) then None
  else if 4 <? Z.of_nat (String.length hextet_str) then None
  else if negb (PyStr.truthy hextet_str) then None      (* int('', 16) *)
  else Some (hex_digits_value hextet_str 0).

(** ['%x' % n] *)
Fixpoint hex_aux (fuel : nat) (n : Z) (acc : string) : string :=
  match fuel with
  | O => acc
  | S fuel' =>
      let acc' := String (PyStr.hex_char (n mod 16)) acc in
      if n / 16 =? 0 then acc' else hex_aux fuel' (n / 16) acc'
  end.

Definition format_x (n : Z) : string :=
  hex_aux (S (Z.to_nat (Z.log2 n))) n EmptyString.

(** [s.partition(c)]: the text before the first [c], whether [c] was
    found, and the text after it *)
Fixpoint partition (c : ascii) (s : string) : string * bool * string :=
  match s with
  | EmptyString => (EmptyString, false, EmptyString)
  | String a s' =>
      if Ascii.eqb a c then (EmptyString, true, s')
      else let '(b, found, r) := partition c s' in (String a b, found, r)
  end.

(** [_split_scope_id]: the address without its scope id *)
Definition _split_scope_id (ip_str : string) : option string :=
  let '(addr, sep, scope_id) := partition "%" ip_str in
  if negb sep then Some addr
  else if negb (PyStr.truthy scope_id) || PyStr.contains "%" scope_id then None
  else Some addr.

(** the loop that finds the one empty part strictly inside: [i] is the
    index of the head of [middle], [skip] the index found so far *)
Fixpoint find_skip (middle : list string) (i : nat) (skip : option nat)
  : option (option nat) :=
  match middle with
  | [] => Some skip
  | part :: rest =>
      if negb (PyStr.truthy part)
      then match skip with
           | Some _ => None
           | None => find_skip rest (S i) (Some i)
           end
      else find_skip rest (S i) skip
  end.

(** [ip_int <<= 16; ip_int |= _parse_hextet(part)] over the parts *)
Fixpoint add_hextets (parts : list string) (ip_int : Z) : option Z :=
  match parts with
  | [] => Some ip_int
  | part :: rest =>
      match _parse_hextet part with
      | None => None
      | Some h => add_hextets rest (Z.lor (Z.shiftl ip_int 16) h)
      end
  end.

Definition HEXTET_COUNT : nat := 8.

Definition is_empty_part (o : option string) : bool :=
  match o with Some s => negb (PyStr.truthy s) | None => false end.

Definition v6_ip_int_from_string (ip_str : string) : option Z :=
  if negb (PyStr.truthy ip_str) then None
  else
    let parts := PyStr.split_on ":" ip_str in
    if (List.length parts <? 3)%nat then None
    else
      (* an IPv4-style suffix becomes two hextets *)
      let parts' :=
        match List.last (List.map Some parts) None with
        | Some l =>
            if PyStr.contains "." l
            then match IPv4Address l with
                 | None => None
                 | Some ipv4_int =>
                     Some (List.removelast parts ++
                           [format_x (Z.land (Z.shiftr ipv4_int 16) 65535);
                            format_x (Z.land ipv4_int 65535)])%list
                 end
            else Some parts
        | None => Some parts
        end in
      match parts' with
      | None => None
      | Some parts =>
          let n := List.length parts in
          if (HEXTET_COUNT + 1 <? n)%nat then None
          else
            match find_skip (List.removelast (List.tl parts)) 1 None with
            | None => None
            | Some skip_index =>
                let first_empty := is_empty_part (List.hd_error parts) in
                let last_empty := is_empty_part (List.last (List.map Some parts) None) in
                let counts : option (nat * nat * nat) :=
                  match skip_index with
                  | Some k =>
                      let parts_hi := k in
                      let parts_lo := (n - k - 1)%nat in
                      let hi := if first_empty then (parts_hi - 1)%nat else parts_hi in
                      let lo := if last_empty then (parts_lo - 1)%nat else parts_lo in
                      if first_empty && negb (Nat.eqb hi 0) then None
                      else if last_empty && negb (Nat.eqb lo 0) then None
                      else if (HEXTET_COUNT <? hi + lo + 1)%nat then None
                      else Some (hi, lo, (HEXTET_COUNT - (hi + lo))%nat)
                  | None =>
                      if negb (Nat.eqb n HEXTET_COUNT) then None
                      else if first_empty then None
                      else if last_empty then None
                      else Some (n, O, O)
                  end in
                match counts with
                | None => None
                | Some (parts_hi, parts_lo, parts_skipped) =>
                    match add_hextets (List.firstn parts_hi parts) 0 with
                    | None => None
                    | Some hi_int =>
                        add_hextets (List.skipn (n - parts_lo) parts)
                          (Z.shiftl hi_int (16 * Z.of_nat parts_skipped))
                    end
                end
            end
      end.

(** [IPv6Address(addr_str)._ip] *)
Definition IPv6Address (addr_str : string) : option Z :=
  if PyStr.contains "/" addr_str then None
  else match _split_scope_id addr_str with
       | None => None
       | Some a => v6_ip_int_from_string a
       end.

(** [_BaseV6._make_netmask]: only the prefix-length form *)
Definition v6_make_netmask (arg : option string) : option Z :=
  match arg with
  | None => Some (max_prefixlen V6)
  | Some s => _prefix_from_prefix_string V6 s
  end.

(** [IPv6Network(address, strict=False)] *)
Definition IPv6Network (address : string) : option IPNetwork :=
  match _split_addr_prefix address with
  | None => None
  | Some (addr, mask) =>
      match IPv6Address addr with
      | None => None
      | Some packed =>
          match v6_make_netmask mask with
          | None => None
          | Some p => Some (make_network V6 packed p)
          end
      end
  end.

(** [ip_network(address, strict=False)]: IPv4 is tried first; the error
    is the text of the [ValueError] *)
Definition ip_network (address : string) : IPNetwork + string :=
  match IPv4Network address with
  | Some n => inl n
  | None =>
      match IPv6Network address with
      | Some n => inl n
      | None => inr (PyStr.repr address ++ " does not appear to be an IPv4 or IPv6 network")
      end
  end.

End IpAddress.

(* ===================================================================== *)
(** ** NmapValidator ([mcp_server/tools/nmap_scan.py]) *)
(* ===================================================================== *)

Module NmapValidator.
Import IpAddress.

(** Blacklist of forbidden ranges: the values of
    [ipaddress.ip_network] on "127.0.0.0/8", "169.254.0.0/16",
    "224.0.0.0/4" and "240.0.0.0/4". *)
Definition FORBIDDEN_RANGES : list IPNetwork :=
  [ mkNetwork V4 2130706432 8;      (* Loopback *)
    mkNetwork V4 2851995648 16;     (* Link-local *)
    mkNetwork V4 3758096384 4;      (* Multicast *)
    mkNetwork V4 4026531840 4 ].    (* Reserved *)

Definition FORBIDDEN_RANGES_text : list string :=
  ["127.0.0.0/8"; "169.254.0.0/16"; "224.0.0.0/4"; "240.0.0.0/4"].

Definition MAX_IPV4_HOSTS : Z := 256.
Definition MAX_IPV6_HOSTS : Z := 65536.

Definition overlap_message (target : string) (forbidden : IPNetwork) : string :=
  "Target " ++ target ++ " overlaps forbidden range " ++ str_v4_network forbidden.

Definition too_large_message (n max : Z) : string :=
  "Network too large: " ++ PyStr.str_Z n ++ " hosts (max " ++ PyStr.str_Z max ++ ")".

Definition invalid_format_message (e : string) : string :=
  "Invalid IP/CIDR format: " ++ e.

(** the [for forbidden in cls.FORBIDDEN_RANGES] loop: the first range
    that the network overlaps *)
Fixpoint first_overlap (network : IPNetwork) (ranges : list IPNetwork) : option IPNetwork :=
  match ranges with
  | [] => None
  | forbidden :: rest =>
      if overlaps network forbidden then Some forbidden
      else first_overlap network rest
  end.

(** [validate_target(cls, target)]: [(is_valid, error_message)] *)
Definition validate_target (target : string) : bool * option string :=
  let target := PyStr.strip target in
  match ip_network target with
  | inr e => (false, Some (invalid_format_message e))
  | inl network =>
      match first_overlap network FORBIDDEN_RANGES with
      | Some forbidden => (false, Some (overlap_message target forbidden))
      | None =>
          match version network with
          | V4 =>
              if MAX_IPV4_HOSTS <? num_addresses network
              then (false, Some (too_large_message (num_addresses network) MAX_IPV4_HOSTS))
              else (true, None)
          | V6 =>
              if MAX_IPV6_HOSTS <? num_addresses network
              then (false, Some (too_large_message (num_addresses network) MAX_IPV6_HOSTS))
              else (true, None)
          end
      end
  end.

Definition allowed_types : list string :=
  ["default"; "quick"; "full"; "stealth"; "os"; "vuln"; "custom"].

Definition string_in (s : string) (l : list string) : bool :=
  List.existsb (String.eqb s) l.

(** [validate_scan_type(scan_type)] *)
Definition validate_scan_type (scan_type : string) : bool * option string :=
  if negb (string_in scan_type allowed_types)
  then (false, Some ("Invalid scan type. Allowed: " ++ PyStr.join ", " allowed_types))
  else (true, None).

(** Forbidden arguments that could be abused *)
Definition forbidden_patterns : list Re.Pattern :=
  [ Re.mkPattern "--script.*\.\./"
      (Re.lits "--script" ++ [Re.Star Re.AnyChar] ++ Re.lits "../");
    Re.mkPattern "--datadir" (Re.lits "--datadir");
    Re.mkPattern "--servicedb" (Re.lits "--servicedb");
    Re.mkPattern "-oN\s*/" (Re.lits "-oN" ++ [Re.Star Re.Space; Re.One (Re.Lit "/")]);
    Re.mkPattern "-oG\s*/" (Re.lits "-oG" ++ [Re.Star Re.Space; Re.One (Re.Lit "/")]);
    Re.mkPattern "-oX\s*/" (Re.lits "-oX" ++ [Re.Star Re.Space; Re.One (Re.Lit "/")]);
    Re.mkPattern "--resume" (Re.lits "--resume");
    Re.mkPattern "--stylesheet" (Re.lits "--stylesheet");
    Re.mkPattern "[\$`]" [Re.One (Re.OneOf "$`")];
    Re.mkPattern "[;&|<>]" [Re.One (Re.OneOf ";&|<>")] ]%list.

Definition forbidden_message (pattern : Re.Pattern) : string :=
  "Forbidden argument pattern detected: " ++ Re.source pattern.

(** the [for pattern in forbidden_patterns] loop: the first pattern found
    in [args] *)
Fixpoint first_match (patterns : list Re.Pattern) (args : string) : option Re.Pattern :=
  match patterns with
  | [] => None
  | pattern :: rest =>
      if Re.search pattern args then Some pattern else first_match rest args
  end.

(** the [for arg in args_list] loop: both branches append the argument *)
Fixpoint collect_safe_args (args_list : list string) (safe_args : list string) : list string :=
  match args_list with
  | [] => safe_args
  | arg :: rest =>
      if PyStr.startswith "-" arg
      then collect_safe_args rest (safe_args ++ [arg])%list
      else collect_safe_args rest (safe_args ++ [arg])%list
  end.

(** [sanitize_custom_args(args)]: [(is_valid, error_message, sanitized)] *)
Definition sanitize_custom_args (args : string)
  : bool * option string * option (list string) :=
  match first_match forbidden_patterns args with
  | Some pattern => (false, Some (forbidden_message pattern), None)
  | None =>
      let args_list := PyStr.split args in
      (true, None, Some (collect_safe_args args_list []))
  end.

End NmapValidator.

(* ===================================================================== *)
(** ** The outside world *)
(* ===================================================================== *)

(** An element of an [xml.etree.ElementTree] document. *)
Module Xml.

Inductive Element : Type :=
  mkElement (tag : string) (attrib : gmap string string) (children : list Element).

Definition tag (e : Element) : string := let 'mkElement t _ _ := e in t.
Definition attrib (e : Element) : gmap string string := let 'mkElement _ a _ := e in a.
Definition children (e : Element) : list Element := let 'mkElement _ _ c := e in c.

(** [e.get(key)] *)
Definition get (e : Element) (key : string) : option string := attrib e !! key.

(** [e.findall(tag)]: the direct children with that tag, in order *)
Definition findall (e : Element) (t : string) : list Element :=
  List.filter (fun c => String.eqb (tag c) t) (children e).

(** [e.find(tag)]: the first of them *)
Definition find (e : Element) (t : string) : option Element :=
  List.find (fun c => String.eqb (tag c) t) (children e).

End Xml.

Module World.

(** What [subprocess.run(command, capture_output=True, text=True,
    timeout=t, check=False)] can do. *)
Inductive ProcOutcome : Type :=
| Completed (returncode : Z) (stdout stderr : string)
| TimeoutExpired (msg : string)
| FileNotFoundError (msg : string)
| OtherError (msg : string).

(** The environment: what the clock shows at its n-th reading (in
    microseconds), what a spawned command does, and what
    [ET.fromstring] makes of a text ([inr] is [ET.ParseError] with its
    message). *)
Record Env : Type := mkEnv {
  utcnow_at : nat -> Z;
  subprocess_run : list string -> Z -> ProcOutcome;
  fromstring : string -> Xml.Element + string
}.

(** The state threaded through the effectful code: the number of clock
    readings so far and the commands handed to [subprocess.run], oldest
    first. *)
Record State : Type := mkState {
  ticks : nat;
  spawned : list (list string)
}.

Definition M (A : Type) : Type := State -> A * State.

#[global] Instance M_ret : MRet M := fun A (a : A) st => (a, st).

#[global] Instance M_bind : MBind M := fun A B (f : A -> M B) (m : M A) st =>
  let '(a, st') := m st in f a st'.

(** [datetime.utcnow()] *)
Definition utcnow (env : Env) : M Z :=
  fun st => (utcnow_at env (ticks st), mkState (S (ticks st)) (spawned st)).

(** [subprocess.run(command, ..., timeout=timeout)] *)
Definition run (env : Env) (command : list string) (timeout : Z) : M ProcOutcome :=
  fun st => (subprocess_run env command timeout,
             mkState (ticks st) (spawned st ++ [command])).

(** seconds as microseconds: durations are kept in microseconds, the
    unit of the clock *)
Definition seconds (n : Z) : Z := n * 1000000.

End World.

(* ===================================================================== *)
(** ** NmapScanner ([mcp_server/tools/nmap_scan.py]) *)
(* ===================================================================== *)

Module NmapScanner.
Import World.

(** *** Parsed results *)

(** the [service] dictionary of a port, when the port has a service
    element; every value is an attribute, possibly missing *)
Record Service : Type := mkService {
  name : option string;
  product : option string;
  sversion : option string;
  extrainfo : option string
}.

(** [port_data]; [service = None] is the empty dictionary *)
Record PortData : Type := mkPort {
  protocol : option string;
  portid : Z;
  state : option string;
  service : option Service
}.

Record HostData : Type := mkHost {
  status : option string;
  addresses : list (option string * option string);   (* addr, addrtype *)
  hostnames : list (option string * option string);   (* name, type *)
  ports : list PortData;
  os : option (option string * option string)         (* name, accuracy *)
}.

Record Stats : Type := mkStats {
  hosts_up : Z;
  hosts_down : Z;
  total_hosts : Z;
  total_ports : Z
}.

(** the value under ["parsed_results"]: what [parse_nmap_xml] returns,
    which is the results dictionary or the dictionary that only holds
    ["error"]; [EmptyDict] is the [{}] that the worker takes when the key
    is missing *)
Inductive Parsed : Type :=
| Results (scan_info : gmap string string) (hosts : list HostData) (stats : Stats)
| ParseFailure (error : string)
| EmptyDict.

(** [_parse_port(port_element)]; [None] is the empty dictionary returned
    when [int(...)] raises ([TypeError] for a missing attribute,
    [ValueError] for a text that is not an integer) *)
Definition _parse_port (port_element : Xml.Element) : option PortData :=
  match Xml.get port_element "portid" with
  | None => None
  | Some text =>
      match PyStr.int text with
      | None => None
      | Some n =>
          Some {|
            protocol := Xml.get port_element "protocol";
            portid := n;
            state :=
              match Xml.find port_element "state" with
              | Some st => Xml.get st "state"
              | None => None
              end;
            service :=
              match Xml.find port_element "service" with
              | Some sv =>
                  Some {| name := Xml.get sv "name";
                          product := Xml.get sv "product";
                          sversion := Xml.get sv "version";
                          extrainfo := Xml.get sv "extrainfo" |}
              | None => None
              end
          |}
      end
  end.

(** the [for port in ports.findall("port")] loop: a port is kept when
    its dictionary is not empty *)
Fixpoint parse_ports (port_elements : list Xml.Element) : list PortData :=
  match port_elements with
  | [] => []
  | port :: rest =>
      match _parse_port port with
      | Some port_data => port_data :: parse_ports rest
      | None => parse_ports rest
      end
  end.

Definition attr_pair (a b : string) (e : Xml.Element) : option string * option string :=
  (Xml.get e a, Xml.get e b).

(** [_parse_host(host_element)]: nothing in its body raises, so the
    dictionary is always the filled one ([Some]) *)
Definition _parse_host (host_element : Xml.Element) : option HostData :=
  Some {|
    status :=
      match Xml.find host_element "status" with
      | Some st => Xml.get st "state"
      | None => None
      end;
    addresses := List.map (attr_pair "addr" "addrtype") (Xml.findall host_element "address");
    hostnames :=
      match Xml.find host_element "hostnames" with
      | Some hs => List.map (attr_pair "name" "type") (Xml.findall hs "hostname")
      | None => []
      end;
    ports :=
      match Xml.find host_element "ports" with
      | Some ps => parse_ports (Xml.findall ps "port")
      | None => []
      end;
    os :=
      match Xml.find host_element "os" with
      | Some os_element =>
          match Xml.find os_element "osmatch" with
          | Some osmatch => Some (Xml.get osmatch "name", Xml.get osmatch "accuracy")
          | None => None
          end
      | None => None
      end
  |}.

Definition opt_string_eqb (o : option string) (s : string) : bool :=
  match o with Some x => String.eqb x s | None => false end.

(** the [for host in root.findall("host")] loop, on the hosts and the
    statistics collected so far *)
Fixpoint parse_hosts (host_elements : list Xml.Element)
         (hosts : list HostData) (stats : Stats) : list HostData * Stats :=
  match host_elements with
  | [] => (hosts, stats)
  | host :: rest =>
      match _parse_host host with
      | Some host_data =>
          let stats1 :=
            if opt_string_eqb (status host_data) "up"
            then mkStats (hosts_up stats + 1) (hosts_down stats)
                         (total_hosts stats) (total_ports stats)
            else mkStats (hosts_up stats) (hosts_down stats + 1)
                         (total_hosts stats) (total_ports stats) in
          let stats2 :=
            mkStats (hosts_up stats1) (hosts_down stats1) (total_hosts stats1)
                    (total_ports stats1 + Z.of_nat (List.length (ports host_data))) in
          parse_hosts rest (hosts ++ [host_data])%list stats2
      | None => parse_hosts rest hosts stats
      end
  end.

(** the body of [parse_nmap_xml] once the document is read *)
Definition parse_root (root : Xml.Element) : Parsed :=
  let scan_info :=
    match Xml.find root "scaninfo" with
    | Some scaninfo => Xml.attrib scaninfo
    | None => ∅
    end in
  let '(hosts, stats) := parse_hosts (Xml.findall root "host") [] (mkStats 0 0 0 0) in
  Results scan_info hosts
    (mkStats (hosts_up stats) (hosts_down stats)
             (Z.of_nat (List.length hosts)) (total_ports stats)).

(** [parse_nmap_xml(xml_output)] *)
Definition parse_nmap_xml (env : Env) (xml_output : string) : Parsed :=
  match fromstring env xml_output with
  | inl root => parse_root root
  | inr e => ParseFailure ("XML parse error: " ++ e)
  end.

(** *** The scanner *)

Record Scanner : Type := mkScanner {
  nmap_path : string;
  timeout : Z
}.

(** Scan type to Nmap argument mapping *)
Definition SCAN_PROFILES : gmap string (list string) :=
  list_to_map
    [ ("quick", ["-T4"; "-F"]);
      ("default", ["-T4"; "-Pn"]);
      ("full", ["-sS"; "-sV"; "-T4"; "-p-"]);
      ("stealth", ["-sS"; "-T2"; "-f"]);
      ("os", ["-O"; "--osscan-guess"]);
      ("vuln", ["-sV"; "--script=vuln"; "-T4"]) ].

(** truth value of an optional string: [None] and [""] are false *)
Definition truthy_opt (o : option string) : bool :=
  match o with Some s => PyStr.truthy s | None => false end.

(** [validate_and_prepare_scan(target, scan_type, custom_args)]:
    [(is_valid, error_message, command_list)] *)
Definition validate_and_prepare_scan (self : Scanner)
           (target scan_type : string) (custom_args : option string)
  : bool * option string * option (list string) :=
  let '(valid, error) := NmapValidator.validate_target target in
  if negb valid then (false, error, None)
  else
    let '(valid, error) := NmapValidator.validate_scan_type scan_type in
    if negb valid then (false, error, None)
    else
      let command := [nmap_path self] in
      let extended : option string + list string :=
        if String.eqb scan_type "custom" && truthy_opt custom_args
        then
          let '(valid, error, safe_args) :=
            NmapValidator.sanitize_custom_args (default "" custom_args) in
          if negb valid then inl error
          else inr (command ++ default [] safe_args)%list
        else
          inr (command ++ default (SCAN_PROFILES !!! "default")
                                  (SCAN_PROFILES !! scan_type))%list in
      match extended with
      | inl error => (false, error, None)
      | inr command =>
          let command := (command ++ ["-oX"; "-"])%list in
          let command := (command ++ [target])%list in
          (true, None, Some command)
      end.

(** the dictionary that [execute_scan] and [scan] return; a key that is
    not set is [None] *)
Record ScanDict : Type := mkScanDict {
  success : bool;
  error : option string;
  returncode : option Z;
  duration_seconds : option Z;
  raw_output : option string;
  parsed_results : option Parsed;
  timestamp : option Z;
  target : option string;
  scan_type : option string
}.

Definition failure_dict (error : string) (returncode duration : option Z) : ScanDict :=
  mkScanDict false (Some error) returncode duration None None None None None.

Definition with_metadata (d : ScanDict) (target scan_type : string) : ScanDict :=
  mkScanDict (success d) (error d) (returncode d) (duration_seconds d)
             (raw_output d) (parsed_results d) (timestamp d)
             (Some target) (Some scan_type).

(** [execute_scan(command)] *)
Definition execute_scan (env : Env) (self : Scanner) (command : list string) : M ScanDict :=
  start_time ← utcnow env;
  result ← run env command (timeout self);
  match result with
  | Completed rc stdout stderr =>
      end_time ← utcnow env;
      let duration := end_time - start_time in
      if negb (rc =? 0)
      then mret (failure_dict (if PyStr.truthy stderr then stderr else "Nmap scan failed")
                              (Some rc) (Some duration))
      else
        let parsed := parse_nmap_xml env stdout in
        mret (mkScanDict true None None (Some duration) (Some stdout) (Some parsed)
                         (Some start_time) None None)
  | TimeoutExpired _ =>
      mret (failure_dict ("Scan timeout after " ++ PyStr.str_Z (timeout self) ++ " seconds")
                         None (Some (seconds (timeout self))))
  | FileNotFoundError e | OtherError e =>
      now ← utcnow env;
      mret (failure_dict ("Unexpected error: " ++ e) None (Some (now - start_time)))
  end.

(** [scan(target, scan_type, custom_args)] *)
Definition scan (env : Env) (self : Scanner)
           (target scan_type : string) (custom_args : option string) : M ScanDict :=
  let '(valid, error, command) :=
    validate_and_prepare_scan self target scan_type custom_args in
  if negb valid
  then mret (mkScanDict false error None None None None None (Some target) (Some scan_type))
  else
    result ← execute_scan env self (default [] command);
    mret (with_metadata result target scan_type).

(** [NmapScanner.__init__] with its default arguments; [inl] is the text
    of the exception that leaves the constructor *)
Definition init (env : Env) : M (string + Scanner) :=
  let self := mkScanner "/usr/bin/nmap" 300 in
  result ← run env [nmap_path self; "--version"] 5;
  match result with
  | Completed rc stdout _ =>
      if negb (rc =? 0) then mret (inl "Nmap not available or not executable")
      else match PyStr.split stdout with
           | _ :: _ :: _ :: _ => mret (inr self)
           | _ => mret (inl "list index out of range")
           end
  | TimeoutExpired e | FileNotFoundError e =>
      mret (inl ("Nmap initialization failed: " ++ e))
  | OtherError e => mret (inl e)
  end.

(** [run_nmap_scan(target, scan_type, custom_args)] *)
Definition run_nmap_scan (env : Env)
           (target scan_type : string) (custom_args : option string) : M ScanDict :=
  made ← init env;
  match made with
  | inr scanner => scan env scanner target scan_type custom_args
  | inl e => mret (mkScanDict false (Some e) None None None None None
                              (Some target) (Some scan_type))
  end.

End NmapScanner.

(* ===================================================================== *)
(** ** Database models ([mcp_server/db/models.py]) *)
(* ===================================================================== *)

Module Models.
Import World.

(** Enumeration for scan task status *)
Inductive ScanStatus : Type := QUEUED | RUNNING | COMPLETED | FAILED | CANCELLED.

(** [ScanStatus.X.value] *)
Definition value (s : ScanStatus) : string :=
  match s with
  | QUEUED => "queued"
  | RUNNING => "running"
  | COMPLETED => "completed"
  | FAILED => "failed"
  | CANCELLED => "cancelled"
  end.

(** A row of [scan_results].  Times are clock readings, durations are in
    microseconds; [parsed_results] holds the value whose JSON text the
    column stores.  [status] is the text column that the code compares
    with the values of [ScanStatus]. *)
Record ScanResult : Type := mkScanResult {
  id : Z;
  task_id : option string;
  user_id : Z;
  target : string;
  scan_type : string;
  scan_args : option string;
  status : string;
  priority : Z;
  started_at : option Z;
  completed_at : option Z;
  duration_seconds : option Z;
  raw_output : option string;
  parsed_results : option NmapScanner.Parsed;
  error_message : option string;
  hosts_up : Z;
  ports_found : Z;
  vulnerabilities_found : Z;
  created_at : Z;
  updated_at : option Z
}.

Definition set_task_id (v : option string) (self : ScanResult) : ScanResult :=
  mkScanResult (id self) v (user_id self) (target self) (scan_type self) (scan_args self) (status self) (priority self) (started_at self) (completed_at self) (duration_seconds self) (raw_output self) (parsed_results self) (error_message self) (hosts_up self) (ports_found self) (vulnerabilities_found self) (created_at self) (updated_at self).

Definition set_status (v : string) (self : ScanResult) : ScanResult :=
  mkScanResult (id self) (task_id self) (user_id self) (target self) (scan_type self) (scan_args self) v (priority self) (started_at self) (completed_at self) (duration_seconds self) (raw_output self) (parsed_results self) (error_message self) (hosts_up self) (ports_found self) (vulnerabilities_found self) (created_at self) (updated_at self).

Definition set_started_at (v : option Z) (self : ScanResult) : ScanResult :=
  mkScanResult (id self) (task_id self) (user_id self) (target self) (scan_type self) (scan_args self) (status self) (priority self) v (completed_at self) (duration_seconds self) (raw_output self) (parsed_results self) (error_message self) (hosts_up self) (ports_found self) (vulnerabilities_found self) (created_at self) (updated_at self).

Definition set_completed_at (v : option Z) (self : ScanResult) : ScanResult :=
  mkScanResult (id self) (task_id self) (user_id self) (target self) (scan_type self) (scan_args self) (status self) (priority self) (started_at self) v (duration_seconds self) (raw_output self) (parsed_results self) (error_message self) (hosts_up self) (ports_found self) (vulnerabilities_found self) (created_at self) (updated_at self).

Definition set_duration_seconds (v : option Z) (self : ScanResult) : ScanResult :=
  mkScanResult (id self) (task_id self) (user_id self) (target self) (scan_type self) (scan_args self) (status self) (priority self) (started_at self) (completed_at self) v (raw_output self) (parsed_results self) (error_message self) (hosts_up self) (ports_found self) (vulnerabilities_found self) (created_at self) (updated_at self).

Definition set_raw_output (v : option string) (self : ScanResult) : ScanResult :=
  mkScanResult (id self) (task_id self) (user_id self) (target self) (scan_type self) (scan_args self) (status self) (priority self) (started_at self) (completed_at self) (duration_seconds self) v (parsed_results self) (error_message self) (hosts_up self) (ports_found self) (vulnerabilities_found self) (created_at self) (updated_at self).

Definition set_parsed_results (v : option NmapScanner.Parsed) (self : ScanResult) : ScanResult :=
  mkScanResult (id self) (task_id self) (user_id self) (target self) (scan_type self) (scan_args self) (status self) (priority self) (started_at self) (completed_at self) (duration_seconds self) (raw_output self) v (error_message self) (hosts_up self) (ports_found self) (vulnerabilities_found self) (created_at self) (updated_at self).

Definition set_error_message (v : option string) (self : ScanResult) : ScanResult :=
  mkScanResult (id self) (task_id self) (user_id self) (target self) (scan_type self) (scan_args self) (status self) (priority self) (started_at self) (completed_at self) (duration_seconds self) (raw_output self) (parsed_results self) v (hosts_up self) (ports_found self) (vulnerabilities_found self) (created_at self) (updated_at self).

Definition set_hosts_up (v : Z) (self : ScanResult) : ScanResult :=
  mkScanResult (id self) (task_id self) (user_id self) (target self) (scan_type self) (scan_args self) (status self) (priority self) (started_at self) (completed_at self) (duration_seconds self) (raw_output self) (parsed_results self) (error_message self) v (ports_found self) (vulnerabilities_found self) (created_at self) (updated_at self).

Definition set_ports_found (v : Z) (self : ScanResult) : ScanResult :=
  mkScanResult (id self) (task_id self) (user_id self) (target self) (scan_type self) (scan_args self) (status self) (priority self) (started_at self) (completed_at self) (duration_seconds self) (raw_output self) (parsed_results self) (error_message self) (hosts_up self) v (vulnerabilities_found self) (created_at self) (updated_at self).

Definition set_vulnerabilities_found (v : Z) (self : ScanResult) : ScanResult :=
  mkScanResult (id self) (task_id self) (user_id self) (target self) (scan_type self) (scan_args self) (status self) (priority self) (started_at self) (completed_at self) (duration_seconds self) (raw_output self) (parsed_results self) (error_message self) (hosts_up self) (ports_found self) v (created_at self) (updated_at self).

Definition set_updated_at (v : option Z) (self : ScanResult) : ScanResult :=
  mkScanResult (id self) (task_id self) (user_id self) (target self) (scan_type self) (scan_args self) (status self) (priority self) (started_at self) (completed_at self) (duration_seconds self) (raw_output self) (parsed_results self) (error_message self) (hosts_up self) (ports_found self) (vulnerabilities_found self) (created_at self) v.

(** a freshly submitted scan: the column defaults *)
Definition new_scan (id user_id : Z) (target scan_type : string)
           (scan_args : option string) (priority created_at : Z) : ScanResult :=
  mkScanResult id None user_id target scan_type scan_args (value QUEUED) priority
               None None None None None None 0 0 0 created_at (Some created_at).

Definition is_some {A} (o : option A) : bool :=
  match o with Some _ => true | None => false end.

(** [update_status(self, status, error_message=None)] *)
Definition update_status (env : Env) (status : string) (error_message : option string)
           (self : ScanResult) : M ScanResult :=
  let self := set_status status self in
  now ← utcnow env;
  let self := set_updated_at (Some now) self in
  self ←
    (if String.eqb status (value RUNNING) && negb (is_some (started_at self))
     then
       now ← utcnow env;
       mret (set_started_at (Some now) self)
     else if NmapValidator.string_in status [value COMPLETED; value FAILED]
     then
       now ← utcnow env;
       let self := set_completed_at (Some now) self in
       match started_at self with
       | Some started => mret (set_duration_seconds (Some (now - started)) self)
       | None => mret self
       end
     else mret self);
  mret (if NmapScanner.truthy_opt error_message
        then set_error_message error_message self
        else self).

(** the statuses from which the specification allows no transition *)
Definition terminal (status : string) : bool :=
  NmapValidator.string_in status [value COMPLETED; value FAILED; value CANCELLED].

End Models.

(* ===================================================================== *)
(** ** The Celery worker ([mcp_server/worker.py]) *)
(* ===================================================================== *)

Module Worker.
Import World.
Import Models.

(** the dictionary that the task returns *)
Record TaskResult : Type := mkTaskResult {
  success : bool;
  scan_id : option Z;
  hosts_up : option Z;
  ports_found : option Z;
  error : option string
}.

(** [parsed.get("stats", {})] followed by [stats.get(key, 0)] *)
Definition stat_of (key : NmapScanner.Stats -> Z) (parsed : NmapScanner.Parsed) : Z :=
  match parsed with
  | NmapScanner.Results _ _ stats => key stats
  | NmapScanner.ParseFailure _ | NmapScanner.EmptyDict => 0
  end.

(** [parsed.get("hosts", [])] *)
Definition hosts_of (parsed : NmapScanner.Parsed) : list NmapScanner.HostData :=
  match parsed with
  | NmapScanner.Results _ hosts _ => hosts
  | NmapScanner.ParseFailure _ | NmapScanner.EmptyDict => []
  end.

(** [service.get("extrainfo")] as a truth value, for
    [service = port.get("service", {})] *)
Definition has_extrainfo (port : NmapScanner.PortData) : bool :=
  match NmapScanner.service port with
  | Some service => NmapScanner.truthy_opt (NmapScanner.extrainfo service)
  | None => false
  end.

(** the inner loop [for port in host.get("ports", [])] *)
Fixpoint count_ports (ports : list NmapScanner.PortData) (vuln_count : Z) : Z :=
  match ports with
  | [] => vuln_count
  | port :: rest =>
      if has_extrainfo port then count_ports rest (vuln_count + 1)
      else count_ports rest vuln_count
  end.

(** the outer loop [for host in parsed.get("hosts", [])] *)
Fixpoint count_hosts (hosts : list NmapScanner.HostData) (vuln_count : Z) : Z :=
  match hosts with
  | [] => vuln_count
  | host :: rest => count_hosts rest (count_ports (NmapScanner.ports host) vuln_count)
  end.

(** the success branch up to (and without) the final status update;
    [parsed] is always a dictionary, so the [isinstance] test holds *)
Definition store_results (scan_type : string) (result : NmapScanner.ScanDict)
           (scan : ScanResult) : ScanResult :=
  let scan := set_raw_output (Some (default "" (NmapScanner.raw_output result))) scan in
  let parsed := default NmapScanner.EmptyDict (NmapScanner.parsed_results result) in
  let scan := set_parsed_results (Some parsed) scan in
  let scan := set_duration_seconds
                (Some (default 0 (NmapScanner.duration_seconds result))) scan in
  let scan := set_hosts_up (stat_of NmapScanner.hosts_up parsed) scan in
  let scan := set_ports_found (stat_of NmapScanner.total_ports parsed) scan in
  if String.eqb scan_type "vuln"
  then set_vulnerabilities_found (count_hosts (hosts_of parsed) 0) scan
  else scan.

(** The block under [with self.get_app_context():] in
    [execute_scan_task].  [found] is what [ScanResult.query.get(scan_id)]
    returns and [request_id] is [self.request.id]; the result is the
    returned dictionary with the row as it is committed last.  Nothing
    in the body of the [try] raises in this model ([run_nmap_scan]
    catches its own exceptions), so the [except] branch does not
    appear. *)
Definition task_body (env : Env) (found : option ScanResult)
           (request_id : string) (scan_id : Z)
           (target scan_type : string) (custom_args : option string)
  : M (TaskResult * option ScanResult) :=
  match found with
  | None => mret (mkTaskResult false None None None (Some "Scan record not found"), None)
  | Some scan =>
      scan ← update_status env (value RUNNING) None scan;
      let scan := set_task_id (Some request_id) scan in
      result ← NmapScanner.run_nmap_scan env target scan_type custom_args;
      if NmapScanner.success result
      then
        let scan := store_results scan_type result scan in
        scan ← update_status env (value COMPLETED) None scan;
        mret (mkTaskResult true (Some scan_id)
                           (Some (Models.hosts_up scan)) (Some (Models.ports_found scan)) None,
              Some scan)
      else
        let error_msg := default "Unknown error" (NmapScanner.error result) in
        scan ← update_status env (value FAILED) (Some error_msg) scan;
        mret (mkTaskResult false (Some scan_id) None None (Some error_msg), Some scan)
  end.

(** What a task object holds in [self._app].  Celery keeps the
    application a task is bound to under that very name ([Task.bind]
    stores it when [celery_app.task] registers the function), and the
    [db] property of [DatabaseTask] overwrites it with the Flask
    application it builds. *)
Inductive AppObject : Type := CeleryApp | FlaskApp.

(** the two attributes of a [DatabaseTask] that its methods read;
    [_db = false] is [_db is None] *)
Record DatabaseTask : Type := mkTask {
  _db : bool;
  _app : AppObject
}.

(** the task object as [@celery_app.task(bind=True, base=DatabaseTask)]
    leaves it *)
Definition registered_task : DatabaseTask := mkTask false CeleryApp.

(** the [db] property: the first reading builds the Flask application
    and keeps it in [_app]; the task object after the reading *)
Definition db (self : DatabaseTask) : DatabaseTask :=
  if _db self then self else mkTask true FlaskApp.

(** an exception that leaves the task *)
Inductive TaskError : Type :=
| AttributeError (object attribute : string).

(** [get_app_context(self)], that is [self._app.app_context()]: a Celery
    application has no attribute of that name *)
Definition get_app_context (self : DatabaseTask) : TaskError + unit :=
  match _app self with
  | FlaskApp => inr tt
  | CeleryApp => inl (AttributeError "Celery" "app_context")
  end.

(** how a run of the task ends *)
Inductive Outcome : Type :=
| Returned (result : TaskResult)
| Raised (exception : TaskError).

(** [execute_scan_task(self, scan_id, target, scan_type, custom_args)].
    [found] is the row of the table under [scan_id].  The answer is how
    the run ends, the row of the table after it, and the task object
    after it: [self.db] is read for the first commit, once a row is
    found.  The [with] statement is entered first, outside the [try],
    so what [get_app_context] raises leaves the task before anything
    is read. *)
Definition execute_scan_task (env : Env) (self : DatabaseTask) (found : option ScanResult)
           (request_id : string) (scan_id : Z)
           (target scan_type : string) (custom_args : option string)
  : M (Outcome * option ScanResult * DatabaseTask) :=
  match get_app_context self with
  | inl exception => mret (Raised exception, found, self)
  | inr _ =>
      out ← task_body env found request_id scan_id target scan_type custom_args;
      mret (Returned (fst out), snd out,
            match found with Some _ => db self | None => self end)
  end.

(** the body of the loop of [retry_failed_scans_task] for one failed
    row: it is queued again under the new task *)
Definition requeue (new_task_id : string) (scan : ScanResult) : ScanResult :=
  set_error_message None (set_status (value QUEUED) (set_task_id (Some new_task_id) scan)).

(** [cancel_scan] of [mcp_server/app.py], once the row is found and the
    caller may touch it: [None] is the answer 400.  The revocation of
    the Celery task is outside the model. *)
Definition cancel_scan (env : Env) (scan : ScanResult) : M (option ScanResult) :=
  if negb (NmapValidator.string_in (status scan) [value QUEUED; value RUNNING])
  then mret None
  else
    scan ← update_status env (value CANCELLED) None scan;
    mret (Some scan).

End Worker.

(* ===================================================================== *)
(** ** Notions of the specification used to state the properties *)
(* ===================================================================== *)

Module Spec.
Import IpAddress.

(** the shell metacharacters of the denylist: backtick, dollar,
    semicolon, ampersand, bar, less-than, greater-than *)
Definition shell_metacharacters : string := "`$;&|<>".

(** two address ranges overlap when some address lies in both *)
Definition ranges_overlap (a b : IPNetwork) : Prop :=
  exists addr : IPAddress, contains a addr = true /\ contains b addr = true.

(** the size ceiling of an address family, as the specification gives
    it: 256 addresses for IPv4 and 65536 for IPv6 *)
Definition ceiling (v : IPVersion) : Z :=
  match v with
  | V4 => 256
  | V6 => 65536
  end.

(** a network as the constructors make it: the prefix length is in
    range and no host bit is set *)
Definition well_formed (n : IPNetwork) : Prop :=
  0 <= prefixlen n <= max_prefixlen (version n) /\
  Z.land (network_address n) (netmask n) = network_address n.

(** the port entries of a parsed result *)
Definition port_entries (parsed : NmapScanner.Parsed) : list NmapScanner.PortData :=
  List.flat_map NmapScanner.ports (Worker.hosts_of parsed).


End Spec.

(* ===================================================================== *)
(** ** Concrete worlds and rows, for the examples *)
(* ===================================================================== *)

Module Scenarios.
Import World.

(** an element from its tag, attributes and children *)
Definition el (tag : string) (attrs : list (string * string))
           (children : list Xml.Element) : Xml.Element :=
  Xml.mkElement tag (list_to_map attrs) children.

(** a clock that advances one second per reading *)
Definition clock (n : nat) : Z := 1700000000000000 + 1000000 * Z.of_nat n.

Definition banner : string := "Nmap version 7.94 ( https://nmap.org )".

(** a document cut off after the opening tags *)
Definition truncated_text : string := "<nmaprun><host>".

(** one host with an ssh service that carries extra information and a
    web service that does not *)
Definition annotated_text : string :=
  "<nmaprun><host><status state='up'/><ports>" ++
  "<port protocol='tcp' portid='22'><state state='open'/>" ++
  "<service name='ssh' product='OpenSSH' extrainfo='protocol 2.0'/></port>" ++
  "<port protocol='tcp' portid='80'><state state='open'/>" ++
  "<service name='http'/></port></ports></host></nmaprun>".

Definition annotated_doc : Xml.Element :=
  el "nmaprun" []
    [ el "host" []
        [ el "status" [("state", "up")] [];
          el "ports" []
            [ el "port" [("protocol", "tcp"); ("portid", "22")]
                [ el "state" [("state", "open")] [];
                  el "service" [("name", "ssh"); ("product", "OpenSSH");
                                ("extrainfo", "protocol 2.0")] [] ];
              el "port" [("protocol", "tcp"); ("portid", "80")]
                [ el "state" [("state", "open")] [];
                  el "service" [("name", "http")] [] ] ] ] ].

(** one host with a port element numbered 0, which nmap reports when
    port 0 is scanned ([-p 0]) *)
Definition out_of_range_text : string :=
  "<nmaprun><host><status state='up'/><ports>" ++
  "<port protocol='tcp' portid='0'><state state='closed'/></port>" ++
  "</ports></host></nmaprun>".

Definition out_of_range_doc : Xml.Element :=
  el "nmaprun" []
    [ el "host" []
        [ el "status" [("state", "up")] [];
          el "ports" []
            [ el "port" [("protocol", "tcp"); ("portid", "0")]
                [ el "state" [("state", "closed")] [] ] ] ] ].

(** [ET.fromstring] on the three texts above (any other text is taken to
    be no document at all) *)
Definition read_document (text : string) : Xml.Element + string :=
  if String.eqb text annotated_text then inl annotated_doc
  else if String.eqb text out_of_range_text then inl out_of_range_doc
  else if String.eqb text truncated_text then inr "no element found: line 1, column 15"
  else inr "syntax error: line 1, column 0".

(** a world where nmap is installed and prints [output] for every scan *)
Definition world_printing (output : string) : Env :=
  mkEnv clock
        (fun command _ =>
           match command with
           | [_; "--version"] => Completed 0 banner ""
           | _ => Completed 0 output ""
           end)
        read_document.

Definition initial_state : State := mkState 0 [].

(** a row as it is right after submission *)
Definition queued_row : Models.ScanResult :=
  Models.new_scan 1 7 "192.168.1.5" "quick" None 5 (clock 0).


Definition test_scanner : NmapScanner.Scanner := NmapScanner.mkScanner "/usr/bin/nmap" 300.

(** a task object whose [db] property has been read: [_app] is the Flask
    application, so that the application context opens *)
Definition context_task : Worker.DatabaseTask := Worker.mkTask true Worker.FlaskApp.

(** what the parser makes of [annotated_doc] *)
Definition ssh_port : NmapScanner.PortData :=
  NmapScanner.mkPort (Some "tcp") 22 (Some "open")
    (Some (NmapScanner.mkService (Some "ssh") (Some "OpenSSH") None (Some "protocol 2.0"))).

Definition http_port : NmapScanner.PortData :=
  NmapScanner.mkPort (Some "tcp") 80 (Some "open")
    (Some (NmapScanner.mkService (Some "http") None None None)).

Definition annotated_host : NmapScanner.HostData :=
  NmapScanner.mkHost (Some "up") [] [] [ssh_port; http_port] None.

End Scenarios.

(* ===================================================================== *)
(** ** Authentication and authorization ([mcp_server/auth.py]) *)
(* ===================================================================== *)

Module Auth.

(** Role definitions *)
Definition ADMIN : string := "admin".
Definition ANALYST : string := "analyst".
Definition USER : string := "user".

(** [Role.all()] *)
Definition Role_all : list string := [ADMIN; ANALYST; USER].

(** Permission definitions *)
Definition SCAN_CREATE : string := "scan:create".
Definition SCAN_READ : string := "scan:read".
Definition SCAN_READ_ALL : string := "scan:read:all".
Definition SCAN_DELETE : string := "scan:delete".
Definition SCAN_DELETE_ALL : string := "scan:delete:all".
Definition USER_CREATE : string := "user:create".
Definition USER_READ : string := "user:read".
Definition USER_UPDATE : string := "user:update".
Definition USER_DELETE : string := "user:delete".
Definition REPORT_CREATE : string := "report:create".
Definition REPORT_READ : string := "report:read".
Definition REPORT_DELETE : string := "report:delete".
Definition SYSTEM_CONFIG : string := "system:config".
Definition SYSTEM_AUDIT : string := "system:audit".

(** Role to permissions mapping *)
Definition ROLE_PERMISSIONS : gmap string (list string) :=
  list_to_map
    [ (ADMIN, [SCAN_CREATE; SCAN_READ; SCAN_READ_ALL; SCAN_DELETE; SCAN_DELETE_ALL;
               USER_CREATE; USER_READ; USER_UPDATE; USER_DELETE;
               REPORT_CREATE; REPORT_READ; REPORT_DELETE;
               SYSTEM_CONFIG; SYSTEM_AUDIT]);
      (ANALYST, [SCAN_CREATE; SCAN_READ; SCAN_READ_ALL; SCAN_DELETE;
                 REPORT_CREATE; REPORT_READ; USER_READ]);
      (USER, [SCAN_CREATE; SCAN_READ; REPORT_CREATE; REPORT_READ]) ].

(** A row of [users], with the columns that the code below reads. *)
Record User : Type := mkUser {
  id : Z;
  username : string;
  api_key : option string;
  role : string;
  is_active : bool
}.

(** [AuthorizationService.has_permission(user, permission)] *)
Definition has_permission (user : User) (permission : string) : bool :=
  let user_permissions := default [] (ROLE_PERMISSIONS !! role user) in
  NmapValidator.string_in permission user_permissions.

(** [has_any_permission(user, permissions)] *)
Definition has_any_permission (user : User) (permissions : list string) : bool :=
  List.existsb (has_permission user) permissions.

(** [has_all_permissions(user, permissions)] *)
Definition has_all_permissions (user : User) (permissions : list string) : bool :=
  List.forallb (has_permission user) permissions.

(** [can_access_resource(user, resource_user_id, permission)] *)
Definition can_access_resource (user : User) (resource_user_id : Z)
           (permission : string) : bool :=
  if id user =? resource_user_id then true
  else has_permission user permission.

Definition key_is (key : string) (u : User) : bool :=
  match api_key u with Some k => String.eqb k key | None => false end.

(** [AuthService.authenticate_api_key(api_key)] on the table [users];
    [None] is [AuthenticationError] *)
Definition authenticate_api_key (users : list User) (key : string) : option User :=
  match List.find (key_is key) users with
  | Some user => if negb (is_active user) then None else Some user
  | None => None
  end.

(** [User.query.get(user_id)] *)
Definition get_user (users : list User) (user_id : Z) : option User :=
  List.find (fun u => id u =? user_id) users.

(** the two headers that the decorators read *)
Record Headers : Type := mkHeaders {
  x_api_key : option string;
  authorization : option string
}.

(** [auth_header.split(" ")[1]] for a header that starts with "Bearer " *)
Definition bearer_token (auth_header : string) : string :=
  match PyStr.split_on " " auth_header with
  | _ :: token :: _ => token
  | _ => ""
  end.

(** an exception that leaves a function of this module *)
Inductive Exception : Type :=
| AuthenticationError (message : string)
| AttributeError (object attribute : string).

(** [app_config.NAME] where [app_config] is [current_app.config]: the
    configuration of a Flask application is a dictionary ([Config] is a
    subclass of [dict]) and keeps its entries as keys, not attributes,
    so the access raises *)
Definition config_attribute (name : string) : Exception + string :=
  inl (AttributeError "Config" name).

(** what [jwt.decode] does with a token and a key: the value of
    ["user_id"] in the payload, or one of the two errors that
    [verify_token] catches *)
Inductive Decoded : Type :=
| Payload (user_id : Z)
| ExpiredSignatureError
| InvalidTokenError.

(** [AuthService.verify_token(token, app_config)], called with
    [current_app.config].  The arguments of [jwt.decode] are evaluated
    inside the [try], whose handlers catch the two errors of [jwt]
    only. *)
Definition verify_token (jwt_decode : string -> string -> Decoded) (token : string)
  : Exception + Z :=
  match config_attribute "JWT_SECRET_KEY" with
  | inl exception => inl exception
  | inr key =>
      match config_attribute "JWT_ALGORITHM" with
      | inl exception => inl exception
      | inr _ =>
          match jwt_decode token key with
          | Payload user_id => inr user_id
          | ExpiredSignatureError => inl (AuthenticationError "Token has expired")
          | InvalidTokenError => inl (AuthenticationError "Invalid token")
          end
      end
  end.

(** the first attempt of [auth_required]: the user of the [X-API-Key]
    header, when the header is there, is not empty and
    [authenticate_api_key] accepts it *)
Definition api_key_user (users : list User) (headers : Headers) : option User :=
  match x_api_key headers with
  | Some key => if PyStr.truthy key then authenticate_api_key users key else None
  | None => None
  end.

(** [auth_required]: [inr (Some user)] is the user it leaves in
    [g.current_user] before it runs the view, [inr None] is its answer
    401, and [inl] is an exception that it does not catch (its handlers
    catch [AuthenticationError] only). *)
Definition auth_required (jwt_decode : string -> string -> Decoded) (users : list User)
           (headers : Headers) : Exception + option User :=
  match api_key_user users headers with
  | Some user => inr (Some user)
  | None =>
      match authorization headers with
      | Some auth_header =>
          if PyStr.truthy auth_header && PyStr.startswith "Bearer " auth_header
          then
            match verify_token jwt_decode (bearer_token auth_header) with
            | inr user_id =>
                match get_user users user_id with
                | Some user => if is_active user then inr (Some user) else inr None
                | None => inr None
                end
            | inl (AuthenticationError _) => inr None
            | inl exception => inl exception
            end
          else inr None
      | None => inr None
      end
  end.

End Auth.

(* ===================================================================== *)
(** ** The scan routes ([mcp_server/app.py]) *)
(* ===================================================================== *)

Module App.
Import World.

(** what a view answers: the status code with the ["error"] or the
    ["message"] of the body, or the scan dictionary
    [scan.to_dict(include_results=...)] of a row *)
Inductive Reply : Type :=
| Error (code : Z) (error : string)
| Message (code : Z) (message : string)
| ScanBody (code : Z) (scan : Models.ScanResult) (include_results : bool).

Definition code_of (r : Reply) : Z :=
  match r with Error c _ | Message c _ | ScanBody c _ _ => c end.

(** [str.lower()] on one character and on a string *)
Definition lower_char (c : ascii) : ascii :=
  let n := PyStr.code c in
  if ((65 <=? n) && (n <=? 90)) || ((192 <=? n) && (n <=? 222) && negb (n =? 215))
  then ascii_of_N (Z.to_N (n + 32))
  else c.

Fixpoint lower (s : string) : string :=
  match s with
  | EmptyString => EmptyString
  | String c s' => String (lower_char c) (lower s')
  end.

(** the decorators of a scan route, outermost first: [auth_required],
    then [permission_required(permission)]; the view runs with the user
    they let through.  An exception that leaves a decorator is answered
    by the handler that [create_app] registers for [Exception]. *)
Definition guarded {A} (jwt_decode : string -> string -> Auth.Decoded)
           (users : list Auth.User)
           (headers : Auth.Headers) (permission : string)
           (denied : Reply -> A) (view : Auth.User -> A) : A :=
  match Auth.auth_required jwt_decode users headers with
  | inl _ => denied (Error 500 "Internal Server Error")
  | inr None => denied (Error 401 "Authentication required")
  | inr (Some user) =>
      if negb (Auth.has_any_permission user [permission])
      then denied (Error 403 "Insufficient permissions")
      else view user
  end.

(** the body of [get_scan(scan_id)]; [include_results] is the query
    argument of that name, if given *)
Definition get_scan_view (table : gmap Z Models.ScanResult) (scan_id : Z)
           (include_results : option string) (user : Auth.User) : Reply :=
  match table !! scan_id with
  | None => Error 404 "Scan not found"
  | Some scan =>
      if negb (Auth.can_access_resource user (Models.user_id scan) Auth.SCAN_READ_ALL)
      then Error 403 "Access denied"
      else ScanBody 200 scan (String.eqb (lower (default "true" include_results)) "true")
  end.

(** the body of [delete_scan(scan_id)]: the answer and the table after *)
Definition delete_scan_view (table : gmap Z Models.ScanResult) (scan_id : Z)
           (user : Auth.User) : Reply * gmap Z Models.ScanResult :=
  match table !! scan_id with
  | None => (Error 404 "Scan not found", table)
  | Some scan =>
      if negb (Auth.can_access_resource user (Models.user_id scan) Auth.SCAN_DELETE_ALL)
      then (Error 403 "Access denied", table)
      else (Message 200 "Scan deleted successfully", delete scan_id table)
  end.

(** the body of [cancel_scan(scan_id)]: the answer, the table after, and
    the task ids handed to [celery_app.control.revoke] *)
Definition cancel_scan_view (env : Env) (table : gmap Z Models.ScanResult) (scan_id : Z)
           (user : Auth.User) : M (Reply * gmap Z Models.ScanResult * list string) :=
  match table !! scan_id with
  | None => mret (Error 404 "Scan not found", table, [])
  | Some scan =>
      if negb (Auth.can_access_resource user (Models.user_id scan) Auth.SCAN_DELETE_ALL)
      then mret (Error 403 "Access denied", table, [])
      else
        cancelled ← Worker.cancel_scan env scan;
        match cancelled with
        | None => mret (Error 400 "Scan cannot be cancelled", table, [])
        | Some scan' =>
            let revoked :=
              match Models.task_id scan with
              | Some task => if PyStr.truthy task then [task] else []
              | None => []
              end in
            mret (Message 200 "Scan cancelled successfully",
                  <[scan_id := scan']> table, revoked)
        end
  end.

(** the three routes with their decorators (the rate limiter is left
    out) *)
Definition get_scan (jwt_decode : string -> string -> Auth.Decoded) (users : list Auth.User)
           (headers : Auth.Headers) (table : gmap Z Models.ScanResult)
           (scan_id : Z) (include_results : option string) : Reply :=
  guarded jwt_decode users headers Auth.SCAN_READ (fun r => r)
          (get_scan_view table scan_id include_results).

Definition delete_scan (jwt_decode : string -> string -> Auth.Decoded) (users : list Auth.User)
           (headers : Auth.Headers) (table : gmap Z Models.ScanResult)
           (scan_id : Z) : Reply * gmap Z Models.ScanResult :=
  guarded jwt_decode users headers Auth.SCAN_DELETE (fun r => (r, table))
          (delete_scan_view table scan_id).

Definition cancel_scan (env : Env) (jwt_decode : string -> string -> Auth.Decoded)
           (users : list Auth.User) (headers : Auth.Headers)
           (table : gmap Z Models.ScanResult) (scan_id : Z)
  : M (Reply * gmap Z Models.ScanResult * list string) :=
  guarded jwt_decode users headers Auth.SCAN_DELETE (fun r => mret (r, table, []))
          (cancel_scan_view env table scan_id).

(** the JSON body of a scan request: a key that is missing is [None] *)
Record ScanRequest : Type := mkScanRequest {
  req_target : option string;
  req_scan_type : option string;
  req_custom_args : option string;
  req_priority : option Z
}.

(** [[t.value for t in ScanType]] *)
Definition ScanType_values : list string :=
  ["default"; "quick"; "full"; "stealth"; "os"; "vuln"; "custom"].

(** The body of [create_scan()].  [new_id] is the key that the database
    gives the row, and [apply_async scan_id] what queueing the task does:
    the id of the task, or the text of the exception it raises.  The row
    holds the custom arguments themselves where the column stores their
    JSON text, and one reading of the clock stands for its two time
    defaults; the body is taken to hold no null value. *)
Definition create_scan_view (env : Env) (apply_async : Z -> string + string)
           (table : gmap Z Models.ScanResult) (new_id : Z)
           (data : ScanRequest) (user : Auth.User)
  : M (Reply * gmap Z Models.ScanResult) :=
  if negb (NmapScanner.truthy_opt (req_target data))
  then mret (Error 400 "Target is required", table)
  else
    let target := default "" (req_target data) in
    let scan_type := default "default" (req_scan_type data) in
    let custom_args := req_custom_args data in
    let priority := default 5 (req_priority data) in
    if negb (NmapValidator.string_in scan_type ScanType_values)
    then mret (Error 400 ("Invalid scan type. Allowed: ['default', 'quick', 'full', " ++
                          "'stealth', 'os', 'vuln', 'custom']"), table)
    else
      now ← utcnow env;
      let scan :=
        Models.new_scan new_id (Auth.id user) target scan_type
          (if NmapScanner.truthy_opt custom_args then custom_args else None)
          priority now in
      match apply_async new_id with
      | inl task =>
          let scan := Models.set_task_id (Some task) scan in
          mret (ScanBody 202 scan false, <[new_id := scan]> table)
      | inr e =>
          scan ← Models.update_status env (Models.value Models.FAILED) (Some e) scan;
          mret (Error 500 "Failed to queue scan", <[new_id := scan]> table)
      end.

End App.

(* ===================================================================== *)
(** ** The transitions of a scan row *)
(* ===================================================================== *)

(** Every place of the code that changes the status of a row, as a step
    from the row before to the row after. *)
Module Lifecycle.
Import World Models.

Inductive step (env : Env) : ScanResult -> ScanResult -> Prop :=
| step_start (r : ScanResult) (request_id : string) (st : State) :
    (* the worker takes the row: [update_status(RUNNING)], then the task id *)
    step env r (set_task_id (Some request_id)
                            (fst (update_status env (value RUNNING) None r st)))
| step_succeed (r : ScanResult) (scan_type : string) (result : NmapScanner.ScanDict)
               (st : State) :
    (* the worker stores a successful result on the row it is running *)
    status r = value RUNNING ->
    step env r (fst (update_status env (value COMPLETED) None
                                   (Worker.store_results scan_type result r) st))
| step_fail (r : ScanResult) (error_msg : string) (st : State) :
    (* the worker records a failed result, or [create_scan] a task that
       could not be queued *)
    step env r (fst (update_status env (value FAILED) (Some error_msg) r st))
| step_cancel (r r' : ScanResult) (st : State) :
    (* [cancel_scan] lets the request through *)
    fst (Worker.cancel_scan env r st) = Some r' ->
    step env r r'
| step_requeue (r : ScanResult) (new_task_id : string) :
    (* the retry sweep takes a failed row *)
    status r = value FAILED ->
    step env r (Worker.requeue new_task_id r).

(** the rows that a freshly submitted row can become *)
Inductive reachable (env : Env) : ScanResult -> Prop :=
| reachable_new (id user_id : Z) (target scan_type : string) (scan_args : option string)
                (priority created_at : Z) :
    reachable env (new_scan id user_id target scan_type scan_args priority created_at)
| reachable_step (r r' : ScanResult) :
    reachable env r -> step env r r' -> reachable env r'.

(** what holds of every reachable row *)
Definition consistent (r : ScanResult) : Prop :=
  In (status r) (List.map value [QUEUED; RUNNING; COMPLETED; FAILED; CANCELLED]) /\
  (status r = value RUNNING -> is_some (started_at r) = true) /\
  (status r = value COMPLETED \/ status r = value FAILED ->
   is_some (completed_at r) = true /\
   forall started completed,
     started_at r = Some started -> completed_at r = Some completed ->
     duration_seconds r = Some (completed - started)) /\
  (status r = value COMPLETED ->
   is_some (started_at r) = true /\ is_some (raw_output r) = true /\
   is_some (parsed_results r) = true).

End Lifecycle.

(** the scanner that [run_nmap_scan] builds and the command of its
    availability check *)
Module Pipeline.

Definition probe : list string := ["/usr/bin/nmap"; "--version"].

Definition default_scanner : NmapScanner.Scanner :=
  NmapScanner.mkScanner "/usr/bin/nmap" 300.

(** [host_data.get("status") == "up"] *)
Definition is_up (host : NmapScanner.HostData) : bool :=
  NmapScanner.opt_string_eqb (NmapScanner.status host) "up".

(** the text of the [portid] attribute read as [int()] reads it *)
Definition readable_portid (port_element : Xml.Element) : option Z :=
  match Xml.get port_element "portid" with
  | Some text => PyStr.int text
  | None => None
  end.

(** the [port] elements of a [host] element: those directly under its
    first [ports] element, in document order *)
Definition port_elements (host_element : Xml.Element) : list Xml.Element :=
  match Xml.find host_element "ports" with
  | Some ports_element => Xml.findall ports_element "port"
  | None => []
  end.

(** a [port] element whose [portid] attribute is there and reads as an
    integer *)
Definition has_portid (port_element : Xml.Element) : bool :=
  Models.is_some (readable_portid port_element).

End Pipeline.

(* ===================================================================== *)
(** * Properties *)
(* ===================================================================== *)

(** Two tactics for the monadic code: unfolding the monad, and splitting
    on every test of the goal. *)
Ltac run_monad :=
  unfold mbind, World.M_bind, mret, World.M_ret, World.utcnow in *; cbn [fst snd] in *.

Ltac split_conditions :=
  repeat match goal with
         | |- context [if ?b then _ else _] => destruct b eqn:?; simpl
         | |- context [match ?o with Some _ => _ | None => _ end] =>
             destruct o eqn:?; simpl
         end;
  try reflexivity; try congruence.


(** ** Strings and patterns *)

Section StringFacts.

(** A one-character class is found as soon as one character of the
    string is in it. *)
Lemma search_one_class (k : Re.CharClass) (s : string) (c : ascii) :
  PyStr.contains c s = true ->
  Re.class_matches k c = true ->
  Re.search_atoms [Re.One k] s = true.
Proof.
  unfold PyStr.contains. induction s as [|a s IH]; simpl; [discriminate|].
  intros Hc Hk. apply orb_true_iff in Hc as [Hc|Hc].
  - apply Ascii.eqb_eq in Hc as <-. now rewrite Hk.
  - rewrite (IH Hc Hk). apply orb_true_r.
Qed.

Lemma first_match_some (patterns : list Re.Pattern) (args : string) (p : Re.Pattern) :
  In p patterns -> Re.search p args = true ->
  exists q, NmapValidator.first_match patterns args = Some q.
Proof.
  induction patterns as [|q qs IH]; simpl; [tauto|].
  intros [->|Hin] Hs.
  - rewrite Hs. eauto.
  - destruct (Re.search q args); eauto.
Qed.

Lemma first_match_sound (patterns : list Re.Pattern) (args : string) (q : Re.Pattern) :
  NmapValidator.first_match patterns args = Some q ->
  In q patterns /\ Re.search q args = true.
Proof.
  induction patterns as [|p ps IH]; simpl; [discriminate|].
  destruct (Re.search p args) eqn:Hs.
  - intros [= <-]. auto.
  - intros H. destruct (IH H). auto.
Qed.

End StringFacts.

(** ** The argument sanitizer and the scan pipeline *)

Section Sanitizer.
Import NmapValidator NmapScanner.

Lemma metacharacter_is_denied (args : string) (c : ascii) :
  PyStr.contains c args = true ->
  PyStr.contains c Spec.shell_metacharacters = true ->
  exists p, In p forbidden_patterns /\ Re.search p args = true.
Proof.
  intros Hin Hmeta.
  destruct (PyStr.contains c "$`") eqn:Hfirst.
  - exists (Re.mkPattern "[\$`]" [Re.One (Re.OneOf "$`")]). split.
    + simpl. tauto.
    + apply (search_one_class _ _ c); assumption.
  - exists (Re.mkPattern "[;&|<>]" [Re.One (Re.OneOf ";&|<>")]). split.
    + simpl. tauto.
    + apply (search_one_class _ _ c); [assumption|].
      unfold Spec.shell_metacharacters, PyStr.contains in *. cbn in *.
      destruct (Ascii.eqb c "`"), (Ascii.eqb c "$"); simpl in *;
        try discriminate. exact Hmeta.
Qed.



End Sanitizer.

(** ** Command assembly *)

Section Assembler.
Import NmapValidator NmapScanner.

Lemma profile_is_allowed (scan_type : string) (args : list string) :
  SCAN_PROFILES !! scan_type = Some args ->
  validate_scan_type scan_type = (true, None) /\ (scan_type =? "custom")%string = false.
Proof.
  intros H. unfold SCAN_PROFILES in H.
  apply elem_of_list_to_map_2, list_elem_of_In in H. simpl in H.
  repeat (destruct H as [H|H]; [injection H as <- <-; split; reflexivity|]).
  contradiction.
Qed.

Lemma custom_is_not_a_profile : SCAN_PROFILES !! "custom" = None.
Proof. vm_compute. reflexivity. Qed.

Lemma default_profile : SCAN_PROFILES !!! "default" = ["-T4"; "-Pn"].
Proof. vm_compute. reflexivity. Qed.

(** C6.  For a target that passes validation, the assembled command is
    the tool path, then the arguments of the profile (for each profile
    of the table) or the sanitized custom arguments (for the custom
    profile with arguments that pass the sanitizer), then "-oX", "-",
    then the target as the last token. *)
Theorem command_vector_shape
    (self : Scanner) (target : string) :
  validate_target target = (true, None) ->
  (forall scan_type args custom_args,
      SCAN_PROFILES !! scan_type = Some args ->
      validate_and_prepare_scan self target scan_type custom_args =
        (true, None, Some ([nmap_path self] ++ args ++ ["-oX"; "-"; target])%list)) /\
  (forall custom safe_args,
      PyStr.truthy custom = true ->
      sanitize_custom_args custom = (true, None, Some safe_args) ->
      validate_and_prepare_scan self target "custom" (Some custom) =
        (true, None, Some ([nmap_path self] ++ safe_args ++ ["-oX"; "-"; target])%list)).
Proof.
  intros Hv. split.
  - intros scan_type args custom_args Hp.
    destruct (profile_is_allowed _ _ Hp) as [Ht Hc].
    unfold validate_and_prepare_scan. rewrite Hv, Ht, Hc, Hp. simpl.
    now rewrite <- !app_assoc.
  - intros custom safe_args Htr Hs.
    unfold validate_and_prepare_scan. rewrite Hv.
    change (validate_scan_type "custom") with (true, @None string).
    change ("custom" =? "custom")%string with true.
    simpl. rewrite Htr, Hs. simpl.
    now rewrite <- !app_assoc.
Qed.

(** C10.  With the scan type "custom" and custom arguments that are
    absent or empty, a valid target is prepared with the argument list of
    the "default" profile, "-T4" "-Pn": "custom" is not a key of the
    profile table, so the lookup falls back to its default. *)
Theorem custom_without_arguments_uses_default
    (self : Scanner) (target : string) (custom_args : option string) :
  validate_target target = (true, None) ->
  custom_args = None \/ custom_args = Some "" ->
  SCAN_PROFILES !! "custom" = None /\
  validate_and_prepare_scan self target "custom" custom_args =
    (true, None, Some [nmap_path self; "-T4"; "-Pn"; "-oX"; "-"; target]).
Proof.
  intros Hv Hc. split; [apply custom_is_not_a_profile|].
  unfold validate_and_prepare_scan. rewrite Hv.
  change (validate_scan_type "custom") with (true, @None string).
  rewrite custom_is_not_a_profile, default_profile.
  destruct Hc as [-> | ->]; reflexivity.
Qed.

End Assembler.

(** ** Networks: masks, containment and overlap *)

Section Networks.
Import IpAddress.

Lemma ALL_ONES_ones (v : IPVersion) : ALL_ONES v = Z.ones (max_prefixlen v).
Proof. destruct v; reflexivity. Qed.

Lemma max_prefixlen_pos (v : IPVersion) : 0 < max_prefixlen v.
Proof. destruct v; reflexivity. Qed.

(** The mask of a prefix length [p] has exactly the [p] top bits of the
    address width. *)
Lemma netmask_testbit (v : IPVersion) (p i : Z) :
  0 <= p <= max_prefixlen v -> 0 <= i ->
  Z.testbit (_ip_int_from_prefix v p) i
  = (max_prefixlen v - p <=? i) && (i <? max_prefixlen v).
Proof.
  intros Hp Hi. unfold _ip_int_from_prefix.
  pose proof (max_prefixlen_pos v) as Hw.
  rewrite ALL_ONES_ones, Z.lxor_spec, Z.shiftr_spec by lia.
  rewrite !Z.testbit_ones_nonneg by lia.
  destruct (Z.ltb_spec i (max_prefixlen v)), (Z.ltb_spec (i + p) (max_prefixlen v)),
    (Z.leb_spec (max_prefixlen v - p) i); simpl; try reflexivity; lia.
Qed.

Lemma netmask_inclusion (v : IPVersion) (p q : Z) :
  0 <= p -> p <= q -> q <= max_prefixlen v ->
  Z.land (_ip_int_from_prefix v q) (_ip_int_from_prefix v p) = _ip_int_from_prefix v p.
Proof.
  intros H0 Hpq Hq. apply Z.bits_inj'. intros i Hi.
  rewrite Z.land_spec, !netmask_testbit by lia.
  destruct (Z.leb_spec (max_prefixlen v - p) i), (Z.leb_spec (max_prefixlen v - q) i),
    (Z.ltb_spec i (max_prefixlen v)); simpl; try reflexivity; lia.
Qed.

Lemma contains_spec (n : IPNetwork) (a : IPAddress) :
  contains n a = true <->
  version n = addr_version a /\ Z.land (ip a) (netmask n) = network_address n.
Proof.
  unfold contains.
  destruct (version n), (addr_version a); simpl; rewrite ?Z.eqb_eq;
    intuition congruence.
Qed.

Lemma network_address_inside (n : IPNetwork) :
  Spec.well_formed n -> contains n (network_address_of n) = true.
Proof. intros [_ H]. apply contains_spec. simpl. auto. Qed.

Lemma broadcast_address_inside (n : IPNetwork) :
  Spec.well_formed n -> contains n (broadcast_address_of n) = true.
Proof.
  intros [Hp H]. apply contains_spec. simpl. split; [reflexivity|].
  unfold broadcast_address, hostmask, netmask in *.
  apply Z.bits_inj'. intros i Hi.
  apply (f_equal (fun z => Z.testbit z i)) in H.
  rewrite Z.land_spec in H.
  rewrite Z.land_spec, Z.lor_spec, Z.lxor_spec, ALL_ONES_ones.
  rewrite netmask_testbit in * by lia.
  pose proof (max_prefixlen_pos (version n)).
  rewrite Z.testbit_ones_nonneg by lia.
  destruct (Z.testbit (network_address n) i),
    (Z.leb_spec (max_prefixlen (version n) - prefixlen n) i),
    (Z.ltb_spec i (max_prefixlen (version n))); simpl in *; congruence || lia.
Qed.

Lemma overlaps_sound (a b : IPNetwork) :
  Spec.well_formed a -> Spec.well_formed b ->
  overlaps a b = true -> Spec.ranges_overlap a b.
Proof.
  intros Ha Hb H. unfold overlaps in H.
  repeat (apply orb_true_iff in H as [H|H]).
  - exists (network_address_of a). auto using network_address_inside.
  - exists (broadcast_address_of a). auto using broadcast_address_inside.
  - exists (network_address_of b). auto using network_address_inside.
  - exists (broadcast_address_of b). auto using broadcast_address_inside.
Qed.

(** Two networks that share an address are nested, so the network
    address of the smaller one lies in the larger one. *)
Lemma overlaps_complete (a b : IPNetwork) :
  Spec.well_formed a -> Spec.well_formed b ->
  Spec.ranges_overlap a b -> overlaps a b = true.
Proof.
  intros [Hpa _] [Hpb _] (addr & Ha & Hb).
  apply contains_spec in Ha as [Hva Ha], Hb as [Hvb Hb].
  assert (Hv : version a = version b) by congruence.
  unfold overlaps. destruct (Z.le_ge_cases (prefixlen a) (prefixlen b)) as [Hle|Hle].
  - assert (H : contains a (network_address_of b) = true).
    { apply contains_spec. simpl. split; [congruence|].
      rewrite <- Hb, <- Z.land_assoc. unfold netmask in *.
      rewrite <- Hv in Hpb |- *.
      rewrite netmask_inclusion by lia. exact Ha. }
    rewrite H. now rewrite !orb_true_r.
  - assert (H : contains b (network_address_of a) = true).
    { apply contains_spec. simpl. split; [congruence|].
      rewrite <- Ha, <- Z.land_assoc. unfold netmask in *.
      rewrite Hv in Hpa |- *.
      rewrite netmask_inclusion by lia. exact Hb. }
    now rewrite H.
Qed.

Lemma overlaps_spec (a b : IPNetwork) :
  Spec.well_formed a -> Spec.well_formed b ->
  overlaps a b = true <-> Spec.ranges_overlap a b.
Proof. split; auto using overlaps_sound, overlaps_complete. Qed.

(** The address count is the size of the block. *)
Lemma num_addresses_power (n : IPNetwork) :
  Spec.well_formed n ->
  num_addresses n = 2 ^ (max_prefixlen (version n) - prefixlen n).
Proof.
  intros [Hp H]. unfold num_addresses, broadcast_address.
  assert (Hh : hostmask n = Z.ones (max_prefixlen (version n) - prefixlen n)).
  { unfold hostmask, netmask. apply Z.bits_inj'. intros i Hi.
    rewrite Z.lxor_spec, ALL_ONES_ones, netmask_testbit by lia.
    pose proof (max_prefixlen_pos (version n)).
    rewrite !Z.testbit_ones_nonneg by lia.
    destruct (Z.leb_spec (max_prefixlen (version n) - prefixlen n) i),
      (Z.ltb_spec i (max_prefixlen (version n))),
      (Z.ltb_spec i (max_prefixlen (version n) - prefixlen n));
      simpl; try reflexivity; lia. }
  assert (Hd : Z.land (network_address n) (hostmask n) = 0).
  { rewrite <- H. unfold hostmask. apply Z.bits_inj'. intros i Hi.
    rewrite !Z.land_spec, Z.lxor_spec, Z.bits_0.
    destruct (Z.testbit (network_address n) i), (Z.testbit (netmask n) i) eqn:Hm;
      simpl; try reflexivity.
    unfold netmask in Hm. rewrite netmask_testbit in Hm by lia.
    rewrite ALL_ONES_ones, Z.testbit_ones_nonneg
      by (pose proof (max_prefixlen_pos (version n)); lia).
    apply andb_true_iff in Hm as [_ ->]. reflexivity. }
  rewrite <- (Z.add_nocarry_lor _ _ Hd), Hh, Z.ones_equiv. lia.
Qed.

End Networks.

(** ** What the constructors of networks guarantee *)

Section ParsedNetworks.
Import IpAddress.

Lemma make_network_well_formed (v : IPVersion) (packed p : Z) :
  0 <= p <= max_prefixlen v -> Spec.well_formed (make_network v packed p).
Proof.
  intros Hp. unfold make_network, Spec.well_formed, netmask.
  destruct (Z.eqb_spec (Z.land packed (_ip_int_from_prefix v p)) packed) as [He|He];
    simpl; split; try assumption.
  - now rewrite <- Z.land_assoc, Z.land_diag.
Qed.

Lemma bit_length_nonneg (x : Z) : 0 <= bit_length x.
Proof.
  unfold bit_length. destruct (x =? 0); [lia|].
  pose proof (Z.log2_nonneg x). lia.
Qed.

Lemma prefix_from_ip_int_range (v : IPVersion) (ip_int p : Z) :
  _prefix_from_ip_int v ip_int = Some p -> 0 <= p <= max_prefixlen v.
Proof.
  unfold _prefix_from_ip_int, _count_righthand_zero_bits.
  pose proof (max_prefixlen_pos v) as Hw.
  destruct (negb _); [discriminate|]. intros [= <-].
  destruct (ip_int =? 0); [lia|].
  pose proof (bit_length_nonneg (Z.land (Z.lnot ip_int) (ip_int - 1))). lia.
Qed.

Lemma prefix_from_prefix_string_range (v : IPVersion) (s : string) (p : Z) :
  _prefix_from_prefix_string v s = Some p -> 0 <= p <= max_prefixlen v.
Proof.
  unfold _prefix_from_prefix_string.
  destruct (negb (PyStr.isdigits s)); [discriminate|].
  destruct (negb _) eqn:H; [discriminate|]. intros [= <-].
  apply negb_false_iff, andb_true_iff in H as [H1 H2]. lia.
Qed.

Lemma v4_make_netmask_range (arg : option string) (p : Z) :
  v4_make_netmask arg = Some p -> 0 <= p <= max_prefixlen V4.
Proof.
  destruct arg as [s|]; unfold v4_make_netmask.
  - destruct (_prefix_from_prefix_string V4 s) eqn:H1.
    + intros [= <-]. exact (prefix_from_prefix_string_range V4 s _ H1).
    + unfold v4_prefix_from_ip_string.
      destruct (v4_ip_int_from_string s) as [ip_int|]; [|discriminate].
      destruct (_prefix_from_ip_int V4 ip_int) eqn:H2.
      * intros [= <-]. exact (prefix_from_ip_int_range V4 _ _ H2).
      * apply prefix_from_ip_int_range.
  - intros [= <-]. simpl. lia.
Qed.

Lemma v6_make_netmask_range (arg : option string) (p : Z) :
  v6_make_netmask arg = Some p -> 0 <= p <= max_prefixlen V6.
Proof.
  destruct arg as [s|]; unfold v6_make_netmask.
  - apply prefix_from_prefix_string_range.
  - intros [= <-]. simpl. lia.
Qed.

(** Every network that [ip_network] returns is well formed. *)
Lemma ip_network_well_formed (address : string) (n : IPNetwork) :
  ip_network address = inl n -> Spec.well_formed n.
Proof.
  unfold ip_network.
  destruct (IPv4Network address) as [n4|] eqn:H4.
  - intros [= <-]. unfold IPv4Network in H4.
    destruct (_split_addr_prefix address) as [[addr mask]|]; [|discriminate].
    destruct (IPv4Address addr); [|discriminate].
    destruct (v4_make_netmask mask) eqn:Hm; [|discriminate].
    injection H4 as <-. eauto using make_network_well_formed, v4_make_netmask_range.
  - destruct (IPv6Network address) as [n6|] eqn:H6; [|discriminate].
    intros [= <-]. unfold IPv6Network in H6.
    destruct (_split_addr_prefix address) as [[addr mask]|]; [|discriminate].
    destruct (IPv6Address addr); [|discriminate].
    destruct (v6_make_netmask mask) eqn:Hm; [|discriminate].
    injection H6 as <-. eauto using make_network_well_formed, v6_make_netmask_range.
Qed.

Lemma forbidden_ranges_well_formed (f : IPNetwork) :
  In f NmapValidator.FORBIDDEN_RANGES -> Spec.well_formed f.
Proof.
  simpl. intros H.
  repeat (destruct H as [<-|H]; [split; [simpl; lia | reflexivity]|]).
  contradiction.
Qed.

(** The forbidden ranges are the networks that their texts denote. *)
Lemma forbidden_ranges_parsed :
  List.map ip_network NmapValidator.FORBIDDEN_RANGES_text
  = List.map inl NmapValidator.FORBIDDEN_RANGES.
Proof. vm_compute. reflexivity. Qed.


Lemma first_overlap_none (n : IPNetwork) (ranges : list IPNetwork) :
  NmapValidator.first_overlap n ranges = None <->
  forall f, In f ranges -> overlaps n f = false.
Proof.
  induction ranges as [|g gs IH]; simpl.
  - split; [contradiction | reflexivity].
  - destruct (overlaps n g) eqn:Ho.
    + split; [discriminate|]. intros H. rewrite (H g) in Ho by auto. discriminate.
    + rewrite IH. split.
      * intros H f [<-|Hf]; auto.
      * auto.
Qed.

End ParsedNetworks.

(** ** The target validator *)

Section TargetValidator.
Import IpAddress NmapValidator.

Lemma validate_target_unfold (target : string) (network : IPNetwork) :
  ip_network (PyStr.strip target) = inl network ->
  validate_target target =
    match first_overlap network FORBIDDEN_RANGES with
    | Some forbidden => (false, Some (overlap_message (PyStr.strip target) forbidden))
    | None =>
        if Spec.ceiling (version network) <? num_addresses network
        then (false, Some (too_large_message (num_addresses network)
                                             (Spec.ceiling (version network))))
        else (true, None)
    end.
Proof.
  intros H. unfold validate_target. rewrite H.
  destruct (first_overlap network FORBIDDEN_RANGES); [reflexivity|].
  destruct (version network); reflexivity.
Qed.


(** C5.  A target that parses and shares no address with a forbidden range
    is rejected with the range-too-large message exactly when its address
    count exceeds the ceiling of its family (256 for IPv4, 65536 for
    IPv6), and is accepted otherwise; the address count is the size of the
    block; "10.0.0.0/8" is rejected as too large, and of the IPv6 blocks
    the one of 65536 addresses passes and the one of 131072 does not. *)
Theorem size_ceiling_decides (target : string) (network : IPNetwork) :
  ip_network (PyStr.strip target) = inl network ->
  (forall f, In f FORBIDDEN_RANGES -> ~ Spec.ranges_overlap network f) ->
  num_addresses network = 2 ^ (max_prefixlen (version network) - prefixlen network) /\
  (validate_target target
     = (false, Some (too_large_message (num_addresses network)
                                       (Spec.ceiling (version network))))
   <-> Spec.ceiling (version network) < num_addresses network) /\
  (validate_target target = (true, None)
   <-> num_addresses network <= Spec.ceiling (version network)) /\
  (validate_target "10.0.0.0/8"
     = (false, Some "Network too large: 16777216 hosts (max 256)") /\
   validate_target "2001:db8::/112" = (true, None) /\
   validate_target "2001:db8::/111"
     = (false, Some "Network too large: 131072 hosts (max 65536)")).
Proof.
  intros Hparse Hno.
  pose proof (ip_network_well_formed _ _ Hparse) as Hwf.
  assert (Hfirst : first_overlap network FORBIDDEN_RANGES = None).
  { apply first_overlap_none. intros f Hf.
    destruct (overlaps network f) eqn:Ho; [|reflexivity].
    exfalso. apply (Hno f Hf).
    apply overlaps_sound; auto using forbidden_ranges_well_formed. }
  rewrite (validate_target_unfold _ _ Hparse), Hfirst.
  split; [apply num_addresses_power; assumption|].
  assert (Hten : validate_target "10.0.0.0/8"
                   = (false, Some "Network too large: 16777216 hosts (max 256)") /\
                 validate_target "2001:db8::/112" = (true, None) /\
                 validate_target "2001:db8::/111"
                   = (false, Some "Network too large: 131072 hosts (max 65536)"))
    by (vm_compute; repeat split; reflexivity).
  destruct (Z.ltb_spec (Spec.ceiling (version network)) (num_addresses network));
    (split; [|split; [|exact Hten]]); split; intros; lia || discriminate || reflexivity.
Qed.

End TargetValidator.

(** ** The lifecycle of a scan row *)

Section Lifecycle.
Import World Models.

(** The setters used by [update_status] leave the start time alone,
    except for [set_started_at]. *)
Lemma update_status_started_at (env : Env) (status : string) (err : option string)
      (self : ScanResult) (st : State) :
  started_at (fst (update_status env status err self st)) =
    if String.eqb status (value RUNNING) && negb (is_some (started_at self))
    then Some (utcnow_at env (S (ticks st)))
    else started_at self.
Proof.
  unfold update_status. run_monad. simpl.
  destruct (String.eqb status "running" && negb (is_some (started_at self)));
    simpl; [destruct (NmapScanner.truthy_opt err); reflexivity|].
  split_conditions.
Qed.

(** C7.  A transition to running leaves a start time that is already set
    as it is and records the clock when none is set; a second transition
    to running therefore does not change the start time. *)
Theorem running_sets_started_at_once
    (env : Env) (err err' : option string) (self : ScanResult) (st st' : State) :
  let once := fst (update_status env (value RUNNING) err self st) in
  let twice := fst (update_status env (value RUNNING) err' once st') in
  started_at once =
    match started_at self with
    | Some t => Some t
    | None => Some (utcnow_at env (S (ticks st)))
    end /\
  started_at twice = started_at once.
Proof.
  intros once twice. subst once twice.
  rewrite !update_status_started_at. simpl.
  destruct (started_at self); simpl; auto.
Qed.

(** C1 (what the code does).  Cancelling a queued row through
    [update_status], as [cancel_scan] does, leaves a row whose status is
    the terminal "cancelled" and whose completion time is not set. *)
Theorem cancelled_row_has_no_completed_at (env : Env) (st : State) :
  let row := fst (update_status env (value CANCELLED) None Scenarios.queued_row st) in
  terminal (status Scenarios.queued_row) = false /\
  completed_at Scenarios.queued_row = None /\
  status row = "cancelled" /\
  terminal (status row) = true /\
  completed_at row = None.
Proof. repeat split. Qed.

(** The two transitions that the code completes do establish the
    equivalence: after [update_status] with "completed" or "failed" the
    status is terminal and the completion time is set. *)
Lemma finished_row_has_completed_at (env : Env) (status : string) (err : option string)
      (self : ScanResult) (st : State) :
  status = value COMPLETED \/ status = value FAILED ->
  let row := fst (update_status env status err self st) in
  terminal (Models.status row) = true /\
  completed_at row = Some (utcnow_at env (S (ticks st))).
Proof.
  intros [-> | ->]; unfold update_status; run_monad; simpl;
    destruct (started_at self); simpl;
    destruct (NmapScanner.truthy_opt err); split; reflexivity.
Qed.


End Lifecycle.

(** ** The result parser *)

Section Parser.
Import NmapScanner.

Lemma parse_port_portid (port_element : Xml.Element) (p : PortData) :
  _parse_port port_element = Some p ->
  exists text, Xml.get port_element "portid" = Some text /\ PyStr.int text = Some (portid p).
Proof.
  unfold _parse_port.
  destruct (Xml.get port_element "portid") as [text|]; [|discriminate].
  destruct (PyStr.int text) as [n|] eqn:Hn; [|discriminate].
  intros [= <-]. exists text. auto.
Qed.

Lemma parse_ports_origin (port_elements : list Xml.Element) (p : PortData) :
  In p (parse_ports port_elements) ->
  exists port_element, In port_element port_elements /\ _parse_port port_element = Some p.
Proof.
  induction port_elements as [|e es IH]; simpl; [contradiction|].
  destruct (_parse_port e) as [q|] eqn:He.
  - intros [<-|Hin]; [eauto|]. destruct (IH Hin) as (e' & ? & ?). eauto.
  - intros Hin. destruct (IH Hin) as (e' & ? & ?). eauto.
Qed.

Lemma parse_hosts_origin (host_elements : list Xml.Element)
      (hosts : list HostData) (stats : Stats) (h : HostData) :
  In h (fst (parse_hosts host_elements hosts stats)) ->
  In h hosts \/
  exists host_element, In host_element host_elements /\ _parse_host host_element = Some h.
Proof.
  revert hosts stats. induction host_elements as [|e es IH]; intros hosts stats; simpl.
  - auto.
  - intros Hin. apply IH in Hin as [Hin | (e' & ? & ?)]; [|eauto].
    apply in_app_or in Hin as [Hin | [<- | []]]; eauto.
Qed.

(** the ports of the loop are the port elements with a readable number,
    in order, each with the number and the protocol of its own element *)
Lemma parse_ports_pairs (port_elements : list Xml.Element) :
  Forall2 (fun port_element p =>
             _parse_port port_element = Some p /\
             exists text, Xml.get port_element "portid" = Some text /\
                          PyStr.int text = Some (portid p))
          (List.filter Pipeline.has_portid port_elements) (parse_ports port_elements).
Proof.
  induction port_elements as [|e es IH]; cbn [List.filter parse_ports]; [constructor|].
  unfold Pipeline.has_portid at 1, Pipeline.readable_portid at 1.
  destruct (_parse_port e) as [p|] eqn:He.
  - destruct (parse_port_portid e p He) as (text & Hget & Hint).
    rewrite Hget, Hint. cbn [Models.is_some]. constructor; [|exact IH].
    split; [exact He|]. exists text. auto.
  - unfold _parse_port in He.
    destruct (Xml.get e "portid") as [text|]; [|exact IH].
    destruct (PyStr.int text); [discriminate | exact IH].
Qed.

Lemma parse_hosts_pairs (host_elements : list Xml.Element)
      (hosts : list HostData) (stats : Stats) :
  exists parsed,
    fst (parse_hosts host_elements hosts stats) = (hosts ++ parsed)%list /\
    Forall2 (fun host_element h => _parse_host host_element = Some h) host_elements parsed.
Proof.
  revert hosts stats. induction host_elements as [|e es IH]; intros hosts stats.
  - exists []. cbn. rewrite app_nil_r. split; [reflexivity | constructor].
  - cbn [parse_hosts].
    destruct (_parse_host e) as [h|] eqn:He; [|discriminate].
    match goal with
    | |- context [parse_hosts es ?hs ?st] => destruct (IH hs st) as (parsed & Hp & Hall)
    end.
    exists (h :: parsed). rewrite Hp, <- app_assoc. split; [reflexivity|].
    constructor; assumption.
Qed.

(** C9 (what the code does).  The hosts of a parsed result are the [host]
    elements of the document, in order, and the ports of each host are
    the [port] elements under its [ports] element whose [portid]
    attribute reads as an integer, in order: such an element is always
    kept, every other is skipped, and the number of a port is what
    [int()] reads in the [portid] attribute of its own element.  Nothing
    bounds that number. *)
Theorem port_number_is_the_portid_attribute
    (env : World.Env) (xml_output : string)
    (scan_info : gmap string string) (hosts : list HostData) (stats : Stats) :
  parse_nmap_xml env xml_output = Results scan_info hosts stats ->
  exists root,
    World.fromstring env xml_output = inl root /\
    Forall2
      (fun host_element h =>
         _parse_host host_element = Some h /\
         Forall2
           (fun port_element p =>
              _parse_port port_element = Some p /\
              exists text, Xml.get port_element "portid" = Some text /\
                           PyStr.int text = Some (portid p))
           (List.filter Pipeline.has_portid (Pipeline.port_elements host_element))
           (ports h))
      (Xml.findall root "host") hosts.
Proof.
  unfold parse_nmap_xml.
  destruct (World.fromstring env xml_output) as [root|e]; [|discriminate].
  unfold parse_root.
  destruct (parse_hosts_pairs (Xml.findall root "host") [] (mkStats 0 0 0 0))
    as (parsed & Hp & Hall).
  destruct (parse_hosts (Xml.findall root "host") [] (mkStats 0 0 0 0)) as [hs st].
  cbn [fst app] in Hp. subst hs.
  intros [= _ <- _]. exists root. split; [reflexivity|].
  induction Hall as [|host_element h hes hs' Hh Hrest IH]; constructor; [|exact IH].
  split; [exact Hh|].
  injection Hh as <-. cbn [ports]. unfold Pipeline.port_elements.
  destruct (Xml.find host_element "ports") as [ports_element|];
    [apply parse_ports_pairs | constructor].
Qed.

End Parser.

(** ** The worker *)

Section WorkerFacts.
Import World Models Worker.






(** the row that the task has once the worker has taken it *)
Lemma task_unfold (env : Env) (scan : ScanResult) (request_id : string) (scan_id : Z)
      (target scan_type : string) (custom_args : option string) (st : State) :
  let started := update_status env (value RUNNING) None scan st in
  let taken := set_task_id (Some request_id) (fst started) in
  let ran := NmapScanner.run_nmap_scan env target scan_type custom_args (snd started) in
  let result := fst ran in
  task_body env (Some scan) request_id scan_id target scan_type custom_args st =
    if NmapScanner.success result
    then
      let done := update_status env (value COMPLETED) None
                                (store_results scan_type result taken) (snd ran) in
      ((mkTaskResult true (Some scan_id) (Some (Models.hosts_up (fst done)))
                     (Some (Models.ports_found (fst done))) None,
        Some (fst done)), snd done)
    else
      let error_msg := default "Unknown error" (NmapScanner.error result) in
      let done := update_status env (value FAILED) (Some error_msg) taken (snd ran) in
      ((mkTaskResult false (Some scan_id) None None (Some error_msg), Some (fst done)),
       snd done).
Proof.
  cbv zeta. unfold task_body. unfold mbind at 1, M_bind at 1.
  destruct (update_status env (value RUNNING) None scan st) as [scan1 st1].
  unfold mbind at 1, M_bind at 1. cbn [fst snd].
  destruct (NmapScanner.run_nmap_scan env target scan_type custom_args st1)
    as [result st2]. cbn [fst snd].
  destruct (NmapScanner.success result); unfold mbind, M_bind, mret, M_ret.
  - destruct (update_status env (value COMPLETED) None _ st2); reflexivity.
  - destruct (update_status env (value FAILED) _ _ st2); reflexivity.
Qed.

(** the task is its block when the application context opens, and is
    the exception of [get_app_context] otherwise *)
Lemma execute_scan_task_unfold
    (env : Env) (self : DatabaseTask) (found : option ScanResult)
    (request_id : string) (scan_id : Z)
    (target scan_type : string) (custom_args : option string) (st : State) :
  execute_scan_task env self found request_id scan_id target scan_type custom_args st =
    match _app self with
    | CeleryApp => ((Raised (AttributeError "Celery" "app_context"), found, self), st)
    | FlaskApp =>
        let out := task_body env found request_id scan_id target scan_type custom_args st in
        ((Returned (fst (fst out)), snd (fst out),
          match found with Some _ => db self | None => self end), snd out)
    end.
Proof.
  unfold execute_scan_task, get_app_context.
  destruct (_app self); [reflexivity|].
  unfold mbind, M_bind, mret, M_ret.
  destruct (task_body env found request_id scan_id target scan_type custom_args st)
    as [[answer row] st']. reflexivity.
Qed.


End WorkerFacts.

(** ** A document that cannot be read *)

Section UnparsableOutput.
Import World Models Worker.

Lemma init_succeeds (env : Env) (st : State) (vout verr : string) :
  subprocess_run env ["/usr/bin/nmap"; "--version"] 5 = Completed 0 vout verr ->
  (3 <= List.length (PyStr.split vout))%nat ->
  NmapScanner.init env st =
    (inr (NmapScanner.mkScanner "/usr/bin/nmap" 300),
     mkState (ticks st) (spawned st ++ [["/usr/bin/nmap"; "--version"]])).
Proof.
  intros Hrun Hwords. unfold NmapScanner.init, run, mbind, M_bind. simpl.
  rewrite Hrun. simpl.
  destruct (PyStr.split vout) as [|a [|b [|c rest]]]; simpl in Hwords; try lia.
  reflexivity.
Qed.

Lemma execute_scan_unparsable (env : Env) (self : NmapScanner.Scanner)
      (command : list string) (st : State) (stdout stderr e : string) :
  subprocess_run env command (NmapScanner.timeout self) = Completed 0 stdout stderr ->
  fromstring env stdout = inr e ->
  NmapScanner.execute_scan env self command st =
    (NmapScanner.mkScanDict true None None
       (Some (utcnow_at env (S (ticks st)) - utcnow_at env (ticks st)))
       (Some stdout) (Some (NmapScanner.ParseFailure ("XML parse error: " ++ e)))
       (Some (utcnow_at env (ticks st))) None None,
     mkState (S (S (ticks st))) (spawned st ++ [command])).
Proof.
  intros Hrun Hparse.
  unfold NmapScanner.execute_scan, run, utcnow, mbind, M_bind, mret, M_ret. simpl.
  rewrite Hrun. simpl. unfold NmapScanner.parse_nmap_xml. rewrite Hparse. reflexivity.
Qed.

Lemma update_status_without_message (env : Env) (status : string)
      (self : ScanResult) (st : State) :
  let row := fst (update_status env status None self st) in
  error_message row = error_message self /\
  raw_output row = raw_output self /\
  parsed_results row = parsed_results self /\
  Models.hosts_up row = Models.hosts_up self /\
  Models.ports_found row = Models.ports_found self.
Proof.
  unfold update_status, mbind, M_bind, mret, M_ret, utcnow. simpl.
  repeat match goal with
         | |- context [if ?b then _ else _] => destruct b; simpl
         | |- context [match ?o with Some _ => _ | None => _ end] => destruct o; simpl
         end; repeat split.
Qed.

(** The block of the task on a document that cannot be read: the row
    is committed as completed. *)
Lemma task_body_unparsable
    (env : Env) (scan : ScanResult) (request_id : string) (scan_id : Z)
    (target scan_type : string) (custom_args : option string) (st : State)
    (command : list string) (vout verr stdout stderr e : string) :
  subprocess_run env ["/usr/bin/nmap"; "--version"] 5 = Completed 0 vout verr ->
  (3 <= List.length (PyStr.split vout))%nat ->
  NmapScanner.validate_and_prepare_scan
    (NmapScanner.mkScanner "/usr/bin/nmap" 300) target scan_type custom_args
    = (true, None, Some command) ->
  subprocess_run env command 300 = Completed 0 stdout stderr ->
  fromstring env stdout = inr e ->
  exists row,
    snd (fst (task_body env (Some scan) request_id scan_id
                                target scan_type custom_args st)) = Some row /\
    success (fst (fst (task_body env (Some scan) request_id scan_id
                                         target scan_type custom_args st))) = true /\
    status row = value COMPLETED /\
    terminal (status row) = true /\
    is_some (completed_at row) = true /\
    raw_output row = Some stdout /\
    parsed_results row = Some (NmapScanner.ParseFailure ("XML parse error: " ++ e)) /\
    error_message row = error_message scan /\
    Models.hosts_up row = 0 /\
    Models.ports_found row = 0.
Proof.
  intros Hver Hwords Hprep Hrun Hparse.
  remember (task_body env (Some scan) request_id scan_id
                              target scan_type custom_args st) as out eqn:Hout.
  unfold task_body in Hout.
  unfold mbind at 1, M_bind at 1 in Hout.
  destruct (update_status env (value RUNNING) None scan st) as [scan1 st1] eqn:Hstart.
  unfold mbind at 1, M_bind at 1 in Hout.
  assert (Hres : NmapScanner.run_nmap_scan env target scan_type custom_args st1 =
    (NmapScanner.mkScanDict true None None
       (Some (utcnow_at env (S (ticks st1)) - utcnow_at env (ticks st1)))
       (Some stdout) (Some (NmapScanner.ParseFailure ("XML parse error: " ++ e)))
       (Some (utcnow_at env (ticks st1))) (Some target) (Some scan_type),
     mkState (S (S (ticks st1)))
             ((spawned st1 ++ [["/usr/bin/nmap"; "--version"]]) ++ [command]))).
  { unfold NmapScanner.run_nmap_scan, mbind, M_bind.
    rewrite (init_succeeds env st1 vout verr Hver Hwords).
    unfold NmapScanner.scan. rewrite Hprep. cbn [negb].
    unfold mbind, M_bind. cbv beta iota. simpl (default [] (Some command)).
    rewrite (execute_scan_unparsable env (NmapScanner.mkScanner "/usr/bin/nmap" 300)
               command _ stdout stderr e Hrun Hparse).
    reflexivity. }
  rewrite Hres in Hout. cbn [NmapScanner.success] in Hout.
  unfold mbind at 1, M_bind at 1 in Hout.
  match type of Hout with
  | context [update_status env (value COMPLETED) None ?r ?s] =>
      destruct (update_status env (value COMPLETED) None r s) as [row st3] eqn:Hdone;
      assert (Hrow : row = fst (update_status env (value COMPLETED) None r s))
        by (now rewrite Hdone);
      destruct (finished_row_has_completed_at env (value COMPLETED) None r s
                  (or_introl eq_refl)) as [Hterm Hcomp];
      destruct (update_status_without_message env (value COMPLETED) r s)
        as (He & Hraw & Hpr & Hup & Hpf)
  end.
  cbn [mret M_ret] in Hout. subst out. exists row. cbn [fst snd success].
  assert (Hs1 : scan1 = fst (update_status env (value RUNNING) None scan st))
    by now rewrite Hstart.
  assert (Hst : status row = value COMPLETED).
  { rewrite Hrow. unfold update_status, mbind, M_bind, mret, M_ret, utcnow. simpl.
    split_conditions. }
  rewrite <- Hrow in Hterm, Hcomp, He, Hraw, Hpr, Hup, Hpf.
  destruct (update_status_without_message env (value RUNNING) scan st)
    as (He1 & _). rewrite <- Hs1 in He1.
  split; [reflexivity|]. split; [reflexivity|]. split; [exact Hst|].
  split; [exact Hterm|]. split; [now rewrite Hcomp|].
  rewrite Hraw, Hpr, He, Hup, Hpf, <- He1.
  unfold store_results. simpl.
  destruct (String.eqb scan_type "vuln"); repeat split.
Qed.

(** C3 (what the code does).  When nmap is there, the command is
    prepared, the tool exits with status 0 and [ET.fromstring] rejects
    what it printed, the parser returns its error dictionary in place of
    the results and the execution still counts as a success.  A task
    whose application context opens then returns a success and commits
    the row as completed, not failed: the raw output is stored, the
    parsed result is the error dictionary, both counters are 0 and the
    error message of the row is not touched.  A task whose [_app] is the
    Celery application raises before it reads the row, which stays as
    it was. *)
Theorem unparsable_output_is_completed
    (env : Env) (self : DatabaseTask) (scan : ScanResult) (request_id : string)
    (scan_id : Z) (target scan_type : string) (custom_args : option string) (st : State)
    (command : list string) (vout verr stdout stderr e : string) :
  subprocess_run env ["/usr/bin/nmap"; "--version"] 5 = Completed 0 vout verr ->
  (3 <= List.length (PyStr.split vout))%nat ->
  NmapScanner.validate_and_prepare_scan
    (NmapScanner.mkScanner "/usr/bin/nmap" 300) target scan_type custom_args
    = (true, None, Some command) ->
  subprocess_run env command 300 = Completed 0 stdout stderr ->
  fromstring env stdout = inr e ->
  let out := execute_scan_task env self (Some scan) request_id scan_id
                               target scan_type custom_args st in
  NmapScanner.parse_nmap_xml env stdout
    = NmapScanner.ParseFailure ("XML parse error: " ++ e) /\
  (forall s,
      NmapScanner.success
        (fst (NmapScanner.execute_scan env (NmapScanner.mkScanner "/usr/bin/nmap" 300)
                                       command s)) = true) /\
  match _app self with
  | FlaskApp =>
      exists answer row,
        fst (fst (fst out)) = Returned answer /\
        success answer = true /\
        snd (fst (fst out)) = Some row /\
        status row = value COMPLETED /\
        terminal (status row) = true /\
        is_some (completed_at row) = true /\
        raw_output row = Some stdout /\
        parsed_results row = Some (NmapScanner.ParseFailure ("XML parse error: " ++ e)) /\
        error_message row = error_message scan /\
        Models.hosts_up row = 0 /\
        Models.ports_found row = 0
  | CeleryApp =>
      out = ((Raised (AttributeError "Celery" "app_context"), Some scan, self), st)
  end.
Proof.
  intros Hver Hwords Hprep Hrun Hparse. cbv zeta.
  split; [unfold NmapScanner.parse_nmap_xml; rewrite Hparse; reflexivity|].
  split.
  { intros s.
    rewrite (execute_scan_unparsable env (NmapScanner.mkScanner "/usr/bin/nmap" 300)
               command s stdout stderr e Hrun Hparse). reflexivity. }
  rewrite execute_scan_task_unfold.
  destruct (_app self); [reflexivity|]. cbv zeta. cbn [fst snd].
  destruct (task_body_unparsable env scan request_id scan_id target scan_type custom_args
              st command vout verr stdout stderr e Hver Hwords Hprep Hrun Hparse)
    as (row & Hrow & Hanswer & Hrest).
  exists (fst (fst (task_body env (Some scan) request_id scan_id target scan_type
                              custom_args st))), row.
  split; [reflexivity|]. split; [exact Hanswer|]. split; [exact Hrow|]. exact Hrest.
Qed.

End UnparsableOutput.

(** ** The properties at concrete inputs *)

Section Examples.
Import IpAddress NmapValidator NmapScanner World Scenarios.



Lemma no_forbidden_overlap (network : IPNetwork) :
  Spec.well_formed network ->
  first_overlap network FORBIDDEN_RANGES = None ->
  forall f, In f FORBIDDEN_RANGES -> ~ Spec.ranges_overlap network f.
Proof.
  intros Hwf Hnone f Hf Hov.
  rewrite first_overlap_none in Hnone. specialize (Hnone f Hf).
  rewrite (overlaps_complete network f) in Hnone;
    auto using forbidden_ranges_well_formed.
  discriminate.
Qed.

Lemma size_ceiling_example :
  (ip_network (PyStr.strip "192.168.0.0/23") = inl (mkNetwork V4 3232235520 23) /\
   num_addresses (mkNetwork V4 3232235520 23) = 2 ^ (32 - 23) /\
   (validate_target "192.168.0.0/23"
      = (false, Some (too_large_message (num_addresses (mkNetwork V4 3232235520 23)) 256))
    <-> 256 < num_addresses (mkNetwork V4 3232235520 23)) /\
   (validate_target "192.168.0.0/23" = (true, None)
    <-> num_addresses (mkNetwork V4 3232235520 23) <= 256)) /\
  (ip_network (PyStr.strip "2001:db8::/111")
     = inl (mkNetwork V6 42540766411282592856903984951653826560 111) /\
   num_addresses (mkNetwork V6 42540766411282592856903984951653826560 111)
     = 2 ^ (128 - 111) /\
   (validate_target "2001:db8::/111"
      = (false, Some (too_large_message
                        (num_addresses
                           (mkNetwork V6 42540766411282592856903984951653826560 111))
                        65536))
    <-> 65536 < num_addresses (mkNetwork V6 42540766411282592856903984951653826560 111)) /\
   (validate_target "2001:db8::/111" = (true, None)
    <-> num_addresses (mkNetwork V6 42540766411282592856903984951653826560 111)
        <= 65536)) /\
  validate_target "10.0.0.0/8"
    = (false, Some "Network too large: 16777216 hosts (max 256)") /\
  validate_target "2001:db8::/112" = (true, None) /\
  validate_target "2001:db8::/111"
    = (false, Some "Network too large: 131072 hosts (max 65536)").
Proof.
  assert (H4 : forall f, In f FORBIDDEN_RANGES ->
                 ~ Spec.ranges_overlap (mkNetwork V4 3232235520 23) f).
  { apply no_forbidden_overlap; [|vm_compute; reflexivity].
    split; [simpl; lia | vm_compute; reflexivity]. }
  assert (H6 : forall f, In f FORBIDDEN_RANGES ->
                 ~ Spec.ranges_overlap
                     (mkNetwork V6 42540766411282592856903984951653826560 111) f).
  { apply no_forbidden_overlap; [|vm_compute; reflexivity].
    split; [simpl; lia | vm_compute; reflexivity]. }
  destruct (size_ceiling_decides "192.168.0.0/23" (mkNetwork V4 3232235520 23)
              ltac:(vm_compute; reflexivity) H4) as (A1 & A2 & A3 & A4).
  destruct (size_ceiling_decides "2001:db8::/111"
              (mkNetwork V6 42540766411282592856903984951653826560 111)
              ltac:(vm_compute; reflexivity) H6) as (B1 & B2 & B3 & _).
  split; [split; [vm_compute; reflexivity | auto]|].
  split; [split; [vm_compute; reflexivity | auto]|].
  exact A4.
Defined.

Lemma command_vector_example :
  validate_target "192.168.1.5" = (true, None) /\
  (forall scan_type args custom_args,
      SCAN_PROFILES !! scan_type = Some args ->
      validate_and_prepare_scan test_scanner "192.168.1.5" scan_type custom_args =
        (true, None,
         Some ([nmap_path test_scanner] ++ args ++ ["-oX"; "-"; "192.168.1.5"])%list)) /\
  (forall custom safe_args,
      PyStr.truthy custom = true ->
      sanitize_custom_args custom = (true, None, Some safe_args) ->
      validate_and_prepare_scan test_scanner "192.168.1.5" "custom" (Some custom) =
        (true, None,
         Some ([nmap_path test_scanner] ++ safe_args ++ ["-oX"; "-"; "192.168.1.5"])%list)).
Proof.
  split; [vm_compute; reflexivity|].
  apply (command_vector_shape test_scanner "192.168.1.5"). vm_compute. reflexivity.
Defined.

Lemma custom_without_arguments_example :
  validate_target "192.168.1.5" = (true, None) /\
  SCAN_PROFILES !! "custom" = None /\
  validate_and_prepare_scan test_scanner "192.168.1.5" "custom" (Some "") =
    (true, None, Some ["/usr/bin/nmap"; "-T4"; "-Pn"; "-oX"; "-"; "192.168.1.5"]).
Proof.
  split; [vm_compute; reflexivity|].
  apply (custom_without_arguments_uses_default test_scanner "192.168.1.5" (Some ""));
    [vm_compute; reflexivity | right; reflexivity].
Defined.

(** the two shapes of C6 on the table and on a custom list *)
Example quick_profile_command :
  validate_and_prepare_scan test_scanner "192.168.1.5" "quick" None
  = (true, None, Some ["/usr/bin/nmap"; "-T4"; "-F"; "-oX"; "-"; "192.168.1.5"]).
Proof. vm_compute. reflexivity. Qed.

Example custom_arguments_command :
  validate_and_prepare_scan test_scanner "192.168.1.5" "custom" (Some "-sV  -p 22,80")
  = (true, None,
     Some ["/usr/bin/nmap"; "-sV"; "-p"; "22,80"; "-oX"; "-"; "192.168.1.5"]).
Proof. vm_compute. reflexivity. Qed.

(** custom arguments given with another profile are not read at all *)
Example custom_arguments_ignored_by_profiles :
  validate_and_prepare_scan test_scanner "192.168.1.5" "quick" (Some "-T4; rm -rf /")
  = (true, None, Some ["/usr/bin/nmap"; "-T4"; "-F"; "-oX"; "-"; "192.168.1.5"]).
Proof. vm_compute. reflexivity. Qed.

(** the IPv6 loopback address is no IPv4 range and is accepted *)
Example ipv6_loopback_accepted : validate_target "::1" = (true, None).
Proof. vm_compute. reflexivity. Qed.


(** with another profile the same output leaves the counter as it was *)
Example counter_untouched_for_quick :
  option_map Models.vulnerabilities_found
    (snd (fst (fst (Worker.execute_scan_task (world_printing annotated_text) context_task
                      (Some queued_row) "task-1" 1 "192.168.1.5" "quick" None
                      initial_state))))
  = Some (Models.vulnerabilities_found queued_row).
Proof. vm_compute. reflexivity. Qed.

Lemma port_number_example :
  parse_nmap_xml (world_printing annotated_text) annotated_text
    = Results ∅ [annotated_host] (mkStats 1 0 1 2) /\
  exists root,
    fromstring (world_printing annotated_text) annotated_text = inl root /\
    Forall2
      (fun host_element h =>
         _parse_host host_element = Some h /\
         Forall2
           (fun port_element p =>
              _parse_port port_element = Some p /\
              exists text, Xml.get port_element "portid" = Some text /\
                           PyStr.int text = Some (portid p))
           (List.filter Pipeline.has_portid (Pipeline.port_elements host_element))
           (ports h))
      (Xml.findall root "host") [annotated_host].
Proof.
  split; [vm_compute; reflexivity|].
  apply (port_number_is_the_portid_attribute (world_printing annotated_text) annotated_text
           ∅ [annotated_host] (mkStats 1 0 1 2)).
  vm_compute. reflexivity.
Defined.

(** C9 as stated fails: a [port] element numbered 0 yields a port entry
    numbered 0. *)
Lemma port_number_out_of_range :
  exists h p,
    parse_nmap_xml (world_printing out_of_range_text) out_of_range_text
      = Results ∅ [h] (mkStats 1 0 1 1) /\
    In p (ports h) /\
    portid p = 0 /\
    ~ (1 <= portid p <= 65535).
Proof.
  exists (mkHost (Some "up") [] [] [mkPort (Some "tcp") 0 (Some "closed") None] None).
  exists (mkPort (Some "tcp") 0 (Some "closed") None).
  split; [vm_compute; reflexivity|].
  split; [simpl; auto|]. split; [reflexivity|]. simpl. lia.
Qed.

(** numbers above the range pass as well *)
Example large_port_number_kept :
  option_map portid
    (_parse_port (el "port" [("protocol", "tcp"); ("portid", "70000")] []))
  = Some 70000.
Proof. vm_compute. reflexivity. Qed.

(** a port element without a readable number is skipped *)
Example unreadable_port_skipped :
  _parse_port (el "port" [("protocol", "tcp"); ("portid", "http")] []) = None /\
  _parse_port (el "port" [("protocol", "tcp")] []) = None.
Proof. vm_compute. split; reflexivity. Qed.

(** the white space of [int()]: a unit separator before the digits is no
    white space and the port is skipped, a no-break space is and the port
    is kept *)
Example unit_separator_is_no_space :
  PyStr.strip (String (ascii_of_N 31) "22") = "22" /\
  PyStr.int (String (ascii_of_N 31) "22") = None /\
  _parse_port (el "port" [("portid", String (ascii_of_N 31) "22")] []) = None /\
  PyStr.int (String (ascii_of_N 160) " 22 ") = Some 22 /\
  PyStr.int "+2_2" = Some 22 /\
  PyStr.int "- 22" = None.
Proof. vm_compute. repeat split; reflexivity. Qed.

Lemma unparsable_output_example :
  parse_nmap_xml (world_printing truncated_text) truncated_text
    = ParseFailure "XML parse error: no element found: line 1, column 15" /\
  (forall s,
      success (fst (execute_scan (world_printing truncated_text) test_scanner
                      ["/usr/bin/nmap"; "-T4"; "-F"; "-oX"; "-"; "192.168.1.5"] s))
      = true) /\
  exists answer row,
    fst (fst (fst (Worker.execute_scan_task (world_printing truncated_text) context_task
                     (Some queued_row) "task-1" 1 "192.168.1.5" "quick" None
                     initial_state))) = Worker.Returned answer /\
    Worker.success answer = true /\
    snd (fst (fst (Worker.execute_scan_task (world_printing truncated_text) context_task
                     (Some queued_row) "task-1" 1 "192.168.1.5" "quick" None
                     initial_state))) = Some row /\
    Models.status row = "completed" /\
    Models.terminal (Models.status row) = true /\
    Models.is_some (Models.completed_at row) = true /\
    Models.raw_output row = Some truncated_text /\
    Models.parsed_results row
      = Some (ParseFailure "XML parse error: no element found: line 1, column 15") /\
    Models.error_message row = None /\
    Models.hosts_up row = 0 /\
    Models.ports_found row = 0.
Proof.
  apply (unparsable_output_is_completed (world_printing truncated_text) context_task
           queued_row "task-1" 1 "192.168.1.5" "quick" None initial_state
           ["/usr/bin/nmap"; "-T4"; "-F"; "-oX"; "-"; "192.168.1.5"]
           banner "" truncated_text "" "no element found: line 1, column 15");
    try (vm_compute; reflexivity).
  vm_compute. lia.
Defined.

(** C3 as stated fails: the tool prints a truncated document and the
    reader rejects it.  The task as it is registered raises before it
    reads the row, which stays queued and holds no raw output; a task
    whose application context opens commits the row as completed.  In
    neither case is the row failed. *)
Lemma unparsable_output_not_failed :
  fromstring (world_printing truncated_text) truncated_text
    = inr "no element found: line 1, column 15" /\
  Worker.execute_scan_task (world_printing truncated_text) Worker.registered_task
    (Some queued_row) "task-1" 1 "192.168.1.5" "quick" None initial_state
    = ((Worker.Raised (Worker.AttributeError "Celery" "app_context"),
        Some queued_row, Worker.registered_task), initial_state) /\
  Models.status queued_row <> Models.value Models.FAILED /\
  Models.raw_output queued_row = None /\
  exists row,
    snd (fst (fst (Worker.execute_scan_task (world_printing truncated_text) context_task
                     (Some queued_row) "task-1" 1 "192.168.1.5" "quick" None
                     initial_state))) = Some row /\
    Models.status row = Models.value Models.COMPLETED /\
    Models.status row <> Models.value Models.FAILED /\
    Models.raw_output row = Some truncated_text.
Proof.
  split; [vm_compute; reflexivity|].
  split; [vm_compute; reflexivity|].
  split; [discriminate|]. split; [reflexivity|].
  eexists. split; [vm_compute; reflexivity|].
  split; [reflexivity|]. split; [discriminate | reflexivity].
Qed.

(** C1 as stated fails on a row that was retried: [requeue] puts a failed
    row back to "queued" and keeps its completion time. *)
Example requeued_row_keeps_completed_at :
  let failed := fst (Models.update_status (world_printing "") "failed" (Some "boom")
                                          queued_row initial_state) in
  let again := Worker.requeue "task-9" failed in
  Models.status again = "queued" /\
  Models.terminal (Models.status again) = false /\
  Models.completed_at again = Some (clock 1).
Proof. vm_compute. repeat split. Qed.

End Examples.

(* ===================================================================== *)
(** * Further properties of the code *)
(* ===================================================================== *)

(** ** Validation and command preparation as a whole *)

Section ValidatorMore.
Import IpAddress NmapValidator NmapScanner.

Lemma string_in_In (s : string) (l : list string) :
  string_in s l = true <-> In s l.
Proof.
  unfold string_in. rewrite existsb_exists. split.
  - intros (x & Hx & He). apply String.eqb_eq in He. now subst.
  - intros H. exists s. split; [assumption | apply String.eqb_refl].
Qed.

(** X1.  The scan types that [validate_scan_type] accepts are "custom"
    and the keys of the profile table, nothing else: the fallback of the
    table lookup can only be taken by "custom". *)
Theorem accepted_scan_types_have_profiles (scan_type : string) :
  validate_scan_type scan_type = (true, None)
  <-> scan_type = "custom" \/ is_Some (SCAN_PROFILES !! scan_type).
Proof.
  split.
  - unfold validate_scan_type.
    destruct (string_in scan_type allowed_types) eqn:H; [|discriminate]. intros _.
    apply string_in_In in H. simpl in H.
    repeat (destruct H as [<-|H]; [first [left; reflexivity | right; vm_compute; eauto]|]).
    contradiction.
  - intros [-> | [args H]]; [reflexivity|].
    destruct (profile_is_allowed _ _ H) as [-> _]. reflexivity.
Qed.

Lemma validate_target_verdict (target : string) :
  (exists msg, validate_target target = (false, Some msg)) \/
  validate_target target = (true, None).
Proof.
  unfold validate_target.
  destruct (ip_network (PyStr.strip target)) as [network|e]; [|eauto].
  destruct (first_overlap network FORBIDDEN_RANGES); [eauto|].
  destruct (version network); destruct (_ <? _); eauto.
Qed.

(** X2.  [validate_target] accepts a target exactly when the stripped
    text parses as a network that shares no address with a forbidden
    range and whose address count is within the ceiling of its family;
    a rejection always carries a message and an acceptance never does. *)
Theorem validate_target_accepts_iff (target : string) :
  (validate_target target = (true, None)
   <-> exists network,
         ip_network (PyStr.strip target) = inl network /\
         (forall f, In f FORBIDDEN_RANGES -> ~ Spec.ranges_overlap network f) /\
         num_addresses network <= Spec.ceiling (version network)) /\
  (fst (validate_target target) = true <-> snd (validate_target target) = None).
Proof.
  split.
  - split.
    + intros Hok.
      destruct (ip_network (PyStr.strip target)) as [network|e] eqn:Hparse.
      * pose proof (ip_network_well_formed _ _ Hparse) as Hwf.
        rewrite (validate_target_unfold _ _ Hparse) in Hok.
        destruct (first_overlap network FORBIDDEN_RANGES) eqn:Hfirst; [discriminate|].
        exists network. split; [reflexivity|]. split.
        -- intros f Hf Hov. rewrite first_overlap_none in Hfirst.
           specialize (Hfirst f Hf).
           rewrite overlaps_complete in Hfirst;
             auto using forbidden_ranges_well_formed. discriminate.
        -- destruct (Z.ltb_spec (Spec.ceiling (version network)) (num_addresses network));
             [discriminate | assumption].
      * unfold validate_target in Hok. rewrite Hparse in Hok. discriminate.
    + intros (network & Hparse & Hno & Hsize).
      pose proof (ip_network_well_formed _ _ Hparse) as Hwf.
      rewrite (validate_target_unfold _ _ Hparse).
      assert (Hfirst : first_overlap network FORBIDDEN_RANGES = None).
      { apply first_overlap_none. intros f Hf.
        destruct (overlaps network f) eqn:Ho; [|reflexivity].
        exfalso. apply (Hno f Hf).
        apply overlaps_sound; auto using forbidden_ranges_well_formed. }
      rewrite Hfirst.
      destruct (Z.ltb_spec (Spec.ceiling (version network)) (num_addresses network));
        [lia | reflexivity].
  - destruct (validate_target_verdict target) as [[msg ->] | ->]; simpl;
      split; intros; congruence.
Qed.

Lemma prepared_command_shapes_aux
    (self : Scanner) (target scan_type : string) (custom_args : option string) :
  match validate_and_prepare_scan self target scan_type custom_args with
  | (true, None, Some _) | (false, Some _, None) => True
  | _ => False
  end.
Proof.
  unfold validate_and_prepare_scan.
  destruct (validate_target_verdict target) as [[msg Hv] | Hv]; rewrite Hv;
    cbn [negb]; [exact I|].
  unfold validate_scan_type.
  destruct (string_in scan_type allowed_types); cbn [negb]; [|exact I].
  destruct ((scan_type =? "custom")%string && truthy_opt custom_args); [|exact I].
  unfold sanitize_custom_args.
  destruct (first_match forbidden_patterns (default "" custom_args)); exact I.
Qed.

(** X3.  Whatever the inputs, command preparation answers in one of two
    shapes.  Either it is valid, has no error, and the command is the tool
    path, an argument list, "-oX", "-" and the target as given, where the
    list is the sanitized custom arguments or an entry of the profile
    table; or it is invalid, has a message and has no command. *)
Theorem prepared_command_shapes
    (self : Scanner) (target scan_type : string) (custom_args : option string) :
  match validate_and_prepare_scan self target scan_type custom_args with
  | (true, None, Some command) =>
      validate_target target = (true, None) /\
      validate_scan_type scan_type = (true, None) /\
      exists args,
        command = ([nmap_path self] ++ args ++ ["-oX"; "-"; target])%list /\
        List.last command "" = target /\
        ((exists custom,
             scan_type = "custom" /\ custom_args = Some custom /\
             sanitize_custom_args custom = (true, None, Some args)) \/
         (exists profile, SCAN_PROFILES !! profile = Some args))
  | (false, Some _, None) => True
  | _ => False
  end.
Proof.
  unfold validate_and_prepare_scan.
  destruct (validate_target_verdict target) as [[msg Hv] | Hv]; rewrite Hv; simpl;
    [exact I|].
  unfold validate_scan_type.
  destruct (string_in scan_type allowed_types) eqn:Hty; simpl; [|exact I].
  assert (Hlast : forall args : list string,
             List.last ([nmap_path self] ++ args ++ ["-oX"; "-"; target])%list "" = target).
  { intros args. rewrite app_assoc.
    change ["-oX"; "-"; target] with (["-oX"; "-"] ++ [target])%list.
    rewrite app_assoc. apply List.last_last. }
  destruct ((scan_type =? "custom")%string && truthy_opt custom_args) eqn:Hc.
  - apply andb_true_iff in Hc as [Hc Htr]. apply String.eqb_eq in Hc. subst scan_type.
    destruct custom_args as [custom|]; [|discriminate].
    change (default "" (Some custom)) with custom.
    assert (Hsan : (exists p, sanitize_custom_args custom
                              = (false, Some (forbidden_message p), None)) \/
                   sanitize_custom_args custom
                   = (true, None, Some (collect_safe_args (PyStr.split custom) []))).
    { unfold sanitize_custom_args.
      destruct (first_match forbidden_patterns custom); eauto. }
    destruct Hsan as [[p Hsan] | Hsan]; rewrite Hsan; cbn [negb]; [exact I|].
    cbn [default]. split; [reflexivity|]. split; [reflexivity|].
    exists (collect_safe_args (PyStr.split custom) []).
    split; [now rewrite <- !app_assoc|]. split.
    + rewrite <- !app_assoc. apply Hlast.
    + left. exists custom. auto.
  - simpl. split; [reflexivity|]. split; [reflexivity|].
    exists (default (SCAN_PROFILES !!! "default") (SCAN_PROFILES !! scan_type)).
    split; [now rewrite <- !app_assoc|]. split.
    + rewrite <- !app_assoc. apply Hlast.
    + right. destruct (SCAN_PROFILES !! scan_type) as [args|] eqn:Hp; simpl.
      * exists scan_type. exact Hp.
      * exists "default". vm_compute. reflexivity.
Qed.

End ValidatorMore.

(** ** The sanitizer: what it lets through and what it stops *)

Section SanitizerMore.
Import NmapValidator.

Lemma collect_safe_args_app (args_list safe_args : list string) :
  collect_safe_args args_list safe_args = (safe_args ++ args_list)%list.
Proof.
  revert safe_args. induction args_list as [|a l IH]; intros acc;
    cbn [collect_safe_args].
  - now rewrite app_nil_r.
  - destruct (PyStr.startswith "-" a); rewrite IH, <- app_assoc; reflexivity.
Qed.

Lemma first_match_none (patterns : list Re.Pattern) (args : string) :
  first_match patterns args = None <->
  forall p, In p patterns -> Re.search p args = false.
Proof.
  induction patterns as [|q qs IH]; simpl.
  - split; [contradiction | reflexivity].
  - destruct (Re.search q args) eqn:Hq.
    + split; [discriminate|]. intros H. rewrite (H q) in Hq by auto. discriminate.
    + rewrite IH. split; [intros H p [<-|Hp]; auto | auto].
Qed.

(** X4.  The sanitizer accepts a string exactly when no pattern of the
    denylist is found in it, and what it then returns is [args.split()]
    unchanged: the loop over the arguments keeps every token, whether it
    starts with a dash or not.  In every other case it returns no list. *)
Theorem sanitizer_returns_the_split (args : string) :
  (sanitize_custom_args args = (true, None, Some (PyStr.split args))
   <-> forall p, In p forbidden_patterns -> Re.search p args = false) /\
  (fst (fst (sanitize_custom_args args)) = false
   <-> exists p, In p forbidden_patterns /\ Re.search p args = true) /\
  (fst (fst (sanitize_custom_args args)) = false -> snd (sanitize_custom_args args) = None).
Proof.
  unfold sanitize_custom_args. rewrite collect_safe_args_app.
  destruct (first_match forbidden_patterns args) as [q|] eqn:Hm; cbn [fst snd app].
  - destruct (first_match_sound _ _ _ Hm) as [Hin Hs].
    repeat split; try discriminate; eauto.
    intros H. rewrite (H q Hin) in Hs. discriminate.
  - pose proof (proj1 (first_match_none _ _) Hm) as Hnone.
    repeat split; try discriminate; auto.
    intros (p & Hp & Hs). rewrite (Hnone p Hp) in Hs. discriminate.
Qed.

Lemma length_rev_acc (s acc : string) :
  String.length (PyStr.rev_acc s acc) = (String.length s + String.length acc)%nat.
Proof.
  revert acc. induction s as [|c s IH]; intros acc; simpl; [reflexivity|].
  rewrite IH. simpl. lia.
Qed.

Lemma contains_rev_acc (c : ascii) (s acc : string) :
  PyStr.contains c (PyStr.rev_acc s acc) = PyStr.contains c s || PyStr.contains c acc.
Proof.
  unfold PyStr.contains. revert acc. induction s as [|a s IH]; intros acc; simpl.
  - reflexivity.
  - rewrite IH. simpl. destruct (Ascii.eqb c a), (PyStr.existsb_str _ s); reflexivity.
Qed.

Lemma contains_rev (c : ascii) (s : string) :
  PyStr.contains c (PyStr.rev s) = PyStr.contains c s.
Proof. unfold PyStr.rev. rewrite contains_rev_acc. apply orb_false_r. Qed.

Lemma truthy_rev (s : string) : PyStr.truthy s = true -> PyStr.truthy (PyStr.rev s) = true.
Proof.
  intros H. pose proof (length_rev_acc s EmptyString) as Hl.
  unfold PyStr.rev. destruct (PyStr.rev_acc s EmptyString); [|reflexivity].
  destruct s; [discriminate | simpl in Hl; lia].
Qed.

(** The tokens of [split]: every token is not empty, has no white space,
    and is made of characters of the run being read or of the rest. *)
Lemma split_ws_aux_tokens (s cur t : string) :
  (forall c, PyStr.contains c cur = true -> PyStr.isspace c = false) ->
  In t (PyStr.split_ws_aux s cur) ->
  PyStr.truthy t = true /\
  forall c, PyStr.contains c t = true ->
            PyStr.isspace c = false /\
            (PyStr.contains c cur = true \/ PyStr.contains c s = true).
Proof.
  revert cur. induction s as [|a s IH]; intros cur Hcur; simpl.
  - destruct (PyStr.truthy cur) eqn:Ht; [|contradiction].
    intros [<- | []]. split; [now apply truthy_rev|].
    intros c Hc. rewrite contains_rev in Hc. auto.
  - destruct (PyStr.isspace a) eqn:Ha.
    + assert (Hrest : In t (PyStr.split_ws_aux s EmptyString) ->
                      PyStr.truthy t = true /\
                      forall c, PyStr.contains c t = true ->
                                PyStr.isspace c = false /\
                                (PyStr.contains c cur = true \/
                                 PyStr.contains c (String a s) = true)).
      { intros Hin. destruct (IH EmptyString) as [Ht Hc]; [discriminate | exact Hin |].
        split; [exact Ht|]. intros c Hct. destruct (Hc c Hct) as [Hs [Hd | Hd]];
          [discriminate|]. split; [exact Hs|]. right.
        unfold PyStr.contains in *. simpl. rewrite Hd. apply orb_true_r. }
      destruct (PyStr.truthy cur) eqn:Ht; [|exact Hrest].
      intros [<- | Hin]; [|auto].
      split; [now apply truthy_rev|].
      intros c Hc. rewrite contains_rev in Hc. auto.
    + intros Hin. destruct (IH (String a cur)) as [Ht Hc]; [| exact Hin |].
      { intros c Hc. unfold PyStr.contains in Hc. simpl in Hc.
        apply orb_true_iff in Hc as [Hc | Hc]; [|now apply Hcur].
        apply Ascii.eqb_eq in Hc. now subst. }
      split; [exact Ht|]. intros c Hct. destruct (Hc c Hct) as [Hs Hd].
      split; [exact Hs|]. unfold PyStr.contains in *. simpl in *.
      destruct Hd as [Hd | Hd].
      * apply orb_true_iff in Hd as [Hd | Hd]; [|auto].
        right. rewrite Hd. reflexivity.
      * right. rewrite Hd. apply orb_true_r.
Qed.

(** X5.  Every token of an accepted argument string is a non-empty piece
    of that string with no white space and no shell metacharacter in it. *)
Theorem accepted_tokens_are_clean (args : string) (tokens : list string) (t : string) :
  sanitize_custom_args args = (true, None, Some tokens) ->
  In t tokens ->
  t <> "" /\
  forall c, PyStr.contains c t = true ->
            PyStr.contains c args = true /\
            PyStr.isspace c = false /\
            PyStr.contains c Spec.shell_metacharacters = false.
Proof.
  intros Hs Hin.
  assert (Hacc : fst (fst (sanitize_custom_args args)) = true) by now rewrite Hs.
  unfold sanitize_custom_args in Hs.
  destruct (first_match forbidden_patterns args) eqn:Hm; [discriminate|].
  injection Hs as <-. rewrite collect_safe_args_app in Hin. simpl in Hin.
  destruct (split_ws_aux_tokens args EmptyString t) as [Ht Hc];
    [discriminate | exact Hin |].
  split; [intros ->; discriminate|].
  intros c Hct. destruct (Hc c Hct) as [Hsp [Hd | Hd]]; [discriminate|].
  split; [exact Hd|]. split; [exact Hsp|].
  destruct (PyStr.contains c Spec.shell_metacharacters) eqn:Hmeta; [|reflexivity].
  exfalso. destruct (metacharacter_is_denied args c Hd Hmeta) as (p & Hp & Hsearch).
  rewrite first_match_none in Hm. rewrite (Hm p Hp) in Hsearch. discriminate.
Qed.

End SanitizerMore.

Section DenylistMore.
Import NmapValidator.

Lemma match_here_lits (w : string) (p : list Re.Atom) (s : string) :
  Re.match_here (Re.lits w ++ p) (w ++ s) = Re.match_here p s.
Proof.
  induction w as [|c w IH]; simpl; [reflexivity|].
  now rewrite Ascii.eqb_refl, IH.
Qed.

Lemma match_here_star_unfold (k : Re.CharClass) (p : list Re.Atom) (s : string) :
  Re.match_here (Re.Star k :: p) s =
    Re.match_here p s ||
    match s with
    | String c s' => Re.class_matches k c && Re.match_here (Re.Star k :: p) s'
    | EmptyString => false
    end.
Proof. destruct s; reflexivity. Qed.

Lemma match_here_star (k : Re.CharClass) (p : list Re.Atom) (run s : string) :
  PyStr.forallb_str (Re.class_matches k) run = true ->
  Re.match_here p s = true ->
  Re.match_here (Re.Star k :: p) (run ++ s) = true.
Proof.
  intros Hrun Hp. induction run as [|c run IH]; rewrite match_here_star_unfold.
  - change ("" ++ s) with s. now rewrite Hp.
  - change (String c run ++ s) with (String c (run ++ s)).
    cbn [PyStr.forallb_str] in Hrun.
    apply andb_true_iff in Hrun as [Hc Hrun].
    rewrite Hc, (IH Hrun). apply orb_true_r.
Qed.

Lemma search_atoms_anywhere (p : list Re.Atom) (pre s : string) :
  Re.match_here p s = true -> Re.search_atoms p (pre ++ s) = true.
Proof.
  intros H. induction pre as [|c pre IH].
  - change ("" ++ s) with s. destruct s; cbn [Re.search_atoms]; rewrite H; reflexivity.
  - change (String c pre ++ s) with (String c (pre ++ s)).
    cbn [Re.search_atoms]. rewrite IH. apply orb_true_r.
Qed.

Lemma denied_if_found (p : Re.Pattern) (args : string) :
  In p forbidden_patterns -> Re.search p args = true ->
  exists q, In q forbidden_patterns /\ Re.search q args = true /\
            sanitize_custom_args args = (false, Some (forbidden_message q), None).
Proof.
  intros Hp Hs. destruct (first_match_some _ _ _ Hp Hs) as (q & Hq).
  destruct (first_match_sound _ _ _ Hq) as [Hin Hqs].
  exists q. unfold sanitize_custom_args. rewrite Hq. auto.
Qed.

Lemma literal_found (w pre post : string) :
  Re.search_atoms (Re.lits w) (pre ++ w ++ post) = true.
Proof.
  apply search_atoms_anywhere.
  rewrite <- (app_nil_r (Re.lits w)), match_here_lits. reflexivity.
Qed.

(** X6.  An argument string is refused wherever one of the flags
    --datadir, --servicedb, --resume or --stylesheet occurs in it; wherever
    -oN, -oG or -oX is followed, after any run of white space, by a slash;
    and wherever --script is followed on the same line by "../". *)
Theorem dangerous_flags_are_refused (pre post : string) :
  (forall flag, In flag ["--datadir"; "--servicedb"; "--resume"; "--stylesheet"] ->
     fst (fst (sanitize_custom_args (pre ++ flag ++ post))) = false) /\
  (forall flag blanks,
     In flag ["-oN"; "-oG"; "-oX"] ->
     PyStr.forallb_str PyStr.isspace blanks = true ->
     fst (fst (sanitize_custom_args (pre ++ flag ++ blanks ++ "/" ++ post))) = false) /\
  (forall between,
     PyStr.contains (ascii_of_N 10) between = false ->
     fst (fst (sanitize_custom_args (pre ++ "--script" ++ between ++ "../" ++ post)))
     = false).
Proof.
  assert (Hden : forall p args, In p forbidden_patterns -> Re.search p args = true ->
                   fst (fst (sanitize_custom_args args)) = false).
  { intros p args Hp Hs. destruct (denied_if_found p args Hp Hs) as (q & _ & _ & ->).
    reflexivity. }
  assert (Hout : forall flag source blanks,
            In (Re.mkPattern source
                  (Re.lits flag ++ [Re.Star Re.Space; Re.One (Re.Lit "/")])%list)
               forbidden_patterns ->
            PyStr.forallb_str PyStr.isspace blanks = true ->
            fst (fst (sanitize_custom_args (pre ++ flag ++ blanks ++ "/" ++ post))) = false).
  { intros flag source blanks Hp Hblanks. apply (Hden _ _ Hp).
    unfold Re.search. cbn [Re.atoms]. apply search_atoms_anywhere.
    rewrite match_here_lits. apply match_here_star; [exact Hblanks|].
    reflexivity. }
  split; [|split].
  - intros flag Hflag.
    apply (Hden (Re.mkPattern flag (Re.lits flag))).
    + simpl in Hflag. simpl. intuition (subst; auto 10).
    + apply literal_found.
  - intros flag blanks Hflag Hblanks. simpl in Hflag.
    destruct Hflag as [<- | [<- | [<- | []]]].
    + apply (Hout "-oN" "-oN\s*/"); [simpl; tauto | exact Hblanks].
    + apply (Hout "-oG" "-oG\s*/"); [simpl; tauto | exact Hblanks].
    + apply (Hout "-oX" "-oX\s*/"); [simpl; tauto | exact Hblanks].
  - intros between Hline.
    apply (Hden (Re.mkPattern "--script.*\.\./"
                   (Re.lits "--script" ++ [Re.Star Re.AnyChar] ++ Re.lits "../")%list));
      [simpl; tauto|].
    unfold Re.search. cbn [Re.atoms]. apply search_atoms_anywhere.
    rewrite match_here_lits. apply match_here_star.
    + clear -Hline. unfold PyStr.contains in Hline.
      induction between as [|c b IH]; [reflexivity|].
      cbn [PyStr.existsb_str PyStr.forallb_str] in *.
      apply orb_false_iff in Hline as [Hc Hb]. rewrite (IH Hb), andb_true_r.
      cbn [Re.class_matches].
      apply negb_true_iff. apply Z.eqb_neq. intros Hcode.
      apply Ascii.eqb_neq in Hc. apply Hc.
      unfold PyStr.code in Hcode.
      rewrite <- (ascii_N_embedding c). f_equal. lia.
    + rewrite <- (app_nil_r (Re.lits "../")), match_here_lits. reflexivity.
Qed.

End DenylistMore.

(** ** The executor and the pipeline around it *)

Section ExecutorMore.
Import World NmapScanner.

Lemma execute_scan_spawned
    (env : Env) (self : Scanner) (command : list string) (st : State) :
  spawned (snd (execute_scan env self command st)) = (spawned st ++ [command])%list.
Proof.
  unfold execute_scan, run, utcnow, mbind, M_bind, mret, M_ret. cbn [fst snd].
  destruct (subprocess_run env command (timeout self)) as [rc out err | m | m | m];
    cbn [fst snd spawned ticks]; try reflexivity.
  destruct (rc =? 0); reflexivity.
Qed.

(** X7.  [execute_scan] hands exactly one command to [subprocess.run],
    whatever happens.  It reports success exactly when the process exits
    with status 0, and then carries the raw output and what the parser
    made of it; a non-zero exit is reported with the exit status and the
    standard error text, or "Nmap scan failed" when that text is empty; a
    timeout is reported with the configured limit as its duration.  A
    failure never carries an output. *)
Theorem execute_scan_outcomes
    (env : Env) (self : Scanner) (command : list string) (st : State) :
  let result := fst (execute_scan env self command st) in
  spawned (snd (execute_scan env self command st)) = (spawned st ++ [command])%list /\
  match subprocess_run env command (timeout self) with
  | Completed rc stdout stderr =>
      if rc =? 0
      then success result = true /\ error result = None /\
           raw_output result = Some stdout /\
           parsed_results result = Some (parse_nmap_xml env stdout)
      else success result = false /\ returncode result = Some rc /\
           error result = Some (if PyStr.truthy stderr then stderr else "Nmap scan failed") /\
           raw_output result = None /\ parsed_results result = None
  | TimeoutExpired _ =>
      success result = false /\
      error result
        = Some ("Scan timeout after " ++ PyStr.str_Z (timeout self) ++ " seconds") /\
      duration_seconds result = Some (timeout self * 1000000) /\
      raw_output result = None /\ parsed_results result = None
  | FileNotFoundError e | OtherError e =>
      success result = false /\ error result = Some ("Unexpected error: " ++ e) /\
      raw_output result = None /\ parsed_results result = None
  end.
Proof.
  unfold execute_scan, run, utcnow, mbind, M_bind, mret, M_ret. cbn [fst snd].
  destruct (subprocess_run env command (timeout self)) as [rc out err | m | m | m];
    cbn [fst snd spawned ticks].
  - destruct (rc =? 0); cbn; repeat split.
  - repeat split.
  - repeat split.
  - repeat split.
Qed.

Lemma scan_runs_aux
    (env : Env) (self : Scanner) (target scan_type : string)
    (custom_args : option string) (st : State) :
  let out := scan env self target scan_type custom_args st in
  NmapScanner.target (fst out) = Some target /\
  NmapScanner.scan_type (fst out) = Some scan_type /\
  match validate_and_prepare_scan self target scan_type custom_args with
  | (true, _, Some command) =>
      spawned (snd out) = (spawned st ++ [command])%list
  | (_, message, _) =>
      snd out = st /\ success (fst out) = false /\ error (fst out) = message
  end.
Proof.
  pose proof (prepared_command_shapes_aux self target scan_type custom_args) as Hshape.
  unfold scan.
  destruct (validate_and_prepare_scan self target scan_type custom_args)
    as [[[] [message|]] [command|]]; try contradiction; cbn [negb].
  - unfold mbind, M_bind. change (default [] (Some command)) with command.
    pose proof (execute_scan_spawned env self command st) as Hsp.
    destruct (execute_scan env self command st) as [result st'].
    cbn [fst snd] in *. repeat split. exact Hsp.
  - repeat split.
Qed.

(** X8.  The only process that [scan] ever starts is the command that
    preparation returned; when preparation refuses the input nothing is
    started, the clock is not read, and the answer is a failure carrying
    the message of the refusal.  The answer always names the target and
    the scan type it was asked for. *)
Theorem scan_runs_only_the_prepared_command
    (env : Env) (self : Scanner) (target scan_type : string)
    (custom_args : option string) (st : State) :
  let out := scan env self target scan_type custom_args st in
  NmapScanner.target (fst out) = Some target /\
  NmapScanner.scan_type (fst out) = Some scan_type /\
  match validate_and_prepare_scan self target scan_type custom_args with
  | (true, _, Some command) =>
      spawned (snd out) = (spawned st ++ [command])%list
  | (_, message, _) =>
      snd out = st /\ success (fst out) = false /\ error (fst out) = message
  end.
Proof. apply scan_runs_aux. Qed.

End ExecutorMore.

Section RunMore.
Import World NmapScanner Pipeline.

Lemma scanner_construction_aux (env : Env) (st : State) :
  snd (init env st) = mkState (ticks st) (spawned st ++ [probe]).
Proof.
  unfold init, run, mbind, M_bind, mret, M_ret, probe. cbn [nmap_path fst snd].
  destruct (subprocess_run env ["/usr/bin/nmap"; "--version"] 5)
    as [rc out err | e | e | e]; cbn [fst snd]; try reflexivity.
  destruct (rc =? 0); cbn [negb]; [|reflexivity].
  destruct (PyStr.split out) as [|a [|b [|c rest]]]; reflexivity.
Qed.

(** X9.  The scanner is built exactly when the availability check exits
    with status 0 and its output has at least three words, and it is then
    the scanner of the default path and timeout.  A non-zero exit, a
    missing binary, a timeout, and also a banner of fewer than three
    words, each end the construction with a message. *)
Theorem scanner_construction (env : Env) (st : State) :
  snd (init env st) = mkState (ticks st) (spawned st ++ [probe]) /\
  match subprocess_run env probe 5 with
  | Completed rc stdout _ =>
      if rc =? 0
      then if (3 <=? List.length (PyStr.split stdout))%nat
           then fst (init env st) = inr default_scanner
           else fst (init env st) = inl "list index out of range"
      else fst (init env st) = inl "Nmap not available or not executable"
  | TimeoutExpired e | FileNotFoundError e =>
      fst (init env st) = inl ("Nmap initialization failed: " ++ e)
  | OtherError e => fst (init env st) = inl e
  end.
Proof.
  unfold init, run, mbind, M_bind, mret, M_ret, probe, default_scanner.
  cbn [nmap_path fst snd].
  destruct (subprocess_run env ["/usr/bin/nmap"; "--version"] 5)
    as [rc out err | e | e | e]; cbn [fst snd]; try (split; reflexivity).
  destruct (rc =? 0); cbn [negb]; [|split; reflexivity].
  destruct (PyStr.split out) as [|a [|b [|c rest]]]; split; reflexivity.
Qed.

(** X10.  [run_nmap_scan] first runs the availability check.  When the
    scanner cannot be built it answers with that failure and starts
    nothing else; when preparation refuses the input it starts nothing
    else either; otherwise the one other process is the prepared command.
    In every case the answer names the target and the scan type. *)
Theorem run_nmap_scan_processes
    (env : Env) (target scan_type : string) (custom_args : option string) (st : State) :
  let out := run_nmap_scan env target scan_type custom_args st in
  NmapScanner.target (fst out) = Some target /\
  NmapScanner.scan_type (fst out) = Some scan_type /\
  match fst (init env st) with
  | inl e =>
      fst out = mkScanDict false (Some e) None None None None None
                           (Some target) (Some scan_type) /\
      spawned (snd out) = (spawned st ++ [probe])%list
  | inr scanner =>
      match validate_and_prepare_scan scanner target scan_type custom_args with
      | (true, _, Some command) =>
          spawned (snd out) = (spawned st ++ [probe; command])%list
      | (_, message, _) =>
          spawned (snd out) = (spawned st ++ [probe])%list /\
          success (fst out) = false /\ error (fst out) = message
      end
  end.
Proof.
  pose proof (scanner_construction_aux env st) as Hst.
  unfold run_nmap_scan, mbind, M_bind.
  destruct (init env st) as [[e | scanner] st1]; cbn [fst snd] in *; subst st1.
  - repeat split.
  - pose proof (scan_runs_aux env scanner target scan_type custom_args
                  (mkState (ticks st) (spawned st ++ [probe]))) as (Ht & Hty & Hsp).
    split; [exact Ht|]. split; [exact Hty|].
    destruct (validate_and_prepare_scan scanner target scan_type custom_args)
      as [[[] message] [command|]].
    + rewrite Hsp. cbn [spawned]. now rewrite <- app_assoc.
    + destruct Hsp as (-> & ? & ?). auto.
    + destruct Hsp as (-> & ? & ?). auto.
    + destruct Hsp as (-> & ? & ?). auto.
Qed.

End RunMore.

(** ** The parser: statistics and what is kept *)

Section ParserMore.
Import NmapScanner Pipeline.

Lemma parse_host_total (host_element : Xml.Element) :
  exists h, _parse_host host_element = Some h.
Proof. unfold _parse_host. eauto. Qed.

Lemma parse_hosts_spec (host_elements : list Xml.Element)
      (hosts : list HostData) (stats : Stats) :
  exists parsed,
    Forall2 (fun e h => _parse_host e = Some h) host_elements parsed /\
    parse_hosts host_elements hosts stats =
      ((hosts ++ parsed)%list,
       mkStats (hosts_up stats + Z.of_nat (List.length (List.filter is_up parsed)))
               (hosts_down stats
                + Z.of_nat (List.length (List.filter (fun h => negb (is_up h)) parsed)))
               (total_hosts stats)
               (total_ports stats
                + Z.of_nat (List.length (List.flat_map ports parsed)))).
Proof.
  revert hosts stats. induction host_elements as [|e es IH]; intros hosts stats.
  - exists []. split; [constructor|]. cbn [parse_hosts List.filter List.flat_map List.length].
    rewrite app_nil_r, !Z.add_0_r. destruct stats; reflexivity.
  - destruct (parse_host_total e) as [h Hh]. cbn [parse_hosts]. rewrite Hh.
    match goal with
    | |- context [parse_hosts es ?hs ?st] => destruct (IH hs st) as (parsed & Hall & ->)
    end.
    exists (h :: parsed). split; [constructor; assumption|].
    rewrite <- app_assoc. cbn [app List.filter List.flat_map].
    rewrite List.length_app.
    change (opt_string_eqb (status h) "up") with (is_up h).
    destruct (is_up h); cbn [negb List.length hosts_up hosts_down
      total_hosts total_ports]; f_equal; f_equal; lia.
Qed.

(** X11.  The parser keeps one entry per [host] element of the document,
    in document order, and its statistics count what it kept: the total
    is the number of entries, "up" counts the entries whose status is
    "up", "down" counts all the others (a missing or unknown status
    included), and the port total is the number of port entries. *)
Theorem parse_root_statistics (root : Xml.Element) :
  exists scan_info hosts stats,
    parse_root root = Results scan_info hosts stats /\
    Forall2 (fun e h => _parse_host e = Some h) (Xml.findall root "host") hosts /\
    total_hosts stats = Z.of_nat (List.length hosts) /\
    hosts_up stats = Z.of_nat (List.length (List.filter is_up hosts)) /\
    hosts_down stats
      = Z.of_nat (List.length (List.filter (fun h => negb (is_up h)) hosts)) /\
    hosts_up stats + hosts_down stats = total_hosts stats /\
    total_ports stats = Z.of_nat (List.length (List.flat_map ports hosts)).
Proof.
  unfold parse_root.
  destruct (parse_hosts_spec (Xml.findall root "host") [] (mkStats 0 0 0 0))
    as (parsed & Hall & ->).
  cbn [app hosts_up hosts_down total_hosts total_ports].
  eexists _, parsed, _. split; [reflexivity|].
  cbn [hosts_up hosts_down total_hosts total_ports].
  repeat split; try assumption; try lia.
  clear Hall. induction parsed as [|h hs IH]; cbn [List.filter List.length]; [lia|].
  destruct (is_up h); cbn [negb List.length]; lia.
Qed.

Lemma parse_ports_numbers (port_elements : list Xml.Element) :
  List.map portid (parse_ports port_elements) = omap readable_portid port_elements.
Proof.
  induction port_elements as [|e es IH]; [reflexivity|].
  cbn [parse_ports omap list_omap]. unfold _parse_port, readable_portid at 1.
  destruct (Xml.get e "portid") as [text|]; [|exact IH].
  destruct (PyStr.int text); [|exact IH].
  cbn [option_map List.map portid]. now rewrite IH.
Qed.

(** X12.  The port numbers of a parsed host are the readable [portid]
    attributes of the [port] elements under its [ports] element, in
    document order: a port element is left out exactly when its
    attribute is missing or is no integer, and a host without a [ports]
    element has no port. *)
Theorem host_port_numbers (host_element : Xml.Element) :
  option_map (fun h => List.map portid (ports h)) (_parse_host host_element)
  = Some match Xml.find host_element "ports" with
         | Some ports_element => omap readable_portid (Xml.findall ports_element "port")
         | None => []
         end.
Proof.
  unfold _parse_host. cbn [option_map ports]. f_equal.
  destruct (Xml.find host_element "ports"); [apply parse_ports_numbers | reflexivity].
Qed.

End ParserMore.

(** ** The state machine of a row *)

Section LifecycleMore.
Import World Models Lifecycle.

(** What [update_status] writes and what it leaves alone. *)
Lemma update_status_frame (env : Env) (new_status : string) (err : option string)
      (self : ScanResult) (st : State) :
  let row := fst (update_status env new_status err self st) in
  status row = new_status /\
  id row = id self /\ task_id row = task_id self /\ user_id row = user_id self /\
  target row = target self /\ scan_type row = scan_type self /\
  scan_args row = scan_args self /\ priority row = priority self /\
  created_at row = created_at self /\
  raw_output row = raw_output self /\ parsed_results row = parsed_results self /\
  Models.hosts_up row = Models.hosts_up self /\
  Models.ports_found row = Models.ports_found self /\
  vulnerabilities_found row = vulnerabilities_found self.
Proof.
  unfold update_status, mbind, M_bind, mret, M_ret, utcnow. simpl.
  repeat match goal with
         | |- context [if ?b then _ else _] => destruct b; simpl
         | |- context [match ?o with Some _ => _ | None => _ end] => destruct o; simpl
         end; repeat split.
Qed.

(** The times after [update_status]. *)
Lemma update_status_times (env : Env) (new_status : string) (err : option string)
      (self : ScanResult) (st : State) :
  let row := fst (update_status env new_status err self st) in
  let now := utcnow_at env (S (ticks st)) in
  (new_status = value COMPLETED \/ new_status = value FAILED ->
   started_at row = started_at self /\
   completed_at row = Some now /\
   forall started, started_at self = Some started ->
                   duration_seconds row = Some (now - started)) /\
  (new_status <> value COMPLETED -> new_status <> value FAILED ->
   completed_at row = completed_at self /\ duration_seconds row = duration_seconds self).
Proof.
  cbv zeta. split.
  - intros [-> | ->]; unfold update_status, mbind, M_bind, mret, M_ret, utcnow; simpl;
      destruct (started_at self) eqn:Hs; simpl;
      destruct (NmapScanner.truthy_opt err); simpl; rewrite ?Hs;
      repeat split; try congruence; intros ? [= <-]; reflexivity.
  - intros Hc Hf. unfold update_status, mbind, M_bind, mret, M_ret, utcnow. simpl.
    repeat match goal with
           | |- context [if ?b then _ else _] => destruct b eqn:?; simpl
           end; try (split; reflexivity);
      exfalso;
      match goal with
      | H : _ || (_ || false) = true |- _ =>
          rewrite orb_false_r in H; apply orb_true_iff in H as [H | H];
          apply String.eqb_eq in H; contradiction
      end.
Qed.

Lemma cancel_scan_spec (env : Env) (r r' : ScanResult) (st : State) :
  fst (Worker.cancel_scan env r st) = Some r' ->
  (status r = value QUEUED \/ status r = value RUNNING) /\
  r' = fst (update_status env (value CANCELLED) None r st).
Proof.
  unfold Worker.cancel_scan.
  destruct (NmapValidator.string_in (status r) [value QUEUED; value RUNNING]) eqn:Hin;
    cbn [negb].
  - unfold mbind, M_bind, mret, M_ret.
    destruct (update_status env (value CANCELLED) None r st) as [row st'].
    cbn [fst]. intros [= <-]. split; [|reflexivity].
    unfold NmapValidator.string_in in Hin. simpl in Hin.
    rewrite orb_false_r in Hin. apply orb_true_iff in Hin as [H | H];
      apply String.eqb_eq in H; auto.
  - discriminate.
Qed.

(** X13.  Every row that a freshly submitted row can become, through
    the worker, a cancellation, a queue failure or the retry sweep, is
    consistent: its status is one of the five statuses; a running row has
    a start time; a completed or failed row has a completion time, and its
    duration is the difference of the two times when it was started; a
    completed row was started and holds a raw output and a parsed
    result. *)
Theorem reachable_rows_are_consistent (env : Env) (r : ScanResult) :
  reachable env r -> consistent r.
Proof.
  induction 1 as [| r r' Hreach IH Hstep].
  - unfold consistent. cbn. repeat split; try discriminate; intuition discriminate.
  - destruct Hstep as [r rid st | r ty res st Hrun | r msg st | r r' st Hc | r tid Hf].
    + pose proof (update_status_frame env (value RUNNING) None r st) as Hfr.
      pose proof (update_status_started_at env (value RUNNING) None r st) as Hst.
      cbv zeta in Hfr. destruct Hfr as (Hs & _).
      unfold consistent. cbn [status started_at completed_at duration_seconds
        raw_output parsed_results set_task_id].
      rewrite Hs, Hst. cbn.
      repeat split; try discriminate; try (intuition discriminate); try tauto.
      destruct (started_at r); reflexivity.
    + destruct IH as (_ & Hstarted & _). specialize (Hstarted Hrun).
      assert (Hst : is_some (started_at (Worker.store_results ty res r)) = true).
      { unfold Worker.store_results. destruct (String.eqb ty "vuln"); exact Hstarted. }
      pose proof (update_status_frame env (value COMPLETED) None
                    (Worker.store_results ty res r) st) as Hfr.
      pose proof (update_status_times env (value COMPLETED) None
                    (Worker.store_results ty res r) st) as [Ht _].
      cbv zeta in Hfr, Ht. specialize (Ht (or_introl eq_refl)).
      destruct Ht as (Hsa & Hca & Hdur).
      destruct Hfr as (Hs & _ & _ & _ & _ & _ & _ & _ & _ & Hraw & Hpr & _).
      unfold consistent. rewrite Hs, Hsa, Hca, Hraw, Hpr. cbn.
      repeat split; try discriminate; try tauto; try assumption.
      * intros started completed Hs1 [= <-]. now apply Hdur.
      * unfold Worker.store_results. destruct (String.eqb ty "vuln"); reflexivity.
      * unfold Worker.store_results. destruct (String.eqb ty "vuln"); reflexivity.
    + pose proof (update_status_frame env (value FAILED) (Some msg) r st) as Hfr.
      pose proof (update_status_times env (value FAILED) (Some msg) r st) as [Ht _].
      cbv zeta in Hfr, Ht. specialize (Ht (or_intror eq_refl)).
      destruct Ht as (Hsa & Hca & Hdur). destruct Hfr as (Hs & _).
      unfold consistent. rewrite Hs, Hsa, Hca. cbn.
      repeat split; try discriminate; try tauto.
      intros started completed Hs1 [= <-]. now apply Hdur.
    + apply cancel_scan_spec in Hc as [_ ->].
      pose proof (update_status_frame env (value CANCELLED) None r st) as Hfr.
      cbv zeta in Hfr. destruct Hfr as (Hs & _).
      unfold consistent. rewrite Hs. cbn.
      repeat split; try discriminate; try tauto; intuition discriminate.
    + unfold consistent, Worker.requeue. cbn.
      repeat split; try discriminate; try tauto; intuition discriminate.
Qed.

End LifecycleMore.

Section LifecycleSteps.
Import World Models Lifecycle.

Lemma step_keeps (env : Env) (r r' : ScanResult) :
  step env r r' ->
  id r' = id r /\ user_id r' = user_id r /\ target r' = target r /\
  scan_type r' = scan_type r /\ scan_args r' = scan_args r /\
  priority r' = priority r /\ created_at r' = created_at r /\
  (forall t, started_at r = Some t -> started_at r' = Some t) /\
  (is_some (completed_at r) = true -> is_some (completed_at r') = true).
Proof.
  assert (Hupd : forall new_status err self st,
            let row := fst (update_status env new_status err self st) in
            (forall t, started_at self = Some t -> started_at row = Some t) /\
            (is_some (completed_at self) = true -> is_some (completed_at row) = true)).
  { intros new_status err self st. cbv zeta. split.
    - intros t Ht. rewrite update_status_started_at, Ht. cbn.
      now rewrite andb_false_r.
    - intros Hc.
      destruct (String.eqb_spec new_status (value COMPLETED)) as [-> | Hnc].
      + destruct (update_status_times env (value COMPLETED) err self st) as [Ht _].
        destruct (Ht (or_introl eq_refl)) as (_ & -> & _). reflexivity.
      + destruct (String.eqb_spec new_status (value FAILED)) as [-> | Hnf].
        * destruct (update_status_times env (value FAILED) err self st) as [Ht _].
          destruct (Ht (or_intror eq_refl)) as (_ & -> & _). reflexivity.
        * destruct (update_status_times env new_status err self st) as [_ Ht].
          destruct (Ht Hnc Hnf) as [-> _]. exact Hc. }
  intros [r0 rid st | r0 ty res st Hrun | r0 msg st | r0 r1 st Hc | r0 tid Hf].
  - pose proof (update_status_frame env (value RUNNING) None r0 st) as Hfr.
    cbv zeta in Hfr. destruct (Hupd (value RUNNING) None r0 st) as [Hs Hcm].
    cbn [id user_id target scan_type scan_args priority created_at started_at
         completed_at set_task_id]. intuition.
  - pose proof (update_status_frame env (value COMPLETED) None
                  (Worker.store_results ty res r0) st) as Hfr.
    cbv zeta in Hfr.
    destruct (Hupd (value COMPLETED) None (Worker.store_results ty res r0) st)
      as [Hs Hcm].
    assert (Hsr : id (Worker.store_results ty res r0) = id r0 /\
                  user_id (Worker.store_results ty res r0) = user_id r0 /\
                  target (Worker.store_results ty res r0) = target r0 /\
                  scan_type (Worker.store_results ty res r0) = scan_type r0 /\
                  scan_args (Worker.store_results ty res r0) = scan_args r0 /\
                  priority (Worker.store_results ty res r0) = priority r0 /\
                  created_at (Worker.store_results ty res r0) = created_at r0 /\
                  started_at (Worker.store_results ty res r0) = started_at r0 /\
                  completed_at (Worker.store_results ty res r0) = completed_at r0).
    { unfold Worker.store_results. destruct (String.eqb ty "vuln"); repeat split. }
    destruct Hsr as (E1 & E2 & E3 & E4 & E5 & E6 & E7 & E8 & E9).
    rewrite E8 in Hs. rewrite E9 in Hcm.
    destruct Hfr as (_ & F1 & _ & F2 & F3 & F4 & F5 & F6 & F7 & _).
    rewrite F1, F2, F3, F4, F5, F6, F7. intuition.
  - pose proof (update_status_frame env (value FAILED) (Some msg) r0 st) as Hfr.
    cbv zeta in Hfr. destruct (Hupd (value FAILED) (Some msg) r0 st) as [Hs Hcm].
    intuition.
  - apply cancel_scan_spec in Hc as [_ ->].
    pose proof (update_status_frame env (value CANCELLED) None r0 st) as Hfr.
    cbv zeta in Hfr. destruct (Hupd (value CANCELLED) None r0 st) as [Hs Hcm].
    intuition.
  - unfold Worker.requeue. cbn. intuition.
Qed.

(** X14.  However many transitions a row goes through, its key, owner,
    target, scan type, arguments, priority and creation time stay what
    they were; a start time that is set is never changed again, and a
    completion time that is set is never cleared. *)
Theorem transitions_keep_identity (env : Env) (r r' : ScanResult) :
  rtc (step env) r r' ->
  id r' = id r /\ user_id r' = user_id r /\ target r' = target r /\
  scan_type r' = scan_type r /\ scan_args r' = scan_args r /\
  priority r' = priority r /\ created_at r' = created_at r /\
  (forall t, started_at r = Some t -> started_at r' = Some t) /\
  (is_some (completed_at r) = true -> is_some (completed_at r') = true).
Proof.
  induction 1 as [r | r r1 r2 Hstep _ IH].
  - repeat split; auto.
  - apply step_keeps in Hstep.
    destruct Hstep as (S1 & S2 & S3 & S4 & S5 & S6 & S7 & S8 & S9).
    destruct IH as (I1 & I2 & I3 & I4 & I5 & I6 & I7 & I8 & I9).
    repeat split; try congruence; auto.
Qed.

End LifecycleSteps.

(** ** The worker task as a whole *)

Section WorkerMore.
Import World Models Worker Lifecycle Pipeline.

(** The block of the task never leaves a row it finds queued or
    running. *)
Lemma task_body_terminal
    (env : Env) (scan : ScanResult) (request_id : string) (scan_id : Z)
    (target scan_type : string) (custom_args : option string) (st : State) :
  let out := task_body env (Some scan) request_id scan_id
                               target scan_type custom_args st in
  (exists row,
      snd (fst out) = Some row /\
      rtc (step env) scan row /\
      status row = (if success (fst (fst out)) then value COMPLETED else value FAILED) /\
      terminal (status row) = true /\
      task_id row = Some request_id /\
      is_some (started_at row) = true /\
      is_some (completed_at row) = true /\
      (success (fst (fst out)) = false -> is_some (error (fst (fst out))) = true)) /\
  task_body env None request_id scan_id target scan_type custom_args st
  = ((mkTaskResult false None None None (Some "Scan record not found"), None), st).
Proof.
  cbv zeta. split; [|reflexivity].
  rewrite task_unfold. cbv zeta.
  set (started := update_status env (value RUNNING) None scan st).
  set (taken := set_task_id (Some request_id) (fst started)).
  set (ran := NmapScanner.run_nmap_scan env target scan_type custom_args (snd started)).
  assert (Hstart : step env scan taken) by apply step_start.
  assert (Hrunning : status taken = value RUNNING).
  { subst taken started. cbn [status set_task_id].
    apply (update_status_frame env (value RUNNING) None scan st). }
  assert (Htaken_started : is_some (started_at taken) = true).
  { subst taken started. cbn [started_at set_task_id].
    rewrite update_status_started_at. cbn. destruct (started_at scan); reflexivity. }
  assert (Htask : task_id taken = Some request_id) by reflexivity.
  destruct (NmapScanner.success (fst ran)) eqn:Hok; cbn [fst snd success error].
  - eexists. split; [reflexivity|].
    pose proof (update_status_frame env (value COMPLETED) None
                  (store_results scan_type (fst ran) taken) (snd ran)) as Hfr.
    destruct (update_status_times env (value COMPLETED) None
                (store_results scan_type (fst ran) taken) (snd ran)) as [Ht _].
    cbv zeta in Hfr. destruct (Ht (or_introl eq_refl)) as (Hsa & Hca & _).
    destruct Hfr as (Hs & _ & Htid & _).
    assert (Hsr : task_id (store_results scan_type (fst ran) taken) = Some request_id /\
                  started_at (store_results scan_type (fst ran) taken) = started_at taken).
    { unfold store_results. destruct (String.eqb scan_type "vuln"); split; reflexivity. }
    destruct Hsr as [Hsr1 Hsr2].
    split; [|rewrite Hs, Htid, Hsa, Hca, Hsr1, Hsr2; repeat split;
             try reflexivity; try assumption; discriminate].
    eapply rtc_l; [exact Hstart|]. apply rtc_once. now apply step_succeed.
  - eexists. split; [reflexivity|].
    set (msg := default "Unknown error" (NmapScanner.error (fst ran))).
    pose proof (update_status_frame env (value FAILED) (Some msg) taken (snd ran)) as Hfr.
    destruct (update_status_times env (value FAILED) (Some msg) taken (snd ran))
      as [Ht _].
    cbv zeta in Hfr. destruct (Ht (or_intror eq_refl)) as (Hsa & Hca & _).
    destruct Hfr as (Hs & _ & Htid & _).
    split; [|rewrite Hs, Htid, Hsa, Hca; repeat split; try reflexivity; assumption].
    eapply rtc_l; [exact Hstart|]. apply rtc_once. apply step_fail.
Qed.

(** X15.  A task whose [_app] is the Celery application, as it is for the
    task that the module registers, raises [AttributeError] when it asks
    for the application context: the row, the world and the task object
    are what they were, so that the next run raises as well.  A task
    whose [_app] is a Flask application runs its block: when it finds no
    row it touches nothing and says so, and a row it finds is never left
    queued or running: the row committed last is completed when the task
    reports success and failed when it reports an error, it carries the
    id of the task, a start time and a completion time, and it is the row
    before taken through two transitions of the state machine. *)
Theorem task_raises_or_finishes_the_row
    (env : Env) (self : DatabaseTask) (found : option ScanResult) (request_id : string)
    (scan_id : Z) (target scan_type : string) (custom_args : option string) (st : State) :
  let out := execute_scan_task env self found request_id scan_id
                               target scan_type custom_args st in
  match _app self, found with
  | CeleryApp, _ =>
      out = ((Raised (AttributeError "Celery" "app_context"), found, self), st)
  | FlaskApp, None =>
      out = ((Returned (mkTaskResult false None None None (Some "Scan record not found")),
              None, self), st)
  | FlaskApp, Some scan =>
      exists answer row,
        fst (fst (fst out)) = Returned answer /\
        snd (fst (fst out)) = Some row /\
        rtc (step env) scan row /\
        status row = (if success answer then value COMPLETED else value FAILED) /\
        terminal (status row) = true /\
        task_id row = Some request_id /\
        is_some (started_at row) = true /\
        is_some (completed_at row) = true /\
        (success answer = false -> is_some (error answer) = true) /\
        _app (snd (fst out)) = FlaskApp
  end /\
  execute_scan_task env registered_task found request_id scan_id
                    target scan_type custom_args st
  = ((Raised (AttributeError "Celery" "app_context"), found, registered_task), st).
Proof.
  cbv zeta. split; [|reflexivity].
  rewrite execute_scan_task_unfold.
  destruct (_app self) eqn:Happ; [reflexivity|].
  destruct found as [scan|]; [|reflexivity].
  cbv zeta. cbn [fst snd].
  destruct (task_body_terminal env scan request_id scan_id target scan_type custom_args st)
    as [(row & Hrow & Hrest) _].
  exists (fst (fst (task_body env (Some scan) request_id scan_id target scan_type
                              custom_args st))), row.
  split; [reflexivity|]. split; [exact Hrow|].
  destruct Hrest as (H1 & H2 & H3 & H4 & H5 & H6 & H7).
  repeat (split; [assumption|]).
  unfold db. destruct (_db self); [exact Happ | reflexivity].
Qed.

Lemma refusal_message_not_empty
    (self : NmapScanner.Scanner) (target scan_type : string)
    (custom_args : option string) (valid : bool) (msg : string)
    (command : option (list string)) :
  NmapScanner.validate_and_prepare_scan self target scan_type custom_args
  = (valid, Some msg, command) ->
  PyStr.truthy msg = true.
Proof.
  unfold NmapScanner.validate_and_prepare_scan, NmapValidator.validate_target.
  destruct (IpAddress.ip_network (PyStr.strip target)) as [network|e].
  - destruct (NmapValidator.first_overlap network NmapValidator.FORBIDDEN_RANGES).
    + cbn [negb]. intros [= _ <- _]. reflexivity.
    + assert (Hrest :
        (let '(valid0, error) := NmapValidator.validate_scan_type scan_type in
         if negb valid0 then (false, error, None)
         else
           match
             (if (scan_type =? "custom")%string && NmapScanner.truthy_opt custom_args
              then
                let '(valid1, error0, safe_args) :=
                  NmapValidator.sanitize_custom_args (default "" custom_args) in
                if negb valid1 then inl error0
                else inr ([NmapScanner.nmap_path self] ++ default [] safe_args)%list
              else inr ([NmapScanner.nmap_path self] ++
                        default (NmapScanner.SCAN_PROFILES !!! "default")
                                (NmapScanner.SCAN_PROFILES !! scan_type))%list)
           with
           | inl error0 => (false, error0, None)
           | inr command0 =>
               (true, None, Some ((command0 ++ ["-oX"; "-"]) ++ [target])%list)
           end) = (valid, Some msg, command) -> PyStr.truthy msg = true).
      { unfold NmapValidator.validate_scan_type.
        destruct (NmapValidator.string_in scan_type NmapValidator.allowed_types);
          cbn [negb]; [|intros [= _ <- _]; reflexivity].
        destruct ((scan_type =? "custom")%string && NmapScanner.truthy_opt custom_args);
          [|discriminate].
        unfold NmapValidator.sanitize_custom_args.
        destruct (NmapValidator.first_match _ _); cbn [negb];
          [intros [= _ <- _]; reflexivity | discriminate]. }
      destruct (IpAddress.version network);
        destruct (_ <? _); cbn [negb]; try exact Hrest;
        intros [= _ <- _]; reflexivity.
  - cbn [negb]. intros [= _ <- _]. reflexivity.
Qed.

(** The block of the task on an input that preparation refuses. *)
Lemma task_body_refused
    (env : Env) (scan : ScanResult) (request_id : string) (scan_id : Z)
    (target scan_type : string) (custom_args : option string) (st : State)
    (msg : string) :
  (forall s, fst (NmapScanner.init env s) = inr default_scanner) ->
  NmapScanner.validate_and_prepare_scan default_scanner target scan_type custom_args
  = (false, Some msg, None) ->
  let out := task_body env (Some scan) request_id scan_id
                               target scan_type custom_args st in
  exists row,
    snd (fst out) = Some row /\
    fst (fst out) = mkTaskResult false (Some scan_id) None None (Some msg) /\
    status row = value FAILED /\
    error_message row = Some msg /\
    spawned (snd out) = (spawned st ++ [probe])%list /\
    raw_output row = raw_output scan /\
    parsed_results row = parsed_results scan /\
    Models.hosts_up row = Models.hosts_up scan /\
    Models.ports_found row = Models.ports_found scan /\
    vulnerabilities_found row = vulnerabilities_found scan.
Proof.
  intros Hinit Hprep. cbv zeta. rewrite task_unfold. cbv zeta.
  set (started := update_status env (value RUNNING) None scan st).
  pose proof (refusal_message_not_empty _ _ _ _ _ _ _ Hprep) as Hmsg.
  assert (Hran : NmapScanner.run_nmap_scan env target scan_type custom_args (snd started)
                 = (NmapScanner.mkScanDict false (Some msg) None None None None None
                                           (Some target) (Some scan_type),
                    mkState (ticks (snd started)) (spawned (snd started) ++ [probe]))).
  { unfold NmapScanner.run_nmap_scan, mbind, M_bind.
    pose proof (Hinit (snd started)) as Hi.
    pose proof (scanner_construction_aux env (snd started)) as Hs.
    destruct (NmapScanner.init env (snd started)) as [made st1].
    cbn [fst snd] in Hi, Hs. subst made st1.
    unfold NmapScanner.scan. rewrite Hprep. reflexivity. }
  rewrite Hran. cbn [fst snd NmapScanner.success NmapScanner.error].
  change (default "Unknown error" (Some msg)) with msg.
  eexists. split; [reflexivity|]. split; [reflexivity|].
  pose proof (update_status_frame env (value FAILED) (Some msg)
                (set_task_id (Some request_id) (fst started))
                (mkState (ticks (snd started)) (spawned (snd started) ++ [probe])))
    as Hfr.
  cbv zeta in Hfr.
  destruct Hfr as (Hs & _ & _ & _ & _ & _ & _ & _ & _ & Hraw & Hpr & Hup & Hpf & Hv).
  pose proof (update_status_frame env (value RUNNING) None scan st) as Hfr1.
  cbv zeta in Hfr1.
  destruct Hfr1 as (_ & _ & _ & _ & _ & _ & _ & _ & _ & Hraw1 & Hpr1 & Hup1 & Hpf1 & Hv1).
  fold started in Hraw1, Hpr1, Hup1, Hpf1, Hv1.
  rewrite Hs, Hraw, Hpr, Hup, Hpf, Hv. cbn [set_task_id raw_output parsed_results
    Models.hosts_up Models.ports_found vulnerabilities_found].
  rewrite Hraw1, Hpr1, Hup1, Hpf1, Hv1.
  repeat split.
  - unfold update_status, mbind, M_bind, mret, M_ret, utcnow. simpl.
    rewrite Hmsg. destruct (started_at (fst started)); reflexivity.
  - unfold update_status, mbind, M_bind, mret, M_ret, utcnow. simpl.
    destruct (started_at (fst started)); cbn [snd spawned].
    + subst started. unfold update_status, mbind, M_bind, mret, M_ret, utcnow. simpl.
      destruct (started_at scan); reflexivity.
    + subst started. unfold update_status, mbind, M_bind, mret, M_ret, utcnow. simpl.
      destruct (started_at scan); reflexivity.
Qed.

(** X16.  For a task whose application context opens ([_app] is a Flask
    application): when nmap is there but preparation refuses the target,
    the scan type or the custom arguments, the task commits the row as
    failed with the message of the refusal, reports that message, and has
    started no process but the availability check; the raw output, the
    parsed result and the three counters of the row are left as they
    were. *)
Theorem refused_input_fails_the_row
    (env : Env) (self : DatabaseTask) (scan : ScanResult) (request_id : string)
    (scan_id : Z) (target scan_type : string) (custom_args : option string) (st : State)
    (msg : string) :
  _app self = FlaskApp ->
  (forall s, fst (NmapScanner.init env s) = inr default_scanner) ->
  NmapScanner.validate_and_prepare_scan default_scanner target scan_type custom_args
  = (false, Some msg, None) ->
  let out := execute_scan_task env self (Some scan) request_id scan_id
                               target scan_type custom_args st in
  exists row,
    snd (fst (fst out)) = Some row /\
    fst (fst (fst out)) = Returned (mkTaskResult false (Some scan_id) None None (Some msg)) /\
    status row = value FAILED /\
    error_message row = Some msg /\
    spawned (snd out) = (spawned st ++ [probe])%list /\
    raw_output row = raw_output scan /\
    parsed_results row = parsed_results scan /\
    Models.hosts_up row = Models.hosts_up scan /\
    Models.ports_found row = Models.ports_found scan /\
    vulnerabilities_found row = vulnerabilities_found scan.
Proof.
  intros Happ Hinit Hprep. cbv zeta.
  rewrite execute_scan_task_unfold, Happ. cbv zeta. cbn [fst snd].
  destruct (task_body_refused env scan request_id scan_id target scan_type custom_args
              st msg Hinit Hprep) as (row & Hrow & Hanswer & Hrest).
  exists row. split; [exact Hrow|]. split; [now rewrite Hanswer | exact Hrest].
Qed.

End WorkerMore.

Section WorkerCounters.
Import World Models Worker Pipeline.

Lemma parse_root_counts (root : Xml.Element) :
  stat_of NmapScanner.hosts_up (NmapScanner.parse_root root)
    = Z.of_nat (List.length (List.filter is_up (hosts_of (NmapScanner.parse_root root)))) /\
  stat_of NmapScanner.total_ports (NmapScanner.parse_root root)
    = Z.of_nat (List.length (Spec.port_entries (NmapScanner.parse_root root))).
Proof.
  unfold Spec.port_entries, NmapScanner.parse_root.
  destruct (parse_hosts_spec (Xml.findall root "host") [] (NmapScanner.mkStats 0 0 0 0))
    as (parsed & _ & ->).
  cbn. split; reflexivity.
Qed.

(** The block of the task after a scan whose output was read. *)
Lemma task_body_counters
    (env : Env) (scan : ScanResult) (request_id : string) (scan_id : Z)
    (target scan_type : string) (custom_args : option string) (st : State)
    (root : Xml.Element) :
  let started := update_status env (value RUNNING) None scan st in
  let result := fst (NmapScanner.run_nmap_scan env target scan_type custom_args
                                               (snd started)) in
  NmapScanner.success result = true ->
  NmapScanner.parsed_results result = Some (NmapScanner.parse_root root) ->
  exists row,
    snd (fst (task_body env (Some scan) request_id scan_id
                                target scan_type custom_args st)) = Some row /\
    raw_output row = Some (default "" (NmapScanner.raw_output result)) /\
    parsed_results row = Some (NmapScanner.parse_root root) /\
    Models.hosts_up row
      = Z.of_nat (List.length
                    (List.filter is_up (hosts_of (NmapScanner.parse_root root)))) /\
    Models.ports_found row
      = Z.of_nat (List.length (Spec.port_entries (NmapScanner.parse_root root))).
Proof.
  cbv zeta. intros Hok Hparsed. rewrite task_unfold. cbv zeta. rewrite Hok.
  eexists. split; [reflexivity|].
  match goal with
  | |- context [update_status env (value COMPLETED) None ?r ?s] =>
      pose proof (update_status_frame env (value COMPLETED) None r s) as Hfr
  end.
  cbv zeta in Hfr.
  destruct Hfr as (_ & _ & _ & _ & _ & _ & _ & _ & _ & Hraw & Hpr & Hup & Hpf & _).
  rewrite Hraw, Hpr, Hup, Hpf.
  destruct (parse_root_counts root) as [Hc1 Hc2].
  unfold store_results. rewrite Hparsed. cbn [default].
  destruct (String.eqb scan_type "vuln"); cbn; rewrite <- ?Hc1, <- ?Hc2; repeat split.
Qed.

(** X17.  For a task whose application context opens ([_app] is a Flask
    application): after a successful scan whose output was read as a
    document, the row holds that output and the parsed result,
    [hosts_up] is the number of parsed hosts whose status is "up", and
    [ports_found] is the number of port entries of all parsed hosts. *)
Theorem stored_counters_follow_the_parse
    (env : Env) (self : DatabaseTask) (scan : ScanResult) (request_id : string)
    (scan_id : Z) (target scan_type : string) (custom_args : option string) (st : State)
    (root : Xml.Element) :
  let started := update_status env (value RUNNING) None scan st in
  let result := fst (NmapScanner.run_nmap_scan env target scan_type custom_args
                                               (snd started)) in
  _app self = FlaskApp ->
  NmapScanner.success result = true ->
  NmapScanner.parsed_results result = Some (NmapScanner.parse_root root) ->
  exists row,
    snd (fst (fst (execute_scan_task env self (Some scan) request_id scan_id
                                     target scan_type custom_args st))) = Some row /\
    raw_output row = Some (default "" (NmapScanner.raw_output result)) /\
    parsed_results row = Some (NmapScanner.parse_root root) /\
    Models.hosts_up row
      = Z.of_nat (List.length
                    (List.filter is_up (hosts_of (NmapScanner.parse_root root)))) /\
    Models.ports_found row
      = Z.of_nat (List.length (Spec.port_entries (NmapScanner.parse_root root))).
Proof.
  cbv zeta. intros Happ Hok Hparsed.
  rewrite execute_scan_task_unfold, Happ. cbv zeta. cbn [fst snd].
  exact (task_body_counters env scan request_id scan_id target scan_type custom_args st
                            root Hok Hparsed).
Qed.

End WorkerCounters.

(** ** Who may do what to a scan *)

Section AccessMore.
Import Auth.

Lemma role_permissions_lookup (r : string) :
  ROLE_PERMISSIONS !! r =
    if String.eqb r ADMIN then ROLE_PERMISSIONS !! ADMIN
    else if String.eqb r ANALYST then ROLE_PERMISSIONS !! ANALYST
    else if String.eqb r USER then ROLE_PERMISSIONS !! USER
    else None.
Proof.
  destruct (String.eqb_spec r ADMIN) as [-> | Ha]; [reflexivity|].
  destruct (String.eqb_spec r ANALYST) as [-> | Hb]; [reflexivity|].
  destruct (String.eqb_spec r USER) as [-> | Hc]; [reflexivity|].
  unfold ROLE_PERMISSIONS. cbn [list_to_map foldr uncurry fst snd].
  rewrite !lookup_insert_ne by congruence. apply lookup_empty.
Qed.

Lemma has_permission_by_role (user : User) (permission : string) :
  has_permission user permission =
    if String.eqb (role user) ADMIN
    then NmapValidator.string_in permission (default [] (ROLE_PERMISSIONS !! ADMIN))
    else if String.eqb (role user) ANALYST
    then NmapValidator.string_in permission (default [] (ROLE_PERMISSIONS !! ANALYST))
    else if String.eqb (role user) USER
    then NmapValidator.string_in permission (default [] (ROLE_PERMISSIONS !! USER))
    else false.
Proof.
  unfold has_permission. rewrite role_permissions_lookup.
  destruct (String.eqb (role user) ADMIN); [reflexivity|].
  destruct (String.eqb (role user) ANALYST); [reflexivity|].
  destruct (String.eqb (role user) USER); reflexivity.
Qed.

Lemma access_rules (user : User) (owner : Z) :
  (can_access_resource user owner SCAN_READ_ALL = true
   <-> id user = owner \/ role user = ADMIN \/ role user = ANALYST) /\
  (can_access_resource user owner SCAN_DELETE_ALL = true
   <-> id user = owner \/ role user = ADMIN) /\
  (~ In (role user) Role_all -> forall permission, has_permission user permission = false).
Proof.
  unfold can_access_resource. split; [|split].
  - rewrite has_permission_by_role.
    destruct (Z.eqb_spec (id user) owner); [tauto|].
    destruct (String.eqb_spec (role user) ADMIN); [vm_compute; tauto|].
    destruct (String.eqb_spec (role user) ANALYST); [vm_compute; tauto|].
    destruct (String.eqb_spec (role user) USER) as [Hu|];
      [rewrite Hu; vm_compute | ]; intuition discriminate.
  - rewrite has_permission_by_role.
    destruct (Z.eqb_spec (id user) owner); [tauto|].
    destruct (String.eqb_spec (role user) ADMIN); [vm_compute; tauto|].
    destruct (String.eqb_spec (role user) ANALYST) as [Hu|];
      [rewrite Hu; vm_compute; intuition discriminate|].
    destruct (String.eqb_spec (role user) USER) as [Hu|];
      [rewrite Hu; vm_compute | ]; intuition discriminate.
  - intros Hrole permission. rewrite has_permission_by_role.
    destruct (String.eqb_spec (role user) ADMIN) as [E|]; [rewrite E in Hrole|].
    { exfalso. apply Hrole. simpl. auto. }
    destruct (String.eqb_spec (role user) ANALYST) as [E|]; [rewrite E in Hrole|].
    { exfalso. apply Hrole. simpl. auto. }
    destruct (String.eqb_spec (role user) USER) as [E|]; [rewrite E in Hrole|].
    { exfalso. apply Hrole. simpl. auto. }
    reflexivity.
Qed.

(** X18.  A scan can always be reached by its owner.  Another user's scan
    can be read exactly by an admin or an analyst, and can be deleted or
    cancelled exactly by an admin; a role that is not in the table gives
    no permission at all. *)
Theorem access_to_a_scan (user : User) (owner : Z) :
  (can_access_resource user owner SCAN_READ_ALL = true
   <-> id user = owner \/ role user = ADMIN \/ role user = ANALYST) /\
  (can_access_resource user owner SCAN_DELETE_ALL = true
   <-> id user = owner \/ role user = ADMIN) /\
  (~ In (role user) Role_all -> forall permission, has_permission user permission = false).
Proof. apply access_rules. Qed.

Lemma find_some_in {A} (f : A -> bool) (l : list A) (x : A) :
  List.find f l = Some x -> In x l /\ f x = true.
Proof. apply List.find_some. Qed.

Lemma api_key_user_spec (users : list User) (headers : Headers) (user : User) :
  api_key_user users headers = Some user ->
  In user users /\ is_active user = true /\
  exists key, x_api_key headers = Some key /\ key <> "" /\ api_key user = Some key.
Proof.
  unfold api_key_user, authenticate_api_key.
  destruct (x_api_key headers) as [key|]; [|discriminate].
  destruct key as [|c key']; [discriminate|]. cbn [PyStr.truthy].
  destruct (List.find (key_is (String c key')) users) as [found|] eqn:Hf; [|discriminate].
  destruct (is_active found) eqn:Ha; [|discriminate]. cbn [negb].
  intros [= <-]. apply find_some_in in Hf as [Hin Hk].
  unfold key_is in Hk. destruct (api_key found) as [k|]; [|discriminate].
  apply String.eqb_eq in Hk. subst.
  split; [assumption|]. split; [assumption|].
  exists (String c key'). split; [reflexivity|]. split; [discriminate | reflexivity].
Qed.

(** the bearer branch never gets past the reading of the key *)
Lemma auth_required_cases (jwt_decode : string -> string -> Decoded)
      (users : list User) (headers : Headers) :
  auth_required jwt_decode users headers =
    match api_key_user users headers with
    | Some user => inr (Some user)
    | None =>
        match authorization headers with
        | Some auth_header =>
            if PyStr.startswith "Bearer " auth_header
            then inl (AttributeError "Config" "JWT_SECRET_KEY")
            else inr None
        | None => inr None
        end
    end.
Proof.
  unfold auth_required.
  destruct (api_key_user users headers); [reflexivity|].
  destruct (authorization headers) as [[|c h]|]; [reflexivity | | reflexivity].
  cbn [PyStr.truthy andb].
  destruct (PyStr.startswith "Bearer " (String c h)); reflexivity.
Qed.

(** X19.  Whoever [auth_required] lets through is an active user of the
    table whose API key is the non-empty [X-API-Key] header of the
    request.  A bearer token authenticates nobody: when no API key is
    accepted and the [Authorization] header starts with "Bearer ", the
    decorator ends in the [AttributeError] of reading [JWT_SECRET_KEY]
    off the configuration dictionary, whatever the token is and whatever
    [jwt.decode] would say.  A request with neither header is turned
    away with 401. *)
Theorem only_api_keys_authenticate
    (jwt_decode : string -> string -> Decoded) (users : list User) (headers : Headers) :
  (forall user,
      auth_required jwt_decode users headers = inr (Some user) ->
      In user users /\ is_active user = true /\
      exists key, x_api_key headers = Some key /\ key <> "" /\ api_key user = Some key) /\
  (forall user, api_key_user users headers = Some user ->
      auth_required jwt_decode users headers = inr (Some user)) /\
  (api_key_user users headers = None ->
   forall auth_header,
     authorization headers = Some auth_header ->
     PyStr.startswith "Bearer " auth_header = true ->
     auth_required jwt_decode users headers
     = inl (AttributeError "Config" "JWT_SECRET_KEY")) /\
  (x_api_key headers = None -> authorization headers = None ->
   auth_required jwt_decode users headers = inr None).
Proof.
  rewrite auth_required_cases. repeat split.
  - revert H. destruct (api_key_user users headers) as [u|] eqn:Hu.
    + intros [= <-]. apply (api_key_user_spec users headers u Hu).
    + destruct (authorization headers) as [h|]; [|discriminate].
      destruct (PyStr.startswith "Bearer " h); discriminate.
  - revert H. destruct (api_key_user users headers) as [u|] eqn:Hu.
    + intros [= <-]. apply (api_key_user_spec users headers u Hu).
    + destruct (authorization headers) as [h|]; [|discriminate].
      destruct (PyStr.startswith "Bearer " h); discriminate.
  - revert H. destruct (api_key_user users headers) as [u|] eqn:Hu.
    + intros [= <-]. apply (api_key_user_spec users headers u Hu).
    + destruct (authorization headers) as [h|]; [|discriminate].
      destruct (PyStr.startswith "Bearer " h); discriminate.
  - intros user Hu. now rewrite Hu.
  - intros Hnone auth_header Ha Hb. now rewrite Hnone, Ha, Hb.
  - intros Hk Ha. unfold api_key_user. now rewrite Hk, Ha.
Qed.

End AccessMore.

(** ** The scan routes *)

Section RoutesMore.
Import World Auth App.

Lemma may_delete (user : User) :
  has_any_permission user [SCAN_DELETE] = true
  <-> role user = ADMIN \/ role user = ANALYST.
Proof.
  unfold has_any_permission. cbn [List.existsb]. rewrite orb_false_r.
  rewrite has_permission_by_role.
  destruct (String.eqb_spec (role user) ADMIN); [vm_compute; tauto|].
  destruct (String.eqb_spec (role user) ANALYST); [vm_compute; tauto|].
  destruct (String.eqb_spec (role user) USER) as [Hu|];
    [rewrite Hu; vm_compute | ]; intuition discriminate.
Qed.

Lemma may_read (user : User) :
  has_any_permission user [SCAN_READ] = true <-> In (role user) Role_all.
Proof.
  unfold has_any_permission. cbn [List.existsb]. rewrite orb_false_r.
  rewrite has_permission_by_role. unfold Role_all. cbn [In].
  destruct (String.eqb_spec (role user) ADMIN); [vm_compute; intuition|].
  destruct (String.eqb_spec (role user) ANALYST); [vm_compute; intuition|].
  destruct (String.eqb_spec (role user) USER) as [Hu|];
    [rewrite Hu; vm_compute; intuition | ].
  split; [discriminate|]. intros [H | [H | [H | []]]]; congruence.
Qed.

Lemma delete_route_aux (jwt_decode : string -> string -> Decoded) (users : list User)
    (headers : Headers) (table : gmap Z Models.ScanResult) (scan_id : Z) :
  let out := delete_scan jwt_decode users headers table scan_id in
  (code_of (fst out) = 200
   <-> exists user scan,
         api_key_user users headers = Some user /\
         table !! scan_id = Some scan /\
         (role user = ADMIN \/
          (role user = ANALYST /\ id user = Models.user_id scan))) /\
  snd out = (if code_of (fst out) =? 200 then delete scan_id table else table) /\
  (forall other, other <> scan_id -> snd out !! other = table !! other).
Proof.
  cbv zeta. unfold delete_scan, guarded. rewrite auth_required_cases.
  destruct (api_key_user users headers) as [user|] eqn:Hauth.
  2:{ destruct (authorization headers) as [h|];
        [destruct (PyStr.startswith "Bearer " h)|];
        cbn; (split; [|split; [reflexivity | reflexivity]]);
        (split; [discriminate | intros (? & ? & ? & _); discriminate]). }
  pose proof (may_delete user) as Hperm.
  destruct (has_any_permission user [SCAN_DELETE]) eqn:Hp; cbn [negb].
  2:{ cbn. split; [|split; [reflexivity | reflexivity]].
      split; [discriminate|]. intros (u & scan & [= <-] & _ & Hrole).
      assert (false = true) by (apply Hperm; tauto). discriminate. }
  unfold delete_scan_view.
  destruct (table !! scan_id) as [scan|] eqn:Hrow.
  2:{ cbn. split; [|split; [reflexivity | reflexivity]].
      split; [discriminate | intros (? & ? & _ & ? & _); discriminate]. }
  pose proof (access_rules user (Models.user_id scan)) as (_ & Hdel & _).
  destruct (can_access_resource user (Models.user_id scan) SCAN_DELETE_ALL) eqn:Hacc;
    cbn [negb fst snd code_of].
  - split; [|split; [reflexivity|]].
    + split; [|reflexivity]. intros _. exists user, scan.
      split; [reflexivity|]. split; [reflexivity|].
      destruct (proj1 Hdel eq_refl) as [Hown | Hadm]; [|tauto].
      destruct (proj1 Hperm eq_refl); auto.
    + intros other Hne. now rewrite lookup_delete_ne.
  - split; [|split; [reflexivity | reflexivity]].
    split; [discriminate|]. intros (u & sc & [= <-] & [= <-] & Hrole).
    assert (false = true) by (apply Hdel; tauto). discriminate.
Qed.

Lemma cancel_route_aux (env : Env) (jwt_decode : string -> string -> Decoded) (users : list User)
    (headers : Headers) (table : gmap Z Models.ScanResult) (scan_id : Z) (st : State) :
  let out := fst (cancel_scan env jwt_decode users headers table scan_id st) in
  (code_of (fst (fst out)) = 200
   <-> exists user scan,
         api_key_user users headers = Some user /\
         table !! scan_id = Some scan /\
         (role user = ADMIN \/
          (role user = ANALYST /\ id user = Models.user_id scan)) /\
         (Models.status scan = "queued" \/ Models.status scan = "running")) /\
  (code_of (fst (fst out)) <> 200 -> snd (fst out) = table /\ snd out = []) /\
  (forall scan,
      code_of (fst (fst out)) = 200 -> table !! scan_id = Some scan ->
      snd (fst out)
        = <[scan_id := fst (Models.update_status env "cancelled" None scan st)]> table /\
      snd out = match Models.task_id scan with
                | Some task => if PyStr.truthy task then [task] else []
                | None => []
                end).
Proof.
  cbv zeta. unfold cancel_scan, guarded. rewrite auth_required_cases.
  destruct (api_key_user users headers) as [user|] eqn:Hauth.
  2:{ destruct (authorization headers) as [h|];
        [destruct (PyStr.startswith "Bearer " h)|];
        cbn; (split; [|split; [auto | discriminate]]);
        (split; [discriminate | intros (? & ? & ? & _); discriminate]). }
  pose proof (may_delete user) as Hperm.
  destruct (has_any_permission user [SCAN_DELETE]) eqn:Hp; cbn [negb].
  2:{ cbn. split; [|split; [auto | discriminate]].
      split; [discriminate|]. intros (u & scan & [= <-] & _ & Hrole & _).
      assert (false = true) by (apply Hperm; tauto). discriminate. }
  unfold cancel_scan_view.
  destruct (table !! scan_id) as [scan|] eqn:Hrow.
  2:{ cbn. split; [|split; [auto | discriminate]].
      split; [discriminate | intros (? & ? & _ & ? & _); discriminate]. }
  pose proof (access_rules user (Models.user_id scan)) as (_ & Hdel & _).
  destruct (can_access_resource user (Models.user_id scan) SCAN_DELETE_ALL) eqn:Hacc;
    cbn [negb].
  2:{ cbn. split; [|split; [auto | discriminate]].
      split; [discriminate|]. intros (u & sc & [= <-] & [= <-] & Hrole & _).
      assert (false = true) by (apply Hdel; tauto). discriminate. }
  unfold mbind, M_bind.
  destruct (Worker.cancel_scan env scan st) as [cancelled st'] eqn:Hcancel.
  assert (Hc : fst (Worker.cancel_scan env scan st) = cancelled) by now rewrite Hcancel.
  destruct cancelled as [scan'|]; cbn [mret M_ret fst snd code_of].
  - apply cancel_scan_spec in Hc as [Hstatus ->].
    split; [|split].
    + split; [|reflexivity]. intros _. exists user, scan.
      split; [reflexivity|]. split; [reflexivity|]. split; [|exact Hstatus].
      destruct (proj1 Hdel eq_refl) as [Hown | Hadm]; [|tauto].
      destruct (proj1 Hperm eq_refl); auto.
    + intros H. contradiction H. reflexivity.
    + intros sc _ [= <-]. split; reflexivity.
  - split; [|split; [auto | discriminate]].
    split; [discriminate|]. intros (u & sc & _ & [= <-] & _ & Hstatus).
    unfold Worker.cancel_scan in Hc.
    assert (Hin : NmapValidator.string_in (Models.status scan)
                    [Models.value Models.QUEUED; Models.value Models.RUNNING] = true).
    { unfold NmapValidator.string_in. cbn.
      destruct Hstatus as [-> | ->]; reflexivity. }
    rewrite Hin in Hc. cbn [negb] in Hc. unfold mbind, M_bind, mret, M_ret in Hc.
    destruct (Models.update_status env (Models.value Models.CANCELLED) None scan st).
    discriminate.
Qed.

Lemma read_route_aux (jwt_decode : string -> string -> Decoded) (users : list User)
    (headers : Headers) (table : gmap Z Models.ScanResult) (scan_id : Z)
    (include_results : option string) :
  let reply := get_scan jwt_decode users headers table scan_id include_results in
  (code_of reply = 200
   <-> exists user scan,
         api_key_user users headers = Some user /\
         table !! scan_id = Some scan /\
         (role user = ADMIN \/ role user = ANALYST \/
          (role user = USER /\ id user = Models.user_id scan))) /\
  (forall scan,
      code_of reply = 200 -> table !! scan_id = Some scan ->
      reply = ScanBody 200 scan
                (String.eqb (lower (default "true" include_results)) "true")).
Proof.
  cbv zeta. unfold get_scan, guarded. rewrite auth_required_cases.
  destruct (api_key_user users headers) as [user|] eqn:Hauth.
  2:{ destruct (authorization headers) as [h|];
        [destruct (PyStr.startswith "Bearer " h)|];
        cbn; (split; [|discriminate]);
        (split; [discriminate | intros (? & ? & ? & _); discriminate]). }
  pose proof (may_read user) as Hperm.
  destruct (has_any_permission user [SCAN_READ]) eqn:Hp; cbn [negb].
  2:{ cbn. split; [|discriminate].
      split; [discriminate|]. intros (u & scan & [= <-] & _ & Hrole).
      assert (false = true); [|discriminate].
      apply Hperm. unfold Role_all. cbn [In]. intuition. }
  unfold get_scan_view.
  destruct (table !! scan_id) as [scan|] eqn:Hrow.
  2:{ cbn. split; [|discriminate].
      split; [discriminate | intros (? & ? & _ & ? & _); discriminate]. }
  pose proof (access_rules user (Models.user_id scan)) as (Hread & _ & _).
  destruct (can_access_resource user (Models.user_id scan) SCAN_READ_ALL) eqn:Hacc;
    cbn [negb code_of].
  - split.
    + split; [|reflexivity]. intros _. exists user, scan.
      split; [reflexivity|]. split; [reflexivity|].
      destruct (proj1 Hread eq_refl) as [Hown | [Hadm | Han]]; [|tauto|tauto].
      pose proof (proj1 Hperm eq_refl) as Hin. unfold Role_all in Hin. cbn [In] in Hin.
      destruct Hin as [H | [H | [H | []]]]; auto.
    + intros sc _ [= <-]. reflexivity.
  - split; [|discriminate].
    split; [discriminate|]. intros (u & sc & [= <-] & [= <-] & Hrole).
    assert (false = true) by (apply Hread; tauto). discriminate.
Qed.

(** a request with a bearer token and no accepted API key never reaches
    the view *)
Lemma bearer_reply {A} (jwt_decode : string -> string -> Decoded) (users : list User)
      (headers : Headers) (permission auth_header : string)
      (denied : Reply -> A) (view : User -> A) :
  api_key_user users headers = None ->
  authorization headers = Some auth_header ->
  PyStr.startswith "Bearer " auth_header = true ->
  guarded jwt_decode users headers permission denied view
  = denied (Error 500 "Internal Server Error").
Proof.
  intros Hkey Hauth Hbearer. unfold guarded.
  rewrite auth_required_cases, Hkey, Hauth, Hbearer. reflexivity.
Qed.

(** X20.  The delete route answers 200 exactly when the request carries
    the API key of an active user, the scan exists, and the user is an
    admin or an analyst who owns the scan; the row is then gone and no
    other row is touched.  In every other case the table is left as it
    was: in particular a user of role "user" can never delete a scan, not
    even an own one, and a request that carries a bearer token and no
    accepted API key is answered 500. *)
Theorem delete_route (jwt_decode : string -> string -> Decoded) (users : list User)
    (headers : Headers) (table : gmap Z Models.ScanResult) (scan_id : Z) :
  let out := delete_scan jwt_decode users headers table scan_id in
  (code_of (fst out) = 200
   <-> exists user scan,
         api_key_user users headers = Some user /\
         table !! scan_id = Some scan /\
         (role user = ADMIN \/
          (role user = ANALYST /\ id user = Models.user_id scan))) /\
  snd out = (if code_of (fst out) =? 200 then delete scan_id table else table) /\
  (forall other, other <> scan_id -> snd out !! other = table !! other) /\
  (forall auth_header,
      api_key_user users headers = None ->
      authorization headers = Some auth_header ->
      PyStr.startswith "Bearer " auth_header = true ->
      out = (Error 500 "Internal Server Error", table)).
Proof.
  cbv zeta.
  destruct (delete_route_aux jwt_decode users headers table scan_id) as (H1 & H2 & H3).
  repeat (split; [assumption|]).
  intros auth_header Hkey Hauth Hbearer. unfold delete_scan.
  now rewrite (bearer_reply jwt_decode users headers _ auth_header _ _ Hkey Hauth Hbearer).
Qed.

(** X21.  The cancel route answers 200 exactly when the request carries
    the API key of an active user, the scan exists, the user is an admin
    or an analyst who owns the scan, and the scan is queued or running.
    The row is then replaced by the row that [update_status] makes of it
    with the status "cancelled", the task of the row, if it has one, is
    the only task revoked, and no other row is touched.  In every other
    case the table is left as it was and nothing is revoked; a request
    that carries a bearer token and no accepted API key is answered
    500. *)
Theorem cancel_route (env : Env) (jwt_decode : string -> string -> Decoded)
    (users : list User)
    (headers : Headers) (table : gmap Z Models.ScanResult) (scan_id : Z) (st : State) :
  let out := fst (cancel_scan env jwt_decode users headers table scan_id st) in
  (code_of (fst (fst out)) = 200
   <-> exists user scan,
         api_key_user users headers = Some user /\
         table !! scan_id = Some scan /\
         (role user = ADMIN \/
          (role user = ANALYST /\ id user = Models.user_id scan)) /\
         (Models.status scan = "queued" \/ Models.status scan = "running")) /\
  (code_of (fst (fst out)) <> 200 -> snd (fst out) = table /\ snd out = []) /\
  (forall scan,
      code_of (fst (fst out)) = 200 -> table !! scan_id = Some scan ->
      snd (fst out)
        = <[scan_id := fst (Models.update_status env "cancelled" None scan st)]> table /\
      snd out = match Models.task_id scan with
                | Some task => if PyStr.truthy task then [task] else []
                | None => []
                end) /\
  (forall auth_header,
      api_key_user users headers = None ->
      authorization headers = Some auth_header ->
      PyStr.startswith "Bearer " auth_header = true ->
      cancel_scan env jwt_decode users headers table scan_id st
      = ((Error 500 "Internal Server Error", table, []), st)).
Proof.
  cbv zeta.
  destruct (cancel_route_aux env jwt_decode users headers table scan_id st)
    as (H1 & H2 & H3).
  repeat (split; [assumption|]).
  intros auth_header Hkey Hauth Hbearer. unfold cancel_scan.
  now rewrite (bearer_reply jwt_decode users headers _ auth_header _ _ Hkey Hauth Hbearer).
Qed.

(** X22.  The read route answers 200 exactly when the request carries the
    API key of an active user, the scan exists, and the user is an admin,
    an analyst, or a user of role "user" who owns the scan; the answer is
    then made of the stored row, with the results unless the query asks
    otherwise.  A request that carries a bearer token and no accepted API
    key is answered 500. *)
Theorem read_route (jwt_decode : string -> string -> Decoded) (users : list User)
    (headers : Headers) (table : gmap Z Models.ScanResult) (scan_id : Z)
    (include_results : option string) :
  let reply := get_scan jwt_decode users headers table scan_id include_results in
  (code_of reply = 200
   <-> exists user scan,
         api_key_user users headers = Some user /\
         table !! scan_id = Some scan /\
         (role user = ADMIN \/ role user = ANALYST \/
          (role user = USER /\ id user = Models.user_id scan))) /\
  (forall scan,
      code_of reply = 200 -> table !! scan_id = Some scan ->
      reply = ScanBody 200 scan
                (String.eqb (lower (default "true" include_results)) "true")) /\
  (forall auth_header,
      api_key_user users headers = None ->
      authorization headers = Some auth_header ->
      PyStr.startswith "Bearer " auth_header = true ->
      reply = Error 500 "Internal Server Error").
Proof.
  cbv zeta.
  destruct (read_route_aux jwt_decode users headers table scan_id include_results)
    as (H1 & H2).
  repeat (split; [assumption|]).
  intros auth_header Hkey Hauth Hbearer. unfold get_scan.
  now rewrite (bearer_reply jwt_decode users headers _ auth_header _ _ Hkey Hauth Hbearer).
Qed.

End RoutesMore.

Section SubmissionMore.
Import World Auth App.

(** X23.  Submission does not look at the target beyond its being there:
    with a target that is not empty and a scan type of the enumeration
    (or none, which means "default"), the row is stored as queued for
    that target, with the priority asked for or 5, under the new key, and
    no other row is touched.  When the task is queued the answer is 202
    and the row carries the task id; when queueing raises, the answer is
    500 and the row is stored as failed.  A missing or empty target and an
    unknown scan type are answered 400 and leave the table as it was. *)
Theorem submission_outcomes
    (env : Env) (apply_async : Z -> string + string)
    (table : gmap Z Models.ScanResult) (new_id : Z)
    (data : ScanRequest) (user : User) (st : State) :
  let out := fst (create_scan_view env apply_async table new_id data user st) in
  let scan_type := default "default" (req_scan_type data) in
  if negb (NmapScanner.truthy_opt (req_target data))
     || negb (NmapValidator.string_in scan_type ScanType_values)
  then code_of (fst out) = 400 /\ snd out = table
  else
    exists row,
      snd out = <[new_id := row]> table /\
      (forall other, other <> new_id -> snd out !! other = table !! other) /\
      Models.id row = new_id /\
      Models.user_id row = id user /\
      Some (Models.target row) = req_target data /\
      Models.scan_type row = scan_type /\
      Models.priority row = default 5 (req_priority data) /\
      match apply_async new_id with
      | inl task =>
          code_of (fst out) = 202 /\ Models.status row = "queued" /\
          Models.task_id row = Some task /\ Models.error_message row = None
      | inr e =>
          code_of (fst out) = 500 /\ Models.status row = "failed" /\
          Models.task_id row = None /\
          Models.error_message row = (if PyStr.truthy e then Some e else None)
      end.
Proof.
  cbv zeta. unfold create_scan_view.
  destruct (req_target data) as [target|] eqn:Ht; cbn [NmapScanner.truthy_opt negb orb];
    [|split; reflexivity].
  destruct (PyStr.truthy target) eqn:Htr; cbn [negb orb]; [|split; reflexivity].
  destruct (NmapValidator.string_in (default "default" (req_scan_type data))
                                    ScanType_values); cbn [negb];
    [|split; reflexivity].
  change (default "" (Some target)) with target.
  unfold mbind, M_bind, mret, M_ret, utcnow. cbn [fst snd].
  destruct (apply_async new_id) as [task | e].
  - unfold mret, M_ret. cbn [fst snd code_of].
    exists (Models.set_task_id (Some task)
              (Models.new_scan new_id (id user) target
                 (default "default" (req_scan_type data))
                 (if NmapScanner.truthy_opt (req_custom_args data)
                  then req_custom_args data else None)
                 (default 5 (req_priority data)) (utcnow_at env (ticks st)))).
    split; [reflexivity|].
    split; [intros other Hne; now rewrite lookup_insert_ne|].
    repeat split.
  - unfold mbind, M_bind, mret, M_ret.
    match goal with
    | |- context [Models.update_status env ?s ?m ?r ?w] =>
        pose proof (update_status_frame env s m r w) as Hfr;
        destruct (Models.update_status env s m r w) as [row st'] eqn:Hupd
    end.
    cbv zeta in Hfr. cbn [fst snd code_of] in *.
    destruct Hfr as (Hs & Hid & Htask & Huser & Htarget & Hty & _ & Hprio & _).
    exists row. split; [reflexivity|].
    split; [intros other Hne; now rewrite lookup_insert_ne|].
    rewrite Hs, Hid, Htask, Huser, Htarget, Hty, Hprio.
    repeat split.
    assert (Hrow : row = fst (Models.update_status env (Models.value Models.FAILED)
                     (Some e)
                     (Models.new_scan new_id (id user) target
                        (default "default" (req_scan_type data))
                        (if NmapScanner.truthy_opt (req_custom_args data)
                         then req_custom_args data else None)
                        (default 5 (req_priority data))
                        (utcnow_at env (ticks st)))
                     (mkState (S (ticks st)) (spawned st))))
      by now rewrite Hupd.
    rewrite Hrow. unfold Models.update_status, mbind, M_bind, mret, M_ret, utcnow.
    simpl. destruct (PyStr.truthy e); reflexivity.
Qed.

End SubmissionMore.

(** ** The further properties at concrete inputs *)

Section MoreExamples.
Import World Models Worker Lifecycle Pipeline Scenarios.

Lemma accepted_tokens_example :
  NmapValidator.sanitize_custom_args "-sV  -p 22,80" = (true, None, Some ["-sV"; "-p"; "22,80"]) /\
  "22,80" <> "" /\
  forall c, PyStr.contains c "22,80" = true ->
            PyStr.contains c "-sV  -p 22,80" = true /\
            PyStr.isspace c = false /\
            PyStr.contains c Spec.shell_metacharacters = false.
Proof.
  split; [vm_compute; reflexivity|].
  apply (accepted_tokens_are_clean "-sV  -p 22,80" ["-sV"; "-p"; "22,80"] "22,80");
    [vm_compute; reflexivity | simpl; auto].
Defined.

Lemma reachable_row_example :
  consistent (fst (update_status (world_printing "") (value FAILED) (Some "boom")
                                 queued_row initial_state)).
Proof.
  apply (reachable_rows_are_consistent (world_printing "")).
  eapply reachable_step; [apply reachable_new | apply step_fail].
Defined.

Lemma transitions_example :
  let row := fst (update_status (world_printing "") (value FAILED) (Some "boom")
                                queued_row initial_state) in
  id row = id queued_row /\ user_id row = user_id queued_row /\
  target row = target queued_row /\ scan_type row = scan_type queued_row /\
  scan_args row = scan_args queued_row /\ priority row = priority queued_row /\
  created_at row = created_at queued_row /\
  (forall t, started_at queued_row = Some t -> started_at row = Some t) /\
  (is_some (completed_at queued_row) = true -> is_some (completed_at row) = true).
Proof.
  apply (transitions_keep_identity (world_printing "")).
  apply rtc_once. apply step_fail.
Defined.

Lemma refused_input_example :
  _app context_task = FlaskApp /\
  exists row,
    snd (fst (fst (execute_scan_task (world_printing "") context_task (Some queued_row)
                     "task-1" 1 "127.0.0.1" "quick" None initial_state))) = Some row /\
    fst (fst (fst (execute_scan_task (world_printing "") context_task (Some queued_row)
                     "task-1" 1 "127.0.0.1" "quick" None initial_state)))
      = Returned (mkTaskResult false (Some 1) None None
                    (Some "Target 127.0.0.1 overlaps forbidden range 127.0.0.0/8")) /\
    status row = value FAILED /\
    error_message row = Some "Target 127.0.0.1 overlaps forbidden range 127.0.0.0/8" /\
    spawned (snd (execute_scan_task (world_printing "") context_task (Some queued_row)
                    "task-1" 1 "127.0.0.1" "quick" None initial_state))
      = (spawned initial_state ++ [probe])%list /\
    raw_output row = raw_output queued_row /\
    parsed_results row = parsed_results queued_row /\
    Models.hosts_up row = Models.hosts_up queued_row /\
    Models.ports_found row = Models.ports_found queued_row /\
    vulnerabilities_found row = vulnerabilities_found queued_row.
Proof.
  split; [reflexivity|].
  apply (refused_input_fails_the_row (world_printing "") context_task queued_row
           "task-1" 1 "127.0.0.1" "quick" None initial_state
           "Target 127.0.0.1 overlaps forbidden range 127.0.0.0/8").
  - reflexivity.
  - intros s. reflexivity.
  - vm_compute. reflexivity.
Defined.

Lemma stored_counters_example :
  _app context_task = FlaskApp /\
  exists row,
    snd (fst (fst (execute_scan_task (world_printing annotated_text) context_task
                     (Some queued_row) "task-1" 1 "192.168.1.5" "quick" None
                     initial_state))) = Some row /\
    raw_output row = Some annotated_text /\
    parsed_results row = Some (NmapScanner.parse_root annotated_doc) /\
    Models.hosts_up row = 1 /\
    Models.ports_found row = 2.
Proof.
  split; [reflexivity|].
  destruct (stored_counters_follow_the_parse (world_printing annotated_text) context_task
              queued_row "task-1" 1 "192.168.1.5" "quick" None initial_state annotated_doc)
    as (row & Hrow & Hraw & Hparsed & Hup & Hports);
    [reflexivity | vm_compute; reflexivity | vm_compute; reflexivity |].
  exists row. split; [exact Hrow|]. split; [rewrite Hraw; vm_compute; reflexivity|].
  split; [exact Hparsed|]. split; [rewrite Hup | rewrite Hports]; vm_compute; reflexivity.
Defined.

End MoreExamples.
